(** * GoAgent: a shallow embedding of the conversation driver, the history
      truncator, the function registry and the OpenAI / DeepSeek adapters.

    Conventions of the embedding.
    - A Go [string] is a Rocq [string]: a sequence of bytes ([ascii]);
      [len(s)] is [String.length s], and ranging over a string decodes UTF-8.
    - Go's [int] is [Z].  Every [int] of the modelled code counts bytes,
      runes, messages or tool calls held in memory (or is a limit compared
      with such a count), so the 64-bit wrap-around is never reached and is
      not written out.
    - Go's [float64] is the binary64 [float] of the kernel.
    - A slice is a [list]; [s[i]] is read with [nth] under the bounds check
      the source performs, [s[lo:]] is [drop].
    - A Go map is a [gmap]. *)

From Stdlib Require Import ZArith Floats Uint63 Ascii String List Lia Bool.
From stdpp Require Import base option list gmap strings pretty.

Set Warnings "-register-all,-inexact-float".

Local Open Scope string_scope.
Local Open Scope Z_scope.

(** ** package general: the canonical model (types.go) *)

Module general.

Definition MessageRole := string.
Definition RoleSystem : MessageRole := "system".
Definition RoleUser : MessageRole := "user".
Definition RoleAssistant : MessageRole := "assistant".
Definition RoleTool : MessageRole := "tool".

Definition ContentType := string.
Definition ContentTypeText : ContentType := "text".
Definition ContentTypeImageURL : ContentType := "image_url".
Definition ContentTypeImageB64 : ContentType := "image_base64".
Definition ContentTypeTool : ContentType := "tool_call".
Definition ContentTypeToolRes : ContentType := "tool_result".

Definition DetailHigh : string := "high".

Record ImageURL := mkImageURL { URL : string; Detail : string }.

(** [Arguments] is a [json.RawMessage]: [None] is the nil slice. *)
Record FunctionCall := mkFunctionCall {
  fc_Name : string;
  fc_Arguments : option string }.

Record ToolCall := mkToolCall {
  tc_ID : string;
  tc_Type : string;
  tc_Function : FunctionCall }.

Record Content := mkContent {
  c_Type : ContentType;
  c_Text : string;
  c_ImageURL : option ImageURL;
  c_ToolCall : option ToolCall;
  c_ToolID : string }.

Record Message := mkMessage {
  Role : MessageRole;
  Content_ : list Content;
  Name : string;
  ToolCalls : list ToolCall }.

Record Usage := mkUsage {
  PromptTokens : Z;
  CompletionTokens : Z;
  TotalTokens : Z }.

Record Choice := mkChoice {
  ch_Index : Z;
  ch_Message : Message;
  ch_FinishReason : string }.

Record ChatResponse := mkChatResponse {
  resp_Model : string;
  Choices : list Choice;
  resp_Usage : Usage }.

(** A tool definition; the JSON-Schema of its parameters is kept opaque
    (as rendered text), no modelled code looks inside it. *)
Record Tool := mkTool {
  tool_Type : string;
  tool_Name : string;
  tool_Description : string;
  tool_Parameters : string }.

Record ChatRequest := mkChatRequest {
  req_Model : string;
  req_Messages : list Message;
  req_Tools : list Tool;
  req_MaxTokens : Z;
  req_Temperature : float;
  req_Stream : bool;
  req_SystemPrompt : string }.

Definition Provider := string.

(** The zero value of [Message], read by [nth] outside the bounds. *)
Definition zeroMessage : Message := mkMessage "" [] "" [].

End general.

Import general.

(** [len(s)] of a slice, as an [int]. *)
Definition len {A} (l : list A) : Z := Z.of_nat (length l).

(** [s[i]] for [0 <= i < len(s)]. *)
Definition msg_at (messages : list Message) (i : Z) : Message :=
  nth (Z.to_nat i) messages zeroMessage.

(** [s[lo:hi]] and [s[lo:]] for [0 <= lo <= hi <= len(s)]. *)
Definition slice {A} (s : list A) (lo hi : Z) : list A :=
  take (Z.to_nat (hi - lo)) (drop (Z.to_nat lo) s).

Definition slice_from {A} (s : list A) (lo : Z) : list A :=
  drop (Z.to_nat lo) s.


(** ** Conversions between [int] and [float64] *)

Module float64.

(** [float64(n)] for an [int] below [2^63] in absolute value. *)
Definition of_int (n : Z) : float :=
  if n <? 0 then PrimFloat.opp (PrimFloat.of_uint63 (Uint63.of_Z (- n)))
  else PrimFloat.of_uint63 (Uint63.of_Z n).

(** [int(f)]: the fraction is discarded (truncation toward zero).  Not a
    number and the infinities, for which Go leaves the result to the
    implementation, give 0 here. *)
Definition to_int (f : float) : Z :=
  match Prim2SF f with
  | S754_finite s m e =>
      let a := if 0 <=? e then Z.pos m * 2 ^ e else Z.pos m / 2 ^ (- e) in
      if s then - a else a
  | _ => 0
  end.

End float64.

(** ** Values seen through package reflect and encoding/json *)

Module reflect.

(** What [json.Unmarshal] stores in an [interface{}]: [nil], [bool],
    [float64], [string], [[]interface{}] and [map[string]interface{}]. *)
Inductive JValue :=
| JNull
| JBool (b : bool)
| JNumber (f : float)
| JString (s : string)
| JArray (l : list JValue)
| JObject (l : list (string * JValue)).

Inductive IntKind :=
| Int | Int8 | Int16 | Int32 | Int64
| Uint | Uint8 | Uint16 | Uint32 | Uint64 | Uintptr.

(** The types a registered function may take or return
    ([IsValidParameterType], [IsValidParameterTypeReturn]).  Defined types
    are identified with the type they are defined from. *)
Inductive GoType :=
| TBool
| TInt (k : IntKind)
| TFloat32 | TFloat64
| TComplex64 | TComplex128
| TString
| TArray (n : Z) (elem : GoType)
| TSlice (elem : GoType)
| TMap (key elem : GoType)
| TInterface            (* interface{} *)
| TError.               (* the interface type error *)

(** A [reflect.Value].  A value of array, slice, map or complex type is
    named by a JSON tree ([JNull] for the zero value); only the runtime's
    rendering looks at it. *)
Inductive Value :=
| VBool (b : bool)
| VInt (k : IntKind) (z : Z)
| VFloat32 (f : float)
| VFloat64 (f : float)
| VString (s : string)
| VError (e : option string)     (* [None] is the nil error *)
| VOther (t : GoType) (j : JValue).

(** [Value.Type()] *)
Definition TypeOfValue (v : Value) : GoType :=
  match v with
  | VBool _ => TBool
  | VInt k _ => TInt k
  | VFloat32 _ => TFloat32
  | VFloat64 _ => TFloat64
  | VString _ => TString
  | VError _ => TError
  | VOther t _ => t
  end.

(** [result.Type().Implements(reflect.TypeOf(( *error)(nil)).Elem())] *)
Definition ImplementsError (t : GoType) : bool :=
  match t with TError => true | _ => false end.

(** [Value.IsNil()], used on values of type error. *)
Definition IsNil (v : Value) : bool :=
  match v with
  | VError None => true
  | VOther _ JNull => true
  | _ => false
  end.

(** [reflect.Zero(t)] *)
Definition Zero (t : GoType) : Value :=
  match t with
  | TBool => VBool false
  | TInt k => VInt k 0
  | TFloat32 => VFloat32 0%float
  | TFloat64 => VFloat64 0%float
  | TString => VString ""
  | TError => VError None
  | _ => VOther t JNull
  end.

(** [reflect.TypeOf(value)] of a decoded JSON value that is not nil. *)
Definition TypeOfJSON (j : JValue) : option GoType :=
  match j with
  | JNull => None
  | JBool _ => Some TBool
  | JNumber _ => Some TFloat64
  | JString _ => Some TString
  | JArray _ => Some (TSlice TInterface)
  | JObject _ => Some (TMap TString TInterface)
  end.

(** [reflect.ValueOf(value)] of a decoded JSON value. *)
Definition ValueOfJSON (j : JValue) : Value :=
  match j with
  | JNull => VOther TInterface JNull
  | JBool b => VBool b
  | JNumber f => VFloat64 f
  | JString s => VString s
  | JArray _ => VOther (TSlice TInterface) j
  | JObject _ => VOther (TMap TString TInterface) j
  end.

Definition GoType_eqb : GoType -> GoType -> bool :=
  fix eqb (a b : GoType) : bool :=
    match a, b with
    | TBool, TBool | TFloat32, TFloat32 | TFloat64, TFloat64
    | TComplex64, TComplex64 | TComplex128, TComplex128
    | TString, TString | TInterface, TInterface | TError, TError => true
    | TInt k, TInt k' =>
        match k, k' with
        | Int, Int | Int8, Int8 | Int16, Int16 | Int32, Int32 | Int64, Int64
        | Uint, Uint | Uint8, Uint8 | Uint16, Uint16 | Uint32, Uint32
        | Uint64, Uint64 | Uintptr, Uintptr => true
        | _, _ => false
        end
    | TArray n e, TArray n' e' => (n =? n') && eqb e e'
    | TSlice e, TSlice e' => eqb e e'
    | TMap k e, TMap k' e' => eqb k k' && eqb e e'
    | _, _ => false
    end.

(** The parts of the Go runtime and standard library the registry calls
    and that are not modelled further. *)
Class Runtime := {
  (** [json.Unmarshal(data, &params)] with [params map[string]interface{}];
      [inl msg] when it returns an error *)
  json_Unmarshal_object : string -> string + gmap string JValue;
  (** [json.Unmarshal(data, &argsStr)] with [argsStr string] *)
  json_Unmarshal_string : string -> option string;
  (** the conversions [int(v)], [int8(v)], ..., [uintptr(v)] of a
      [float64]; implementation-dependent outside the target's range *)
  float64_to_int : IntKind -> float -> Z;
  (** [float32(v)] *)
  float64_to_float32 : float -> float;
  (** [fmt.Sprintf("%.6f", v)] *)
  fmt_6f : float -> string;
  (** the default case of [ConvertReturnValueToString]: [json.Marshal],
      or the [<%T: %v>] rendering when that fails *)
  fmt_composite : GoType -> JValue -> string;
  (** [Type.String()] *)
  Type_String : GoType -> string
}.

End reflect.

Import reflect.

(** ** package ConversationManager *)

Module ConversationManager.

Section Driver.

(** Everything outside the process: the providers behind the dispatcher
    and whatever the registered functions touch. *)
Context {World : Type} `{Runtime}.

(** A registered [reflect.Value] of kind Func: its parameter types
    ([fnType.In(i)]) and what [fnValue.Call(args)] does. *)
Record Func := mkFunc {
  In : list GoType;
  Call : list Value -> World -> list Value * World }.

(** [manager] is the dispatcher's [Chat(ctx, provider, req)]: an error or
    a response. *)
Record ConversationManager := mkCM {
  manager : Provider -> ChatRequest -> World -> (string + ChatResponse) * World;
  history : list Message;
  tools : list Tool;
  registeredFuncs : gmap string Func;
  funcSchemas : gmap string Tool;
  funcParamNames : gmap string (list string);
  systemPrompt : string;
  MaxFunctionCallingNums : Z;
  MaxChatNums : Z;
  MaxTokens : Z;
  Temperature : float;
  MaxHistoryTokens : Z;
  EnableTruncation : bool;
  LastUsage : option Usage;
  TotalUsage : option Usage }.

Definition set_history (cm : ConversationManager) (h : list Message) :=
  mkCM (manager cm) h (tools cm) (registeredFuncs cm) (funcSchemas cm)
       (funcParamNames cm) (systemPrompt cm) (MaxFunctionCallingNums cm)
       (MaxChatNums cm) (MaxTokens cm) (Temperature cm)
       (MaxHistoryTokens cm) (EnableTruncation cm) (LastUsage cm)
       (TotalUsage cm).

Definition set_usage (cm : ConversationManager) (last total : option Usage) :=
  mkCM (manager cm) (history cm) (tools cm) (registeredFuncs cm)
       (funcSchemas cm) (funcParamNames cm) (systemPrompt cm)
       (MaxFunctionCallingNums cm) (MaxChatNums cm) (MaxTokens cm)
       (Temperature cm) (MaxHistoryTokens cm) (EnableTruncation cm)
       last total.

(** [AddMessage] (base.go) *)
Definition AddMessage (cm : ConversationManager) (role : MessageRole)
    (content : list Content) : ConversationManager :=
  set_history cm (history cm ++ [mkMessage role content "" []]).

(** [GetHistory] (base.go) *)
Definition GetHistory (cm : ConversationManager) : list Message := history cm.

(** [NewConversationManager] (base.go) *)
Definition NewConversationManager
    (manager : Provider -> ChatRequest -> World -> (string + ChatResponse) * World)
    : ConversationManager :=
  mkCM manager [] [] ∅ ∅ ∅ "" 15 0 5000 0.7%float 100000 true None None.

Definition SetMaxFunctionCallingNums (cm : ConversationManager)
    (maxFunctionCallingNums : Z) : ConversationManager :=
  mkCM (manager cm) (history cm) (tools cm) (registeredFuncs cm)
       (funcSchemas cm) (funcParamNames cm) (systemPrompt cm)
       maxFunctionCallingNums (MaxChatNums cm) (MaxTokens cm)
       (Temperature cm) (MaxHistoryTokens cm) (EnableTruncation cm)
       (LastUsage cm) (TotalUsage cm).

Definition SetSystemPrompt (cm : ConversationManager) (prompt : string)
    : ConversationManager :=
  mkCM (manager cm) (history cm) (tools cm) (registeredFuncs cm)
       (funcSchemas cm) (funcParamNames cm) prompt
       (MaxFunctionCallingNums cm) (MaxChatNums cm) (MaxTokens cm)
       (Temperature cm) (MaxHistoryTokens cm) (EnableTruncation cm)
       (LastUsage cm) (TotalUsage cm).

Definition SetMaxHistoryTokens (cm : ConversationManager) (maxTokens : Z)
    : ConversationManager :=
  mkCM (manager cm) (history cm) (tools cm) (registeredFuncs cm)
       (funcSchemas cm) (funcParamNames cm) (systemPrompt cm)
       (MaxFunctionCallingNums cm) (MaxChatNums cm) (MaxTokens cm)
       (Temperature cm) maxTokens (EnableTruncation cm)
       (LastUsage cm) (TotalUsage cm).

Definition EnableHistoryTruncation (cm : ConversationManager) (enable : bool)
    : ConversationManager :=
  mkCM (manager cm) (history cm) (tools cm) (registeredFuncs cm)
       (funcSchemas cm) (funcParamNames cm) (systemPrompt cm)
       (MaxFunctionCallingNums cm) (MaxChatNums cm) (MaxTokens cm)
       (Temperature cm) (MaxHistoryTokens cm) enable
       (LastUsage cm) (TotalUsage cm).

(** [AddFullMessage] (base.go) *)
Definition AddFullMessage (cm : ConversationManager) (message : Message)
    : ConversationManager :=
  set_history cm (history cm ++ [message]).

(** [hasToolCalls] (functionCalling.go) *)
Definition hasToolCalls (msg : Message) : bool := 0 <? len (ToolCalls msg).

(** *** The token estimator *)

Definition byte_of (c : ascii) : Z := Z.of_N (N_of_ascii c).

Definition is_cont (c : ascii) : bool :=
  (128 <=? byte_of c) && (byte_of c <=? 191).

Definition in_range (lo hi : Z) (c : ascii) : bool :=
  (lo <=? byte_of c) && (byte_of c <=? hi).

(** [for _, char := range text]: the number of iterations, that is the
    number of runes of [text].  Decoding follows [utf8.DecodeRuneInString]:
    a well-formed sequence of 1 to 4 bytes is one rune, any other byte is
    one rune ([RuneError]) of width 1.  Both branches of the source's
    [if char > 127] add one token. *)
Fixpoint rune_count (text : string) : Z :=
  match text with
  | EmptyString => 0
  | String b0 t0 =>
      let one := 1 + rune_count t0 in
      if byte_of b0 <? 128 then one
      else match t0 with
      | EmptyString => one
      | String b1 t1 =>
          if in_range 194 223 b0 then
            if is_cont b1 then 1 + rune_count t1 else one
          else match t1 with
          | EmptyString => one
          | String b2 t2 =>
              let second3 :=
                if byte_of b0 =? 224 then in_range 160 191 b1
                else if byte_of b0 =? 237 then in_range 128 159 b1
                else in_range 225 239 b0 && is_cont b1 in
              if in_range 224 239 b0 then
                if second3 && is_cont b2 then 1 + rune_count t2 else one
              else match t2 with
              | EmptyString => one
              | String b3 t3 =>
                  let second4 :=
                    if byte_of b0 =? 240 then in_range 144 191 b1
                    else if byte_of b0 =? 244 then in_range 128 143 b1
                    else in_range 241 243 b0 && is_cont b1 in
                  if second4 && is_cont b2 && is_cont b3
                  then 1 + rune_count t3 else one
              end
          end
      end
  end.

(** Go's [/] on [int] truncates toward zero: [Z.quot]. *)
Definition CalculateTokens (text : string) : Z :=
  if String.eqb text "" then 0
  else Z.quot (rune_count text) 2.


(** [calculateMessageTokens] *)
Definition calculateMessageTokens (msg : Message) : Z :=
  fold_left (fun tokens content => tokens + CalculateTokens (c_Text content))
            (Content_ msg) 0
  + len (ToolCalls msg) * 50.

(** [CalculateUnitTokens] *)
Definition CalculateUnitTokens (messages : list Message) : Z :=
  fold_left (fun totalTokens msg => totalTokens + calculateMessageTokens msg)
            messages 0.

(** *** Safe units *)

Record SafeUnit := mkSafeUnit {
  StartIndex : Z;
  EndIndex : Z;
  TokenCount : Z;
  UnitType : string }.

Definition set_EndIndex (u : SafeUnit) (e : Z) : SafeUnit :=
  mkSafeUnit (StartIndex u) e (TokenCount u) (UnitType u).
Definition set_TokenCount (u : SafeUnit) (t : Z) : SafeUnit :=
  mkSafeUnit (StartIndex u) (EndIndex u) t (UnitType u).
Definition set_UnitType (u : SafeUnit) (t : string) : SafeUnit :=
  mkSafeUnit (StartIndex u) (EndIndex u) (TokenCount u) t.

(** The loop of [findEndOfToolSequence], entered with index [i].  Every
    iteration that does not return adds one to [i], so [len - i]
    iterations are enough; [fuel] bounds them. *)
Fixpoint findEnd_loop (fuel : nat) (messages : list Message) (i : Z) : Z :=
  match fuel with
  | O => len messages - 1
  | S fuel' =>
      if i <? len messages then
        let m := msg_at messages i in
        if String.eqb (Role m) RoleTool then
          findEnd_loop fuel' messages (i + 1)
        else if String.eqb (Role m) RoleAssistant then
          if hasToolCalls m then findEnd_loop fuel' messages (i + 1)
          else i
        else i - 1
      else len messages - 1
  end.

Definition findEndOfToolSequence (messages : list Message) (startIndex : Z) : Z :=
  findEnd_loop (length messages) messages (startIndex + 1).

(** The inner loop of [identifySafeUnits] (the search for the assistant
    reply), entered with index [i] and the unit under construction;
    returns both as the loop leaves them. *)
Fixpoint reply_loop (fuel : nat) (messages : list Message) (i : Z)
    (unit : SafeUnit) : Z * SafeUnit :=
  match fuel with
  | O => (i, unit)
  | S fuel' =>
      if i <? len messages then
        let m := msg_at messages i in
        if String.eqb (Role m) RoleAssistant then
          let '(i1, unit1) :=
            if hasToolCalls m
            then (findEndOfToolSequence messages i,
                  set_UnitType unit "tool_sequence")
            else (i, unit) in
          (i1, set_EndIndex unit1 i1)
        else if String.eqb (Role m) RoleTool then
          reply_loop fuel' messages (i + 1) unit
        else (i - 1, set_EndIndex unit (i - 1))
      else (i, unit)
  end.

(** The outer loop of [identifySafeUnits]. *)
Fixpoint units_loop (fuel : nat) (messages : list Message) (i : Z)
    (units : list SafeUnit) : list SafeUnit :=
  match fuel with
  | O => units
  | S fuel' =>
      if i <? len messages then
        if String.eqb (Role (msg_at messages i)) RoleUser then
          let unit := mkSafeUnit i 0 0 "dialog" in
          let '(i1, unit1) :=
            reply_loop (length messages) messages (i + 1) unit in
          let unit2 :=
            if len messages <=? i1
            then set_EndIndex unit1 (len messages - 1) else unit1 in
          let unit3 :=
            set_TokenCount unit2
              (CalculateUnitTokens
                 (slice messages (StartIndex unit2) (EndIndex unit2 + 1))) in
          units_loop fuel' messages (i1 + 1) (units ++ [unit3])
        else units_loop fuel' messages (i + 1) units
      else units
  end.

Definition identifySafeUnits (messages : list Message) : list SafeUnit :=
  if len messages =? 0 then []
  else units_loop (length messages) messages 0 [].

(** The loop of [selectUnitsFromEnd] over [units[len-1]], ..., [units[0]]
    ([rest] is what is still to visit, newest first). *)
Fixpoint select_loop (maxTokens : Z) (rest : list SafeUnit)
    (selected : list SafeUnit) (currentTokens : Z) : list SafeUnit :=
  match rest with
  | [] => selected
  | unit :: rest' =>
      if currentTokens + TokenCount unit <=? maxTokens
      then select_loop maxTokens rest' (unit :: selected)
                       (currentTokens + TokenCount unit)
      else selected
  end.

Definition selectUnitsFromEnd (units : list SafeUnit) (maxTokens : Z)
    : list SafeUnit :=
  if len units =? 0 then []
  else select_loop maxTokens (rev units) [] 0.

(** [for len(selectedUnits) > 0 && selectedUnits[0].UnitType != "dialog"] *)
Fixpoint dropLeadingNonDialog (selectedUnits : list SafeUnit) : list SafeUnit :=
  match selectedUnits with
  | [] => []
  | u :: rest =>
      if negb (String.eqb (UnitType u) "dialog")
      then dropLeadingNonDialog rest
      else selectedUnits
  end.

(** [int(float64(MaxHistoryTokens) * 0.8)].  For [|MaxHistoryTokens|] up
    to [2^40] the binary64 product, truncated toward zero, is the exact
    [4 * MaxHistoryTokens / 5] truncated toward zero; the limit is
    modelled in that range ([float_threshold] below is the computation as
    the source writes it). *)
Definition threshold (maxHistoryTokens : Z) : Z :=
  Z.quot (4 * maxHistoryTokens) 5.

Definition float_threshold (maxHistoryTokens : Z) : Z :=
  float64.to_int (PrimFloat.mul (float64.of_int maxHistoryTokens) 0.8%float).

(** [truncateHistory] *)
Definition truncateHistory (cm : ConversationManager)
    (messages : list Message) : list Message :=
  if negb (EnableTruncation cm) || (len messages =? 0) then messages
  else
    let currentTokens := CalculateUnitTokens messages in
    let systemTokens := CalculateTokens (systemPrompt cm) in
    let totalCurrentTokens := currentTokens + systemTokens in
    if totalCurrentTokens <=? threshold (MaxHistoryTokens cm) then messages
    else
      let availableTokens := MaxHistoryTokens cm - systemTokens - 500 in
      if availableTokens <=? 0 then []
      else
        let units := identifySafeUnits messages in
        if len units =? 0 then messages
        else
          let selectedUnits := selectUnitsFromEnd units availableTokens in
          if len selectedUnits =? 0 then []
          else
            match dropLeadingNonDialog selectedUnits with
            | [] => []
            | u :: _ => slice_from messages (StartIndex u)
            end.

(** *** The function registry (convertFunction.go, functionCalling.go) *)

(** A Go [(T, error)] result: [inl msg] is the non-nil error. *)
Definition result (A : Type) : Type := (string + A)%type.

Definition IntKind_name (k : IntKind) : string :=
  match k with
  | Int => "int" | Int8 => "int8" | Int16 => "int16" | Int32 => "int32"
  | Int64 => "int64" | Uint => "uint" | Uint8 => "uint8"
  | Uint16 => "uint16" | Uint32 => "uint32" | Uint64 => "uint64"
  | Uintptr => "uintptr"
  end.

(** [ConvertInterfaceToType] *)
Definition ConvertInterfaceToType (value : JValue) (targetType : GoType)
    : result Value :=
  match TypeOfJSON value with
  | None => inr (Zero targetType)
  | Some t =>
      if GoType_eqb t targetType then inr (ValueOfJSON value)
      else match targetType with
      | TBool =>
          match value with
          | JBool v => inr (VBool v)
          | _ => inl "无法转换为 bool 类型"
          end
      | TString =>
          match value with
          | JString v => inr (VString v)
          | _ => inl "无法转换为 string 类型"
          end
      | TInt k =>
          match value with
          | JNumber v => inr (VInt k (float64_to_int k v))
          | _ => inl ("无法转换为 " ++ IntKind_name k ++ " 类型")
          end
      | TFloat32 =>
          match value with
          | JNumber v => inr (VFloat32 (float64_to_float32 v))
          | _ => inl "无法转换为 float32 类型"
          end
      | TFloat64 =>
          match value with
          | JNumber v => inr (VFloat64 v)
          | _ => inl "无法转换为 float64 类型"
          end
      | _ => inl ("不支持的类型转换: " ++ Type_String targetType)
      end
  end.

(** [fmt.Sprintf("%d", v)] *)
Definition fmt_d (z : Z) : string := pretty z.

(** [ConvertReturnValueToString], on a value returned by [Call]. *)
Definition ConvertReturnValueToString (value : Value) : string :=
  match value with
  | VError None => "<nil>"
  | VOther TInterface JNull => "<nil>"
  | VString v => v
  | VError (Some msg) => "ERROR: " ++ msg
  | VBool v => if v then "true" else "false"
  | VInt _ v => fmt_d v  (* a uintptr takes the default case: the same digits *)
  | VFloat32 v | VFloat64 v => fmt_6f v
  | VOther t j => fmt_composite t j
  end.

(** The parameter loop of [CallRegisteredFunction], from index [i] on:
    [ins] are the types [fnType.In(i)], [fnType.In(i+1)], ... *)
Fixpoint args_loop (params : gmap string JValue)
    (savedParamNames : list string) (ins : list GoType) (i : nat)
    : result (list Value) :=
  match ins with
  | [] => inr []
  | paramType :: ins' =>
      let paramName := nth i savedParamNames "" in
      match params !! paramName with
      | None =>
          match args_loop params savedParamNames ins' (S i) with
          | inl e => inl e
          | inr args => inr (Zero paramType :: args)
          end
      | Some paramValue =>
          match ConvertInterfaceToType paramValue paramType with
          | inl err => inl ("转换参数 " ++ paramName ++ " 失败: " ++ err)
          | inr convertedValue =>
              match args_loop params savedParamNames ins' (S i) with
              | inl e => inl e
              | inr args => inr (convertedValue :: args)
              end
          end
      end
  end.

(** The loop over [results] of [CallRegisteredFunction]: the
    [resultParts] it collects, or the error it returns. *)
Fixpoint results_loop (results : list Value) : result (list string) :=
  match results with
  | [] => inr []
  | result :: rest =>
      let resultStr := ConvertReturnValueToString result in
      if (len rest =? 0) && ImplementsError (TypeOfValue result) then
        if negb (IsNil result) then inl ("函数执行错误: " ++ resultStr)
        else inr []
      else
        match results_loop rest with
        | inl e => inl e
        | inr parts => inr (resultStr :: parts)
        end
  end.

(** The parsing of [arguments] at the head of [CallRegisteredFunction]. *)
Definition parse_arguments (arguments : option string)
    : result (gmap string JValue) :=
  let data := default "" arguments in
  match json_Unmarshal_object data with
  | inr params => inr params
  | inl err =>
      match json_Unmarshal_string data with
      | Some argsStr =>
          match json_Unmarshal_object argsStr with
          | inr params => inr params
          | inl _ => inl ("解析参数失败: " ++ err)
          end
      | None => inl ("解析参数失败: " ++ err)
      end
  end.

(** What follows [results := fnValue.Call(args)]. *)
Definition render_results (results : list Value) : result string :=
  if len results =? 0 then inr "函数执行完成"
  else
    match results_loop results with
    | inl e => inl e
    | inr resultParts =>
        match resultParts with
        | [] => inr "函数执行完成"
        | first :: _ => inr ("函数返回: " ++ first)
        end
    end.

(** [CallRegisteredFunction] *)
Definition CallRegisteredFunction (cm : ConversationManager) (name : string)
    (arguments : option string) (w : World) : result string * World :=
  match registeredFuncs cm !! name with
  | None => (inl ("未找到注册的函数: " ++ name), w)
  | Some fnValue =>
      match parse_arguments arguments with
      | inl e => (inl e, w)
      | inr params =>
          match funcParamNames cm !! name with
          | None => (inl ("未找到函数 " ++ name ++ " 的参数名称信息"), w)
          | Some savedParamNames =>
              match args_loop params savedParamNames (In fnValue) 0 with
              | inl e => (inl e, w)
              | inr args =>
                  let '(results, w') := Call fnValue args w in
                  (render_results results, w')
              end
          end
      end
  end.

(** *** The conversation loop (chat.go) *)

(** What a run leaves behind besides the manager: the messages sent on
    [info_chan] and, as instrumentation, every call of
    [CallRegisteredFunction] made by [HandleToolCall]. *)
Inductive Event :=
| Sent (m : Message)
| Executed (toolCall : ToolCall).

Record State := mkState {
  st_cm : ConversationManager;
  st_world : World;
  st_trace : list Event }.

(** [if info_chan != nil { info_chan <- m }] *)
Definition send (info_chan : bool) (m : Message) (trace : list Event) :=
  if info_chan then (trace ++ [Sent m])%list else trace.

(** The number of tool executions recorded in a trace. *)
Definition is_Executed (e : Event) : bool :=
  match e with Executed _ => true | Sent _ => false end.

Definition executions (trace : list Event) : Z :=
  len (List.filter is_Executed trace).

(** [HandleToolCall]: [None] is the nil error. *)
Definition HandleToolCall (st : State) (toolCall : ToolCall)
    (info_chan : bool) : option string * State :=
  let cm := st_cm st in
  match registeredFuncs cm !! fc_Name (tc_Function toolCall) with
  | Some _ =>
      let '(r, w') :=
        CallRegisteredFunction cm (fc_Name (tc_Function toolCall))
          (fc_Arguments (tc_Function toolCall)) (st_world st) in
      let result :=
        match r with
        | inl err => "函数执行错误: " ++ err
        | inr result => result
        end in
      let content :=
        [mkContent ContentTypeToolRes result None None (tc_ID toolCall)] in
      let cm' := AddMessage cm RoleTool content in
      (None,
       mkState cm' w'
         (send info_chan (mkMessage RoleTool content "" [])
               (st_trace st ++ [Executed toolCall])%list))
  | None => (Some ("未找到函数: " ++ fc_Name (tc_Function toolCall)), st)
  end.

(** How the body of [Chat] is left: by one of its [return] statements
    with an error, or by falling out of the loop. *)
Inductive Exit :=
| Returned (stop_reason : string) (err : string)
| LoopDone (stop_reason : string).

(** The loop over [choice.Message.ToolCalls].  Returns the exit taken
    by a [return], or [functionCallCount], [shouldExit] and
    [stop_reason] as the loop leaves them. *)
Fixpoint toolcalls_loop (toolCalls : list ToolCall) (info_chan : bool)
    (st : State) (functionCallCount : Z) (stop_reason : string)
    : (Exit + Z * bool * string) * State :=
  match toolCalls with
  | [] => (inr (functionCallCount, false, stop_reason), st)
  | toolCall :: rest =>
      let functionCallCount := functionCallCount + 1 in
      if MaxFunctionCallingNums (st_cm st) <? functionCallCount then
        match HandleToolCall st toolCall info_chan with
        | (Some err, st') =>
            (inl (Returned "error" ("函数调用失败: " ++ err)), st')
        | (None, st') =>
            (inr (functionCallCount, true, "max_function_calling_nums"), st')
        end
      else
        match HandleToolCall st toolCall info_chan with
        | (Some err, st') =>
            (inl (Returned "error" ("函数调用失败: " ++ err)), st')
        | (None, st') =>
            toolcalls_loop rest info_chan st' functionCallCount stop_reason
        end
  end.

Definition add_usage (total : Usage) (u : Usage) : Usage :=
  mkUsage (PromptTokens total + PromptTokens u)
          (CompletionTokens total + CompletionTokens u)
          (TotalTokens total + TotalTokens u).

(** The [for !shouldExit] loop of [Chat]; one unit of [fuel] per round,
    [None] when it runs out. *)
Fixpoint chat_loop (fuel : nat) (provider : Provider) (allTools : list Tool)
    (info_chan : bool) (st : State) (functionCallCount : Z)
    (stop_reason : string) : option (Exit * State) :=
  match fuel with
  | O => None
  | S fuel' =>
      let cm := st_cm st in
      let req :=
        mkChatRequest "" (GetHistory cm) allTools (MaxTokens cm)
                      (Temperature cm) false (systemPrompt cm) in
      match manager cm provider req (st_world st) with
      | (inl err, w') =>
          Some (Returned "" ("chat failed: " ++ err),
                mkState cm w' (st_trace st))
      | (inr resp, w') =>
          let total := default (mkUsage 0 0 0) (TotalUsage cm) in
          let cm1 :=
            set_usage cm (Some (resp_Usage resp))
                      (Some (add_usage total (resp_Usage resp))) in
          match Choices resp with
          | choice :: _ =>
              let cm2 := set_history cm1 (history cm1 ++ [ch_Message choice]) in
              let st2 :=
                mkState cm2 w'
                        (send info_chan (ch_Message choice) (st_trace st)) in
              if len (ToolCalls (ch_Message choice)) =? 0
              then Some (LoopDone stop_reason, st2)
              else
                match toolcalls_loop (ToolCalls (ch_Message choice))
                        info_chan st2 functionCallCount stop_reason with
                | (inl exit, st3) => Some (exit, st3)
                | (inr (count, shouldExit, stop_reason'), st3) =>
                    if shouldExit : bool then Some (LoopDone stop_reason', st3)
                    else chat_loop fuel' provider allTools info_chan st3
                                   count stop_reason'
                end
          | [] => Some (LoopDone stop_reason, mkState cm1 w' (st_trace st))
          end
      end
  end.

(** The four values [Chat] returns; [res_err = None] is the nil error. *)
Record ChatResult := mkChatResult {
  res_messages : list Message;
  res_finish : string;
  res_err : option string;
  res_usage : option Usage }.

(** [Chat].  The deferred function runs on every way out: it restores
    [historySnapshot] unless [success] was set, which only the last
    statement does.  A round that does not end the loop handles at least
    one tool call within the limit, so [MaxFunctionCallingNums + 1]
    rounds are enough. *)
Definition Chat (cm : ConversationManager) (provider : Provider)
    (userMessage : string) (imageBase64s : list string) (info_chan : bool)
    (w : World) : option (ChatResult * State) :=
  let cm := set_history cm (truncateHistory cm (history cm)) in
  let stop_reason := "success" in
  let historySnapshot := history cm in
  let HistoryLength := len (history cm) in
  let content :=
    ((if negb (String.eqb userMessage "")
      then [mkContent ContentTypeText userMessage None None ""] else [])
     ++ map (fun imageBase64 =>
               mkContent ContentTypeImageURL ""
                 (Some (mkImageURL ("data:image/png;base64," ++ imageBase64)%string
                                   DetailHigh))
                 None "")
            imageBase64s)%list in
  let cm := if 0 <? len content then AddMessage cm RoleUser content else cm in
  let trace := send info_chan (mkMessage RoleUser content "" []) [] in
  let allTools := tools cm in
  match chat_loop (S (Z.to_nat (MaxFunctionCallingNums cm))) provider
          allTools info_chan (mkState cm w trace) 0 stop_reason with
  | None => None
  | Some (Returned stop_reason err, st) =>
      Some (mkChatResult [] stop_reason (Some err) None,
            mkState (set_history (st_cm st) historySnapshot)
                    (st_world st) (st_trace st))
  | Some (LoopDone stop_reason, st) =>
      Some (mkChatResult (slice_from (history (st_cm st)) HistoryLength)
                         stop_reason None (TotalUsage (st_cm st)),
            st)
  end.

(** *** Predicates and functions used to state the properties *)

(** Units in the order the scan emits them: each starts on a user
    message inside the slice, at or after [lo], and strictly after the
    start of the unit before it. *)
Fixpoint ascending (messages : list Message) (lo : Z) (units : list SafeUnit)
    : Prop :=
  match units with
  | [] => True
  | u :: rest =>
      (lo <= StartIndex u < len messages
       /\ Role (msg_at messages (StartIndex u)) = RoleUser)
      /\ ascending messages (StartIndex u + 1) rest
  end.

(** The sum of the token counts of a list of units. *)
Definition units_tokens (units : list SafeUnit) : Z :=
  fold_right (fun u acc => TokenCount u + acc) 0 units.

(** The return values that [CallRegisteredFunction] renders: all of them
    except a value of type error in the last position. *)
Fixpoint drop_trailing_error (results : list Value) : list Value :=
  match results with
  | [] => []
  | v :: rest =>
      match rest with
      | [] => if ImplementsError (TypeOfValue v) then [] else [v]
      | _ :: _ => v :: drop_trailing_error rest
      end
  end.

(** The return values that are not of type error, wherever they stand. *)
Definition non_error_results (results : list Value) : list Value :=
  List.filter (fun v => negb (ImplementsError (TypeOfValue v))) results.

(** The string a successful call returns, given the values it reports. *)
Definition success_text (reported : list Value) : string :=
  match reported with
  | [] => "函数执行完成"
  | first :: _ => "函数返回: " ++ ConvertReturnValueToString first
  end.

(** The units cut the slice from [lo] on into user turns: each unit lies
    inside the slice, starts on the first user message at or after the end
    of the unit before it, holds no other user message, and carries the
    token count of the messages it spans; no user message follows the last
    unit. *)
Fixpoint partitions (messages : list Message) (lo : Z) (units : list SafeUnit)
    : Prop :=
  match units with
  | [] =>
      forall k, lo <= k < len messages -> Role (msg_at messages k) <> RoleUser
  | u :: rest =>
      (lo <= StartIndex u <= EndIndex u /\ EndIndex u < len messages)
      /\ (forall k, lo <= k < StartIndex u ->
                    Role (msg_at messages k) <> RoleUser)
      /\ Role (msg_at messages (StartIndex u)) = RoleUser
      /\ (forall k, StartIndex u < k <= EndIndex u ->
                    Role (msg_at messages k) <> RoleUser)
      /\ TokenCount u
         = CalculateUnitTokens
             (slice messages (StartIndex u) (EndIndex u + 1))
      /\ partitions messages (EndIndex u + 1) rest
  end.

(** The indices, from [i] on, of the messages of role user. *)
Fixpoint user_indices (messages : list Message) (i : Z) : list Z :=
  match messages with
  | [] => []
  | m :: rest =>
      if String.eqb (Role m) RoleUser
      then i :: user_indices rest (i + 1)
      else user_indices rest (i + 1)
  end.

(** Two managers that differ at most in the history and the usage
    counters. *)
Definition same_settings (a b : ConversationManager) : Prop :=
  manager a = manager b
  /\ tools a = tools b
  /\ registeredFuncs a = registeredFuncs b
  /\ funcSchemas a = funcSchemas b
  /\ funcParamNames a = funcParamNames b
  /\ systemPrompt a = systemPrompt b
  /\ MaxFunctionCallingNums a = MaxFunctionCallingNums b
  /\ MaxChatNums a = MaxChatNums b
  /\ MaxTokens a = MaxTokens b
  /\ Temperature a = Temperature b
  /\ MaxHistoryTokens a = MaxHistoryTokens b
  /\ EnableTruncation a = EnableTruncation b.

(** The messages sent on [info_chan], in order. *)
Fixpoint sent_messages (trace : list Event) : list Message :=
  match trace with
  | [] => []
  | Sent m :: rest => m :: sent_messages rest
  | Executed _ :: rest => sent_messages rest
  end.

(** The ids of the tool calls executed, in order. *)
Fixpoint executed_ids (trace : list Event) : list string :=
  match trace with
  | [] => []
  | Executed toolCall :: rest => tc_ID toolCall :: executed_ids rest
  | Sent _ :: rest => executed_ids rest
  end.

(** The [tool_id]s carried by the messages of role tool, in order. *)
Fixpoint tool_result_ids (messages : list Message) : list string :=
  match messages with
  | [] => []
  | m :: rest =>
      if String.eqb (Role m) RoleTool
      then (map c_ToolID (Content_ m) ++ tool_result_ids rest)%list
      else tool_result_ids rest
  end.

(** The content [Chat] builds for the user turn. *)
Definition user_content (userMessage : string) (imageBase64s : list string)
    : list Content :=
  ((if negb (String.eqb userMessage "")
    then [mkContent ContentTypeText userMessage None None ""] else [])
   ++ map (fun imageBase64 =>
             mkContent ContentTypeImageURL ""
               (Some (mkImageURL ("data:image/png;base64," ++ imageBase64)%string
                                 DetailHigh))
               None "")
          imageBase64s)%list.

(** What a stretch of [Chat] did to the state: it appended [added] to
    the history, sent the same messages on [info_chan] when there is one,
    and left the settings alone. *)
Definition extends (info_chan : bool) (st st' : State) (added : list Message)
    : Prop :=
  history (st_cm st') = (history (st_cm st) ++ added)%list
  /\ same_settings (st_cm st) (st_cm st')
  /\ sent_messages (st_trace st')
     = (sent_messages (st_trace st) ++ if info_chan then added else [])%list.

(** The message a handled tool call appends. *)
Definition tool_result_message (toolCall : ToolCall) (text : string) : Message :=
  mkMessage RoleTool
    [mkContent ContentTypeToolRes text None None (tc_ID toolCall)] "" [].

(** *** Registration (functionCalling.go, convertFunction.go) *)

(** [IsValidParameterType] *)
Definition IsValidParameterType (t : GoType) : bool :=
  match t with
  | TBool | TInt _ | TFloat32 | TFloat64 | TComplex64 | TComplex128
  | TString => true
  | TArray _ _ | TSlice _ | TMap _ _ => true
  | TInterface | TError => false
  end.

(** [IsValidParameterTypeReturn]: of the interface types only error
    implements error. *)
Definition IsValidParameterTypeReturn (t : GoType) : bool :=
  match t with
  | TBool | TInt _ | TFloat32 | TFloat64 | TComplex64 | TComplex128
  | TString => true
  | TArray _ _ | TSlice _ | TMap _ _ => true
  | TError => true
  | TInterface => false
  end.

(** [ConvertToJSONSchemaType] *)
Definition ConvertToJSONSchemaType (t : GoType) : string :=
  match t with
  | TBool => "boolean"
  | TInt _ => "integer"
  | TFloat32 | TFloat64 => "number"
  | TComplex64 | TComplex128 => "string"
  | TString => "string"
  | TArray _ _ | TSlice _ => "array"
  | TMap _ _ => "object"
  | _ => "string"
  end.

(** The [fn interface{}] handed to the registration functions: a value
    that is not a function, or a function with its return types
    ([fnType.Out(i)]). *)
Inductive Any :=
| NotFunc
| IsFunc (fnValue : Func) (out : list GoType).

(** [Tool] keeps the parameter schema as text: the rendering of the
    [map[string]interface{}] the registration builds. *)
Variable Parameters_text : JValue -> string.

(** The map [{"type": ..., "description": ...}] of one parameter. *)
Definition property (paramType : GoType) (description : string) : JValue :=
  JObject [("type", JString (ConvertToJSONSchemaType paramType));
           ("description", JString description)].

(** The map [{"type": "object", "properties": ..., "required": ...}]. *)
Definition parameters (properties : gmap string JValue)
    (required : list string) : JValue :=
  JObject [("type", JString "object");
           ("properties", JObject (map_to_list properties));
           ("required", JArray (map JString required))].

(** The loop over the parameters shared by the three functions below, from
    index [i] on; [validate] is off in [ModifyFunctionParaDescription],
    which does not test the types.  [description i t] is the description
    of parameter [i]. *)
Fixpoint properties_loop (validate : bool) (ins : list GoType)
    (paramName : nat -> string) (description : nat -> GoType -> string)
    (i : nat) (properties : gmap string JValue) (required : list string)
    : result (gmap string JValue * list string) :=
  match ins with
  | [] => inr (properties, required)
  | paramType :: ins' =>
      if validate && negb (IsValidParameterType paramType) then
        inl ("参数 " ++ fmt_d (Z.of_nat i) ++ " 类型 "
             ++ Type_String paramType ++ " 不受支持")
      else
        properties_loop validate ins' paramName description (S i)
          (<[paramName i := property paramType (description i paramType)]>
             properties)
          (required ++ [paramName i])
  end.

(** The loop over the return types: the error of the first type that is
    not accepted. *)
Fixpoint returns_loop (out : list GoType) (i : nat) : option string :=
  match out with
  | [] => None
  | returnType :: out' =>
      if negb (IsValidParameterTypeReturn returnType) then
        Some ("返回值 " ++ fmt_d (Z.of_nat i) ++ " 类型 "
              ++ Type_String returnType ++ " 不受支持")
      else returns_loop out' (S i)
  end.

(** The four assignments that end a registration. *)
Definition store (cm : ConversationManager) (name : string) (fnValue : Func)
    (tool : Tool) (paramNames : list string) : ConversationManager :=
  mkCM (manager cm) (history cm) (tools cm ++ [tool])
       (<[name := fnValue]> (registeredFuncs cm))
       (<[name := tool]> (funcSchemas cm))
       (<[name := paramNames]> (funcParamNames cm)) (systemPrompt cm)
       (MaxFunctionCallingNums cm) (MaxChatNums cm) (MaxTokens cm)
       (Temperature cm) (MaxHistoryTokens cm) (EnableTruncation cm)
       (LastUsage cm) (TotalUsage cm).

(** [RegisterFunctionSimple]: [None] is the nil error. *)
Definition RegisterFunctionSimple (cm : ConversationManager)
    (name description : string) (fn : Any)
    : option string * ConversationManager :=
  match fn with
  | NotFunc => (Some "注册的对象不是函数类型", cm)
  | IsFunc fnValue out =>
      let paramName i := "param" ++ fmt_d (Z.of_nat i) in
      let paramNames := map paramName (seq 0 (length (In fnValue))) in
      match properties_loop true (In fnValue) paramName
              (fun i t => "参数 " ++ fmt_d (Z.of_nat i) ++ " ("
                          ++ Type_String t ++ ")")
              0 ∅ [] with
      | inl e => (Some e, cm)
      | inr (properties, required) =>
          match returns_loop out 0 with
          | Some e => (Some e, cm)
          | None =>
              let tool :=
                mkTool "function" name description
                       (Parameters_text (parameters properties required)) in
              (None, store cm name fnValue tool paramNames)
          end
      end
  end.

(** [RegisterFunction] *)
Definition RegisterFunction (cm : ConversationManager)
    (name description : string) (fn : Any)
    (paramNames paraDescriptions : list string)
    : option string * ConversationManager :=
  match fn with
  | NotFunc => (Some "注册的对象不是函数类型", cm)
  | IsFunc fnValue out =>
      let numParams := length (In fnValue) in
      if negb (Nat.eqb numParams (length paramNames))
         || negb (Nat.eqb numParams (length paraDescriptions))
      then (Some "参数数量不匹配", cm)
      else
        match properties_loop true (In fnValue)
                (fun i => nth i paramNames "")
                (fun i _ => nth i paraDescriptions "") 0 ∅ [] with
        | inl e => (Some e, cm)
        | inr (properties, required) =>
            match returns_loop out 0 with
            | Some e => (Some e, cm)
            | None =>
                let tool :=
                  mkTool "function" name description
                         (Parameters_text (parameters properties required)) in
                (None, store cm name fnValue tool paramNames)
            end
        end
  end.

(** [for i, existingTool := range cm.tools]: the first tool of that name
    is replaced. *)
Fixpoint replace_tool (tools : list Tool) (name : string) (tool : Tool)
    : list Tool :=
  match tools with
  | [] => []
  | existingTool :: rest =>
      if String.eqb (tool_Name existingTool) name then tool :: rest
      else existingTool :: replace_tool rest name tool
  end.

(** [ModifyFunctionParaDescription] *)
Definition ModifyFunctionParaDescription (cm : ConversationManager)
    (name : string) (paraNames paraDescriptions : list string)
    : option string * ConversationManager :=
  match registeredFuncs cm !! name with
  | None => (Some ("未找到注册的函数: " ++ name), cm)
  | Some fnValue =>
      let numParams := length (In fnValue) in
      if negb (Nat.eqb numParams (length paraNames))
         || negb (Nat.eqb numParams (length paraDescriptions))
      then
        (Some ("参数数量不匹配: 函数有 " ++ fmt_d (Z.of_nat numParams)
               ++ " 个参数，但提供了 " ++ fmt_d (Z.of_nat (length paraNames))
               ++ " 个参数名和 "
               ++ fmt_d (Z.of_nat (length paraDescriptions)) ++ " 个参数描述"),
         cm)
      else
        match funcSchemas cm !! name with
        | None => (Some ("未找到函数的工具定义: " ++ name), cm)
        | Some tool =>
            match properties_loop false (In fnValue)
                    (fun i => nth i paraNames "")
                    (fun i _ => nth i paraDescriptions "") 0 ∅ [] with
            | inl e => (Some e, cm)
            | inr (properties, required) =>
                let tool :=
                  mkTool (tool_Type tool) (tool_Name tool)
                         (tool_Description tool)
                         (Parameters_text (parameters properties required)) in
                (None,
                 mkCM (manager cm) (history cm)
                      (replace_tool (tools cm) name tool)
                      (registeredFuncs cm)
                      (<[name := tool]> (funcSchemas cm))
                      (funcParamNames cm) (systemPrompt cm)
                      (MaxFunctionCallingNums cm) (MaxChatNums cm)
                      (MaxTokens cm) (Temperature cm) (MaxHistoryTokens cm)
                      (EnableTruncation cm) (LastUsage cm) (TotalUsage cm))
            end
        end
  end.

(** The names [RegisterFunctionSimple] gives the parameters. *)
Definition simple_names (n : nat) : list string :=
  map (fun i => "param" ++ fmt_d (Z.of_nat i)) (seq 0 n).

(** The parameter types no JSON value other than null converts to. *)
Definition no_json_form (t : GoType) : bool :=
  match t with
  | TComplex64 | TComplex128 | TArray _ _ => true
  | TSlice e => negb (GoType_eqb e TInterface)
  | TMap k e => negb (GoType_eqb k TString && GoType_eqb e TInterface)
  | _ => false
  end.

End Driver.

End ConversationManager.

(** ** crypto/sha256 and encoding/hex *)

Module sha256.

(** Bytes and 32-bit words are integers; every operation that can leave
    the 32 bits is masked. *)
Definition mask32 : Z := 0xffffffff.

Definition add32 (x y : Z) : Z := Z.land (x + y) mask32.

Definition rotr (n x : Z) : Z :=
  Z.lor (Z.shiftr x n) (Z.land (Z.shiftl x (32 - n)) mask32).

Definition Ch (x y z : Z) : Z :=
  Z.lxor (Z.land x y) (Z.land (Z.lxor x mask32) z).

Definition Maj (x y z : Z) : Z :=
  Z.lxor (Z.lxor (Z.land x y) (Z.land x z)) (Z.land y z).

Definition bsig0 (x : Z) : Z := Z.lxor (Z.lxor (rotr 2 x) (rotr 13 x)) (rotr 22 x).
Definition bsig1 (x : Z) : Z := Z.lxor (Z.lxor (rotr 6 x) (rotr 11 x)) (rotr 25 x).
Definition ssig0 (x : Z) : Z := Z.lxor (Z.lxor (rotr 7 x) (rotr 18 x)) (Z.shiftr x 3).
Definition ssig1 (x : Z) : Z := Z.lxor (Z.lxor (rotr 17 x) (rotr 19 x)) (Z.shiftr x 10).

(** The round constants: the first 32 bits of the fractional parts of the
    cube roots of the first 64 primes (FIPS 180-4, 4.2.2), in decimal. *)
Definition K : list Z :=
  [1116352408; 1899447441; 3049323471; 3921009573; 961987163;
   1508970993; 2453635748; 2870763221; 3624381080; 310598401;
   607225278; 1426881987; 1925078388; 2162078206; 2614888103;
   3248222580; 3835390401; 4022224774; 264347078; 604807628;
   770255983; 1249150122; 1555081692; 1996064986; 2554220882;
   2821834349; 2952996808; 3210313671; 3336571891; 3584528711;
   113926993; 338241895; 666307205; 773529912; 1294757372;
   1396182291; 1695183700; 1986661051; 2177026350; 2456956037;
   2730485921; 2820302411; 3259730800; 3345764771; 3516065817;
   3600352804; 4094571909; 275423344; 430227734; 506948616;
   659060556; 883997877; 958139571; 1322822218; 1537002063;
   1747873779; 1955562222; 2024104815; 2227730452; 2361852424;
   2428436474; 2756734187; 3204031479; 3329325298].

(** The eight working variables, also the chaining value. *)
Record digest := mkDigest { ha : Z; hb : Z; hc : Z; hd : Z; he : Z; hf : Z; hg : Z; hh : Z }.

Definition init : digest :=
  mkDigest 0x6a09e667 0xbb67ae85 0x3c6ef372 0xa54ff53a
           0x510e527f 0x9b05688c 0x1f83d9ab 0x5be0cd19.

(** The big-endian words of a block. *)
Fixpoint words (bs : list Z) : list Z :=
  match bs with
  | b0 :: b1 :: b2 :: b3 :: rest =>
      (Z.shiftl b0 24 + Z.shiftl b1 16 + Z.shiftl b2 8 + b3) :: words rest
  | _ => []
  end.

(** The message schedule, newest word first: [n] more words after [ws]. *)
Fixpoint schedule (n : nat) (ws : list Z) : list Z :=
  match n with
  | O => ws
  | S n' =>
      let w :=
        add32 (add32 (ssig1 (nth 1 ws 0)) (nth 6 ws 0))
              (add32 (ssig0 (nth 14 ws 0)) (nth 15 ws 0)) in
      schedule n' (w :: ws)
  end.

Definition round (s : digest) (kw : Z * Z) : digest :=
  let '(k, w) := kw in
  let t1 := add32 (add32 (add32 (hh s) (bsig1 (he s))) (Ch (he s) (hf s) (hg s)))
                  (add32 k w) in
  let t2 := add32 (bsig0 (ha s)) (Maj (ha s) (hb s) (hc s)) in
  mkDigest (add32 t1 t2) (ha s) (hb s) (hc s) (add32 (hd s) t1) (he s) (hf s) (hg s).

Definition block (s : digest) (bs : list Z) : digest :=
  let w := rev (schedule 48 (rev (words bs))) in
  let r := fold_left round (combine K w) s in
  mkDigest (add32 (ha s) (ha r)) (add32 (hb s) (hb r)) (add32 (hc s) (hc r))
           (add32 (hd s) (hd r)) (add32 (he s) (he r)) (add32 (hf s) (hf r))
           (add32 (hg s) (hg r)) (add32 (hh s) (hh r)).

Fixpoint blocks (n : nat) (s : digest) (bs : list Z) : digest :=
  match n with
  | O => s
  | S n' => blocks n' (block s (firstn 64 bs)) (skipn 64 bs)
  end.

Definition be_bytes (n : nat) (x : Z) : list Z :=
  map (fun i => Z.land (Z.shiftr x (8 * Z.of_nat i)) 255) (rev (seq 0 n)).

(** The message, a one bit, zeros up to 56 modulo 64, the bit length. *)
Definition pad (msg : list Z) : list Z :=
  let l := Z.of_nat (length msg) in
  msg ++ [128] ++ repeat 0 (Z.to_nat ((55 - l) mod 64)) ++ be_bytes 8 (8 * l).

Definition word_bytes (w : Z) : list Z :=
  [Z.land (Z.shiftr w 24) 255; Z.land (Z.shiftr w 16) 255;
   Z.land (Z.shiftr w 8) 255; Z.land w 255].

Definition digest_bytes (s : digest) : list Z :=
  word_bytes (ha s) ++ word_bytes (hb s) ++ word_bytes (hc s) ++ word_bytes (hd s)
  ++ word_bytes (he s) ++ word_bytes (hf s) ++ word_bytes (hg s) ++ word_bytes (hh s).

Definition bytes_of_string (s : string) : list Z :=
  map (fun c => Z.of_N (N_of_ascii c)) (list_ascii_of_string s).

(** [sha256.Sum256([]byte(s))] *)
Definition Sum256 (s : string) : list Z :=
  let p := pad (bytes_of_string s) in
  digest_bytes (blocks (Nat.div (length p) 64) init p).

End sha256.

Module hex.

Definition hextable : string := "0123456789abcdef".

Definition hextable_at (i : Z) : ascii :=
  match String.get (Z.to_nat i) hextable with
  | Some c => c
  | None => "000"%char
  end.

(** [hex.EncodeToString] *)
Fixpoint EncodeToString (src : list Z) : string :=
  match src with
  | [] => ""
  | v :: rest =>
      String (hextable_at (Z.shiftr v 4))
             (String (hextable_at (Z.land v 15)) (EncodeToString rest))
  end.

End hex.

(** ** package strings *)

Module gostrings.

(** [strings.Contains(s, substr)] *)
Fixpoint Contains (s substr : string) : bool :=
  String.prefix substr s
  || match s with
     | EmptyString => false
     | String _ rest => Contains rest substr
     end.

(** [strings.Join(elems, sep)] *)
Fixpoint Join (elems : list string) (sep : string) : string :=
  match elems with
  | [] => ""
  | e :: rest =>
      match rest with
      | [] => e
      | _ :: _ => e ++ sep ++ Join rest sep
      end
  end.

End gostrings.

(** ** package openai (converter.go, client.go) *)

Module openai.

(** [truncateToolCallID]; [len(id)] counts bytes. *)
Definition truncateToolCallID (id : string) : string :=
  if Z.of_nat (String.length id) <=? 40 then id
  else
    let hash := sha256.Sum256 id in
    let hashStr := String.substring 0 32 (hex.EncodeToString hash) in
    "call_" ++ hashStr.

Record OpenAIImageURL := mkOpenAIImageURL { oi_URL : string; oi_Detail : string }.

Record OpenAIContent := mkOpenAIContent {
  oc_Type : string;
  oc_Text : string;
  oc_ImageURL : option OpenAIImageURL }.

(** [Content interface{}]: unset, a string, or an array of parts. *)
Inductive OpenAIContentValue :=
| ContentNil
| ContentString (s : string)
| ContentParts (parts : list OpenAIContent).

Record OpenAIFunctionCall := mkOpenAIFunctionCall {
  ofc_Name : string;
  ofc_Arguments : string }.

Record OpenAIToolCall := mkOpenAIToolCall {
  otc_ID : string;
  otc_Type : string;
  otc_Function : OpenAIFunctionCall }.

Record OpenAIMessage := mkOpenAIMessage {
  om_Role : string;
  om_Content : OpenAIContentValue;
  om_Name : string;
  om_ToolCalls : list OpenAIToolCall;
  om_ToolCallID : string }.

(** The pointer fields are [None] when nil, which [omitempty] leaves out of
    the emitted JSON. *)
Record OpenAIChatRequest := mkOpenAIChatRequest {
  or_Model : string;
  or_Messages : list OpenAIMessage;
  or_Tools : list Tool;
  or_MaxTokens : option Z;
  or_MaxCompletionTokens : option Z;
  or_Temperature : option float;
  or_Stream : bool }.

(** The scan of one message's content parts: the parts kept. *)
Fixpoint convert_contents (content : list Content) : list OpenAIContent :=
  match content with
  | [] => []
  | c :: rest =>
      if String.eqb (c_Type c) "text" then
        mkOpenAIContent "text" (c_Text c) None :: convert_contents rest
      else if String.eqb (c_Type c) "image_url"
              || String.eqb (c_Type c) "image_base64" then
        match c_ImageURL c with
        | Some img =>
            mkOpenAIContent "image_url" ""
              (Some (mkOpenAIImageURL (URL img) (Detail img)))
            :: convert_contents rest
        | None => convert_contents rest
        end
      else convert_contents rest
  end.

Definition is_tool_result (c : Content) : bool := String.eqb (c_Type c) "tool_result".

Definition convert_tool_call (toolCall : ToolCall) : OpenAIToolCall :=
  let argsStr :=
    match fc_Arguments (tc_Function toolCall) with
    | Some raw => raw
    | None => "{}"
    end in
  mkOpenAIToolCall (truncateToolCallID (tc_ID toolCall)) (tc_Type toolCall)
    (mkOpenAIFunctionCall (fc_Name (tc_Function toolCall)) argsStr).

(** One iteration of the message loop: the messages it appends. *)
Definition convert_message (msg : Message) : list OpenAIMessage :=
  let single_text :=
    match Content_ msg with
    | [c] => String.eqb (c_Type c) "text"
    | _ => false
    end in
  let content :=
    if single_text then
      match Content_ msg with
      | c :: _ => ContentString (c_Text c)
      | [] => ContentNil
      end
    else
      match convert_contents (Content_ msg) with
      | [] => ContentNil
      | contents => ContentParts contents
      end in
  let hasToolResult := negb single_text && existsb is_tool_result (Content_ msg) in
  let hasOtherContent := existsb (fun c => negb (is_tool_result c)) (Content_ msg) in
  if hasToolResult && negb hasOtherContent && (len (ToolCalls msg) =? 0) then
    map (fun c =>
           mkOpenAIMessage "tool" (ContentString (c_Text c)) "" []
                           (truncateToolCallID (c_ToolID c)))
        (List.filter is_tool_result (Content_ msg))
  else
    [mkOpenAIMessage (Role msg) content (Name msg)
                     (map convert_tool_call (ToolCalls msg)) ""].

(** [ToOpenAIRequest], from the request as decoded into [commonReq]. *)
Definition ToOpenAIRequest (commonReq : ChatRequest) : OpenAIChatRequest :=
  let temperature :=
    if negb (gostrings.Contains (req_Model commonReq) "gpt-5")
       && negb (gostrings.Contains (req_Model commonReq) "o1")
       && negb (PrimFloat.eqb (req_Temperature commonReq) 0%float)
    then Some (req_Temperature commonReq) else None in
  (* the pointers [MaxTokens] and [MaxCompletionTokens] *)
  let limits : option Z * option Z :=
    if 0 <? req_MaxTokens commonReq then
      if gostrings.Contains (req_Model commonReq) "gpt-5"
         || gostrings.Contains (req_Model commonReq) "o1"
         || gostrings.Contains (req_Model commonReq) "gpt-4o-realtime"
      then (None, Some (req_MaxTokens commonReq))
      else (Some (req_MaxTokens commonReq), None)
    else (None, None) in
  let system :=
    if negb (String.eqb (req_SystemPrompt commonReq) "")
    then [mkOpenAIMessage "system" (ContentString (req_SystemPrompt commonReq))
                          "" [] ""]
    else [] in
  mkOpenAIChatRequest (req_Model commonReq)
    (system ++ concat (map convert_message (req_Messages commonReq)))%list
    (req_Tools commonReq) (fst limits) (snd limits) temperature
    (req_Stream commonReq).

(** [Client.Chat] up to the request it marshals and posts;
    [config_Model] is [c.config.Model]. *)
Definition Client_Chat_request (config_Model : string) (req : ChatRequest)
    : OpenAIChatRequest :=
  let openaiReq := ToOpenAIRequest req in
  if String.eqb (or_Model openaiReq) "" then
    let model := config_Model in
    let limits : option Z * option Z :=
      match or_MaxTokens openaiReq, or_MaxCompletionTokens openaiReq with
      | None, None => (None, None)
      | _, _ =>
          (* maxTokens and the two pointers after the first [if] *)
          let '(maxTokens, mt, mct) :=
            match or_MaxTokens openaiReq with
            | Some v => (v, None, or_MaxCompletionTokens openaiReq)
            | None =>
                match or_MaxCompletionTokens openaiReq with
                | Some v => (v, None, None)
                | None => (0, None, None)
                end
            end in
          if 0 <? maxTokens then
            if gostrings.Contains model "gpt-5"
               || gostrings.Contains model "o1"
               || gostrings.Contains model "gpt-4o-realtime"
            then (mt, Some maxTokens)
            else (Some maxTokens, mct)
          else (mt, mct)
      end in
    let temperature :=
      if gostrings.Contains model "gpt-5" || gostrings.Contains model "o1"
      then None else or_Temperature openaiReq in
    mkOpenAIChatRequest model (or_Messages openaiReq) (or_Tools openaiReq)
      (fst limits) (snd limits) temperature (or_Stream openaiReq)
  else openaiReq.

(** The regular expression [^call_[0-9a-f]{32}$]. *)
Definition is_lower_hex (c : ascii) : bool :=
  let n := Z.of_N (N_of_ascii c) in
  ((48 <=? n) && (n <=? 57)) || ((97 <=? n) && (n <=? 102)).

Definition matches_call_hex32 (s : string) : bool :=
  String.prefix "call_" s
  && (Nat.eqb (String.length s) 37)
  && forallb is_lower_hex (list_ascii_of_string (String.substring 5 32 s)).

(** [NewClient]: the model the client is configured with. *)
Definition NewClient_Model (config_Model : string) : string :=
  if String.eqb config_Model "" then "gpt-4o" else config_Model.

(** [Client.ChatStream] up to the request it marshals and posts: the
    stream flag is set and the default model filled in, with the
    temperature rule applied again but not the rule of the token limits. *)
Definition Client_ChatStream_request (config_Model : string)
    (req : ChatRequest) : OpenAIChatRequest :=
  let openaiReq := ToOpenAIRequest req in
  if String.eqb (or_Model openaiReq) "" then
    let model := config_Model in
    let temperature :=
      if gostrings.Contains model "gpt-5" || gostrings.Contains model "o1"
      then None else or_Temperature openaiReq in
    mkOpenAIChatRequest model (or_Messages openaiReq) (or_Tools openaiReq)
      (or_MaxTokens openaiReq) (or_MaxCompletionTokens openaiReq)
      temperature true
  else
    mkOpenAIChatRequest (or_Model openaiReq) (or_Messages openaiReq)
      (or_Tools openaiReq) (or_MaxTokens openaiReq)
      (or_MaxCompletionTokens openaiReq) (or_Temperature openaiReq) true.

(** The ids a converted message carries: those of its tool calls and its
    [tool_call_id]. *)
Definition message_ids (m : OpenAIMessage) : list string :=
  (om_ToolCallID m :: map otc_ID (om_ToolCalls m))%list.

(** The types of the parts of a converted content. *)
Definition part_types (content : OpenAIContentValue) : list string :=
  match content with
  | ContentParts parts => map oc_Type parts
  | _ => []
  end.

End openai.

(** ** package deepseek (converter.go) *)

Module deepseek.

Record DeepSeekImageURL := mkDeepSeekImageURL { di_URL : string; di_Detail : string }.

Record DeepSeekContent := mkDeepSeekContent {
  dc_Type : string;
  dc_Text : string;
  dc_ImageURL : option DeepSeekImageURL }.

(** [Content interface{}]: a string, or an array of parts. *)
Inductive DeepSeekContentValue :=
| ContentString (s : string)
| ContentParts (parts : list DeepSeekContent).

Record DeepSeekToolCall := mkDeepSeekToolCall {
  dtc_ID : string;
  dtc_Type : string;
  dtc_Name : string;
  dtc_Arguments : option string }.

Record DeepSeekMessage := mkDeepSeekMessage {
  dm_Role : string;
  dm_Content : DeepSeekContentValue;
  dm_Name : string;
  dm_ToolCalls : list DeepSeekToolCall;
  dm_ToolCallID : string }.

Record DeepSeekChatRequest := mkDeepSeekChatRequest {
  dr_Model : string;
  dr_Messages : list DeepSeekMessage;
  dr_Tools : list Tool;
  dr_MaxTokens : Z;
  dr_Temperature : float;
  dr_Stream : bool }.

(** The two line feeds of the literal ["\n\n"]. *)
Definition blank_line : string := String "010"%char (String "010"%char "").

Section Converter.

(** [json.Marshal] of a Go string: its JSON string literal. *)
Variable json_Marshal_string : string -> string.

(** What the scan of one message's content parts collects. *)
Record Scan := mkScan {
  textParts : list string;
  imageContents : list DeepSeekContent;
  toolMessages : list DeepSeekMessage }.

Fixpoint scan_contents (content : list Content) (acc : Scan) : Scan :=
  match content with
  | [] => acc
  | c :: rest =>
      if String.eqb (c_Type c) "text" then
        if negb (String.eqb (c_Text c) "")
        then scan_contents rest
               (mkScan (textParts acc ++ [c_Text c]) (imageContents acc)
                       (toolMessages acc))
        else scan_contents rest acc
      else if String.eqb (c_Type c) "image_url"
              || String.eqb (c_Type c) "image_base64" then
        match c_ImageURL c with
        | Some img =>
            scan_contents rest
              (mkScan (textParts acc)
                      (imageContents acc
                       ++ [mkDeepSeekContent "image_url" ""
                             (Some (mkDeepSeekImageURL (URL img) (Detail img)))])
                      (toolMessages acc))
        | None => scan_contents rest acc
        end
      else if String.eqb (c_Type c) "tool_result" then
        if negb (String.eqb (c_Text c) "") && negb (String.eqb (c_ToolID c) "")
        then scan_contents rest
               (mkScan (textParts acc) (imageContents acc)
                       (toolMessages acc
                        ++ [mkDeepSeekMessage "tool" (ContentString (c_Text c))
                                              "" [] (c_ToolID c)]))
        else scan_contents rest acc
      else scan_contents rest acc
  end.

(** The arguments of a tool call: a raw message that does not start with
    a double quote is wrapped into a JSON string.  (A decoded raw message
    is never empty, the source indexes its first byte.) *)
Definition convert_tool_call (toolCall : ToolCall) : DeepSeekToolCall :=
  let argsString :=
    match fc_Arguments (tc_Function toolCall) with
    | Some raw =>
        match raw with
        | String c _ =>
            if negb (Ascii.eqb c "034"%char)
            then Some (json_Marshal_string raw) else Some raw
        | EmptyString => Some raw
        end
    | None => None
    end in
  mkDeepSeekToolCall (tc_ID toolCall) (tc_Type toolCall)
                     (fc_Name (tc_Function toolCall)) argsString.

(** One iteration of the message loop: the messages it appends to
    [deepseekReq.Messages], in order, and [isFirstUserMessage] after it. *)
Definition convert_message (systemPromptToMerge : string)
    (isFirstUserMessage : bool) (msg : Message)
    : list DeepSeekMessage * bool :=
  let sc := scan_contents (Content_ msg) (mkScan [] [] []) in
  let hasToolResult := 0 <? len (toolMessages sc) in
  let hasImageContent := 0 <? len (imageContents sc) in
  let merge :=
    isFirstUserMessage && String.eqb (Role msg) "user"
    && negb (String.eqb systemPromptToMerge "") in
  let '(content, isFirstUserMessage') :=
    if hasImageContent then
      if 0 <? len (textParts sc) then
        let textContent := gostrings.Join (textParts sc) " " in
        let textContent :=
          if merge then systemPromptToMerge ++ blank_line ++ textContent
          else textContent in
        (ContentParts (mkDeepSeekContent "text" textContent None
                       :: imageContents sc),
         if merge then false else isFirstUserMessage)
      else (ContentParts (imageContents sc), isFirstUserMessage)
    else
      if 0 <? len (textParts sc) then
        let textContent := gostrings.Join (textParts sc) " " in
        let textContent :=
          if merge then systemPromptToMerge ++ blank_line ++ textContent
          else textContent in
        (ContentString textContent,
         if merge then false else isFirstUserMessage)
      else
        if merge then (ContentString systemPromptToMerge, false)
        else (ContentString "", isFirstUserMessage) in
  let deepseekMsg :=
    mkDeepSeekMessage (Role msg) content (Name msg)
                      (map convert_tool_call (ToolCalls msg)) "" in
  let hasOtherContent :=
    existsb (fun c => negb (String.eqb (c_Type c) "tool_result")) (Content_ msg) in
  if hasToolResult && negb hasOtherContent && (len (ToolCalls msg) =? 0)
  then (toolMessages sc, isFirstUserMessage')
  else ((toolMessages sc ++ [deepseekMsg])%list, isFirstUserMessage').

(** The message loop. *)
Fixpoint convert_messages (systemPromptToMerge : string)
    (isFirstUserMessage : bool) (messages : list Message)
    : list DeepSeekMessage :=
  match messages with
  | [] => []
  | msg :: rest =>
      let '(out, isFirstUserMessage') :=
        convert_message systemPromptToMerge isFirstUserMessage msg in
      (out ++ convert_messages systemPromptToMerge isFirstUserMessage' rest)%list
  end.

(** [ToDeepSeekRequest], from the request as decoded into [commonReq]. *)
Definition ToDeepSeekRequest (commonReq : ChatRequest) : DeepSeekChatRequest :=
  let systemPromptToMerge := req_SystemPrompt commonReq in
  mkDeepSeekChatRequest (req_Model commonReq)
    (convert_messages systemPromptToMerge true (req_Messages commonReq))
    (req_Tools commonReq) (req_MaxTokens commonReq)
    (req_Temperature commonReq) (req_Stream commonReq).

(** The text a message's content starts with: the string itself, or the
    text of the first part when that is a text part. *)
Definition leading_text (content : DeepSeekContentValue) : option string :=
  match content with
  | ContentString s => Some s
  | ContentParts (p :: _) =>
      if String.eqb (dc_Type p) "text" then Some (dc_Text p) else None
  | ContentParts [] => None
  end.

(** The non-empty text parts of a canonical message, in order. *)
Definition is_text_part (c : Content) : bool :=
  String.eqb (c_Type c) "text" && negb (String.eqb (c_Text c) "").

Definition text_parts (msg : Message) : list string :=
  map c_Text (List.filter is_text_part (Content_ msg)).

(** [NewClient]: the model the client is configured with. *)
Definition NewClient_Model (config_Model : string) : string :=
  if String.eqb config_Model "" then "deepseek-chat" else config_Model.

(** [Client.Chat] up to the request it marshals and posts;
    [config_Model] is [c.config.Model]. *)
Definition Client_Chat_request (config_Model : string) (req : ChatRequest)
    : DeepSeekChatRequest :=
  let deepseekReq := ToDeepSeekRequest req in
  if String.eqb (dr_Model deepseekReq) "" then
    mkDeepSeekChatRequest config_Model (dr_Messages deepseekReq)
      (dr_Tools deepseekReq) (dr_MaxTokens deepseekReq)
      (dr_Temperature deepseekReq) (dr_Stream deepseekReq)
  else deepseekReq.

End Converter.

End deepseek.

(** ** The dispatcher (agent/general/client.go) *)

Module AgentManager.

Definition ProviderOpenAI : Provider := "openai".
Definition ProviderAnthropic : Provider := "anthropic".
Definition ProviderGoogle : Provider := "google".
Definition ProviderDeepSeek : Provider := "deepseek".
Definition ProviderQwen : Provider := "qwen".

(** [getDefaultModel] *)
Definition getDefaultModel (provider : Provider) : string :=
  if String.eqb provider ProviderOpenAI then "gpt-4o"
  else if String.eqb provider ProviderAnthropic then "claude-3-5-sonnet-20241022"
  else if String.eqb provider ProviderDeepSeek then "deepseek-chat"
  else if String.eqb provider ProviderGoogle then "gemini-pro"
  else if String.eqb provider ProviderQwen then "qwen-plus"
  else "".

Section Dispatch.

Context {World : Type}.

(** The [LLMProvider] interface as [Chat] uses it; [None] is the nil
    error of [ValidateRequest]. *)
Record LLMProvider := mkLLMProvider {
  lp_ValidateRequest : ChatRequest -> option string;
  lp_Chat : ChatRequest -> World -> (string + ChatResponse) * World }.

(** [GetProvider] *)
Definition GetProvider (providers : gmap string LLMProvider)
    (provider : Provider) : string + LLMProvider :=
  match providers !! provider with
  | Some p => inr p
  | None => inl ("provider " ++ provider ++ " not found")
  end.

(** The two assignments [Chat] makes to the request it was given. *)
Definition with_defaults (provider : Provider) (req : ChatRequest)
    : ChatRequest :=
  let MaxTokens := if req_MaxTokens req =? 0 then 3000 else req_MaxTokens req in
  let Model :=
    if String.eqb (req_Model req) "" then getDefaultModel provider
    else req_Model req in
  mkChatRequest Model (req_Messages req) (req_Tools req) MaxTokens
    (req_Temperature req) (req_Stream req) (req_SystemPrompt req).

(** [AgentManager.Chat].  The request is passed by pointer: the second
    component is [*req] when the call returns. *)
Definition Chat (providers : gmap string LLMProvider) (provider : Provider)
    (req : ChatRequest) (w : World)
    : (string + ChatResponse) * ChatRequest * World :=
  match GetProvider providers provider with
  | inl err => (inl err, req, w)
  | inr p =>
      let req := with_defaults provider req in
      match lp_ValidateRequest p req with
      | Some err => (inl ("validate request failed: " ++ err), req, w)
      | None =>
          let '(resp, w') := lp_Chat p req w in
          (resp, req, w')
      end
  end.

(** The dispatcher as the [manager] of a conversation, which builds a
    fresh request for every round and does not read it back. *)
Definition as_manager (providers : gmap string LLMProvider)
    : Provider -> ChatRequest -> World -> (string + ChatResponse) * World :=
  fun provider req w =>
    let '(resp, _, w') := Chat providers provider req w in (resp, w').

(** The providers [AddProvider] installs for OpenAI and DeepSeek, up to
    the request their clients post: [post] stands for the HTTP exchange
    and the decoding of the answer, [config_Model] is the model of the
    [ProviderConfig]. *)
Definition OpenAIProviderWrapper
    (post : openai.OpenAIChatRequest -> World -> (string + ChatResponse) * World)
    (config_Model : string) : LLMProvider :=
  mkLLMProvider (fun _ => None)
    (fun req w =>
       post (openai.Client_Chat_request (openai.NewClient_Model config_Model)
                                        req) w).

Definition DeepSeekProviderWrapper (json_Marshal_string : string -> string)
    (post : deepseek.DeepSeekChatRequest -> World
            -> (string + ChatResponse) * World)
    (config_Model : string) : LLMProvider :=
  mkLLMProvider (fun _ => None)
    (fun req w =>
       post (deepseek.Client_Chat_request json_Marshal_string
               (deepseek.NewClient_Model config_Model) req) w).

End Dispatch.

End AgentManager.

(** ** Concrete managers and histories used to run the model *)

Module Fixtures.

Import ConversationManager.

(** [strings.Repeat(s, n)] *)
Fixpoint Repeat (s : string) (n : nat) : string :=
  match n with
  | O => ""
  | S n' => s ++ Repeat s n'
  end.

Definition text (s : string) : Content :=
  mkContent ContentTypeText s None None "".

Definition user_msg (s : string) : Message :=
  mkMessage RoleUser [text s] "" [].

Definition assistant_msg (s : string) : Message :=
  mkMessage RoleAssistant [text s] "" [].

(** A dispatcher with no provider configured: every request fails. *)
Definition no_provider
    : Provider -> ChatRequest -> unit -> (string + ChatResponse) * unit :=
  fun provider _ w => (inl ("provider " ++ provider ++ " not found"), w).

Definition cm0 : ConversationManager (World := unit) :=
  NewConversationManager no_provider.

(** A history that opens with an assistant message. *)
Definition greeting : list Message := [assistant_msg "hello"].

(** Two exchanges; the older one is 502 estimated tokens long. *)
Definition two_turns : list Message :=
  [user_msg "first"; assistant_msg (Repeat "a" 1000);
   user_msg "second"; assistant_msg "ok"].

(** One exchange of 2051 estimated tokens. *)
Definition long_turn : list Message :=
  [user_msg "hi"; assistant_msg (Repeat "a" 4100)].

(** *** A registry with one function and scripted providers *)

Definition dquote : string := String "034"%char "".

(** The text [{"param0":787,"param1":859}]. *)
Definition args_787_859 : string :=
  "{" ++ dquote ++ "param0" ++ dquote ++ ":787," ++
  dquote ++ "param1" ++ dquote ++ ":859}".

(** The text [{"param0":787}]: the second argument is missing. *)
Definition args_787 : string :=
  "{" ++ dquote ++ "param0" ++ dquote ++ ":787}".

(** A runtime that decodes the argument texts above and the empty object,
    truncates a [float64] to convert it, and renders no float or
    composite value (the examples return none). *)
#[export] Instance runtime : Runtime := {|
  json_Unmarshal_object := fun data =>
    if String.eqb data args_787_859 then
      inr (<["param0" := JNumber (float64.of_int 787)]>
           (<["param1" := JNumber (float64.of_int 859)]> ∅))
    else if String.eqb data args_787 then
      inr (<["param0" := JNumber (float64.of_int 787)]> ∅)
    else if String.eqb data "{}" then inr ∅
    else inl "invalid character";
  json_Unmarshal_string := fun _ => None;
  float64_to_int := fun _ f => float64.to_int f;
  float64_to_float32 := fun f => f;
  fmt_6f := fun _ => "";
  fmt_composite := fun _ _ => "";
  Type_String := fun _ => ""
|}.

(** [func AddNumber(a, b int) int { return a + b }] *)
Definition AddNumber {World : Type} : Func (World := World) :=
  mkFunc [TInt Int; TInt Int]
    (fun args w =>
       match args with
       | [VInt _ a; VInt _ b] => ([VInt Int (a + b)], w)
       | _ => ([VInt Int 0], w)
       end).

(** [func Check(code int) (error, string)]: the error comes first. *)
Definition Check {World : Type} : Func (World := World) :=
  mkFunc [TInt Int]
    (fun args w => ([VError None; VString "checked"], w)).

(** [RegisterFunctionSimple(name, ...)], as far as the call path reads
    it: the callable and the names [param0], [param1], ... *)
Definition register {World : Type} (cm : ConversationManager (World := World))
    (name : string) (fn : Func (World := World)) (paramNames : list string)
    : ConversationManager :=
  mkCM (manager cm) (history cm) (tools cm)
       (<[name := fn]> (registeredFuncs cm)) (funcSchemas cm)
       (<[name := paramNames]> (funcParamNames cm)) (systemPrompt cm)
       (MaxFunctionCallingNums cm) (MaxChatNums cm) (MaxTokens cm)
       (Temperature cm) (MaxHistoryTokens cm) (EnableTruncation cm)
       (LastUsage cm) (TotalUsage cm).

Definition add_call (id : string) : ToolCall :=
  mkToolCall id "function" (mkFunctionCall "AddNumber" (Some args_787_859)).

Definition reply (m : Message) : ChatResponse :=
  mkChatResponse "mock" [mkChoice 0 m "stop"] (mkUsage 10 5 15).

(** The world of the scripted providers is the number of requests
    served so far. *)

(** A model that asks for [AddNumber] once and then answers (S2). *)
Definition asks_once
    : Provider -> ChatRequest -> nat -> (string + ChatResponse) * nat :=
  fun _ _ n =>
    match n with
    | O => (inr (reply (mkMessage RoleAssistant [] "" [add_call "call_1"])), S n)
    | _ => (inr (reply (assistant_msg "1646")), S n)
    end.

(** A model that keeps asking for [AddNumber] (S4). *)
Definition keeps_asking
    : Provider -> ChatRequest -> nat -> (string + ChatResponse) * nat :=
  fun _ _ n =>
    (inr (reply (mkMessage RoleAssistant [] "" [add_call "call_n"])), S n).

(** A model that asks for [AddNumber] and then for a function nobody
    registered. *)
Definition asks_unknown
    : Provider -> ChatRequest -> nat -> (string + ChatResponse) * nat :=
  fun _ _ n =>
    match n with
    | O => (inr (reply (mkMessage RoleAssistant [] "" [add_call "call_1"])), S n)
    | _ =>
        (inr (reply (mkMessage RoleAssistant [] ""
                       [mkToolCall "call_2" "function"
                          (mkFunctionCall "Missing" (Some "{}"))])), S n)
    end.

Definition calculator
    (manager : Provider -> ChatRequest -> nat -> (string + ChatResponse) * nat)
    : ConversationManager (World := nat) :=
  register (NewConversationManager manager) "AddNumber" AddNumber
           ["param0"; "param1"].

(** A manager holding [two_turns] under a limit of 520 tokens, with no
    provider to answer. *)
Definition crowded : ConversationManager (World := unit) :=
  set_history (SetMaxHistoryTokens cm0 520) two_turns.

Definition provider_error : string := "chat failed: provider openai not found".

(** A registry holding [Check] alone. *)
Definition checker : ConversationManager (World := nat) :=
  register (NewConversationManager keeps_asking) "Check" Check ["code"].

(** *** Requests for the adapters *)

Definition gpt5_request : ChatRequest :=
  mkChatRequest "gpt-5-mini" [user_msg "hi"] [] 100 0.7%float false "".

Definition default_request : ChatRequest :=
  mkChatRequest "" [user_msg "hi"] [] 100 0.7%float false "".

(** A stand-in for [json.Marshal] of a Go string (no escaping). *)
Definition quote_json (s : string) : string := dquote ++ s ++ dquote.

Definition s6_request : ChatRequest :=
  mkChatRequest "deepseek-chat" [user_msg "hi"] [] 100 0.7%float false "Be brief".

(** The first user message has an empty text. *)
Definition blank_request : ChatRequest :=
  mkChatRequest "deepseek-chat" [user_msg ""] [] 100 0.7%float false "Be brief".

(** The first user message is an image alone. *)
Definition image_request : ChatRequest :=
  mkChatRequest "deepseek-chat"
    [mkMessage RoleUser
       [mkContent ContentTypeImageURL ""
          (Some (mkImageURL "data:image/png;base64,AAAA" DetailHigh)) None ""]
       "" []]
    [] 100 0.7%float false "Be brief".

(** *** Further fixtures *)

(** Two exchanges; the newer one is 503 estimated tokens long. *)
Definition heavy_last : list Message :=
  [user_msg "first"; assistant_msg "ok";
   user_msg "second"; assistant_msg (Repeat "a" 1000)].

(** [func Fails(code int) (string, error)], which returns the error
    boom. *)
Definition Fails {World : Type} : Func (World := World) :=
  mkFunc [TInt Int]
    (fun args w => ([VString ""; VError (Some "boom")], w)).

(** A registry holding [Fails] alone. *)
Definition failing : ConversationManager (World := nat) :=
  register (NewConversationManager keeps_asking) "Fails" Fails ["code"].

Definition fails_call : ToolCall :=
  mkToolCall "call_9" "function" (mkFunctionCall "Fails" (Some "{}")).

(** A stand-in for the rendering of a parameter schema. *)
Definition no_schema : JValue -> string := fun _ => "".

(** A request with a system prompt and no user message. *)
Definition no_user_request : ChatRequest :=
  mkChatRequest "deepseek-chat" [assistant_msg "hello"] [] 100 0.7%float false
    "Be brief".

End Fixtures.

(** * Properties *)

Local Open Scope list_scope.

(** ** History truncation *)

Section TruncationFacts.

Import ConversationManager.
Context {World : Type}.
Implicit Types (cm : @ConversationManager World) (messages : list Message).

Lemma len_nonneg {A} (l : list A) : 0 <= len l.
Proof. unfold len. lia. Qed.

Lemma len_app {A} (l k : list A) : len (l ++ k) = len l + len k.
Proof. unfold len. rewrite length_app. lia. Qed.

Lemma len_zero_nil {A} (l : list A) : (len l =? 0) = true -> l = [].
Proof. destruct l; [done|]. unfold len; simpl. discriminate. Qed.

(** The index returned by the tool-sequence scan stays inside the slice
    and never moves back before the message it started from. *)
Lemma findEnd_loop_bounds fuel messages i :
  i <= len messages ->
  i - 1 <= findEnd_loop fuel messages i <= len messages - 1.
Proof.
  revert i. induction fuel as [|fuel IH]; intros i Hi; simpl; [lia|].
  destruct (Z.ltb_spec i (len messages)); [|lia].
  destruct (String.eqb _ RoleTool).
  { specialize (IH (i + 1)). lia. }
  destruct (String.eqb _ RoleAssistant); [|lia].
  destruct (hasToolCalls _); [|lia].
  specialize (IH (i + 1)). lia.
Qed.

(** More fuel than the distance to the end of the slice changes nothing. *)
Lemma findEnd_loop_fuel fuel fuel' messages i :
  len messages - i <= Z.of_nat fuel -> len messages - i <= Z.of_nat fuel' ->
  findEnd_loop fuel messages i = findEnd_loop fuel' messages i.
Proof.
  revert fuel' i. induction fuel as [|fuel IH]; intros [|fuel'] i H1 H2;
    simpl; try reflexivity.
  - destruct (Z.ltb_spec i (len messages)); [lia | reflexivity].
  - destruct (Z.ltb_spec i (len messages)); [lia | reflexivity].
  - destruct (Z.ltb_spec i (len messages)); [|reflexivity].
    rewrite (IH fuel' (i + 1)) by lia. reflexivity.
Qed.

Lemma reply_loop_bounds fuel messages i unit :
  i <= len messages ->
  i - 1 <= (reply_loop fuel messages i unit).1 <= len messages
  /\ StartIndex (reply_loop fuel messages i unit).2 = StartIndex unit.
Proof.
  revert i. induction fuel as [|fuel IH]; intros i Hi; simpl; [lia|].
  destruct (Z.ltb_spec i (len messages)); simpl; [|lia].
  destruct (String.eqb _ RoleAssistant).
  - destruct (hasToolCalls _); simpl; [|lia].
    unfold findEndOfToolSequence.
    pose proof (findEnd_loop_bounds (length messages) messages (i + 1)).
    lia.
  - destruct (String.eqb _ RoleTool); simpl.
    + specialize (IH (i + 1)). lia.
    + lia.
Qed.

Lemma reply_loop_fuel fuel fuel' messages i unit :
  len messages - i <= Z.of_nat fuel -> len messages - i <= Z.of_nat fuel' ->
  reply_loop fuel messages i unit = reply_loop fuel' messages i unit.
Proof.
  revert fuel' i. induction fuel as [|fuel IH]; intros [|fuel'] i H1 H2;
    simpl; try reflexivity.
  - destruct (Z.ltb_spec i (len messages)); [lia | reflexivity].
  - destruct (Z.ltb_spec i (len messages)); [lia | reflexivity].
  - destruct (Z.ltb_spec i (len messages)); [|reflexivity].
    rewrite (IH fuel' (i + 1)) by lia. reflexivity.
Qed.

(** The accumulator of the outer loop is only ever appended to. *)
Lemma units_loop_app fuel messages i units :
  units_loop fuel messages i units
  = units ++ units_loop fuel messages i [].
Proof.
  revert i units. induction fuel as [|fuel IH]; intros i units; simpl.
  { by rewrite app_nil_r. }
  destruct (i <? len messages); [|by rewrite app_nil_r].
  destruct (String.eqb _ RoleUser); [|apply IH].
  destruct (reply_loop _ _ _ _) as [i1 unit1].
  rewrite IH. rewrite (IH _ [_]). by rewrite app_assoc.
Qed.

Lemma ascending_mono messages lo lo' units :
  lo' <= lo -> ascending messages lo units -> ascending messages lo' units.
Proof. destruct units; simpl; [done|]. intros ? [[? ?] ?]. repeat split; auto; lia. Qed.

Lemma ascending_app_inv messages lo k u rest :
  ascending messages lo (k ++ u :: rest) ->
  lo + len k <= StartIndex u < len messages
  /\ Role (msg_at messages (StartIndex u)) = RoleUser.
Proof.
  revert lo. induction k as [|x k IH]; intros lo; simpl.
  - intros [[? ?] _]. unfold len in *; simpl. split; [lia | done].
  - intros [[? ?] Hr]. apply IH in Hr. unfold len in *. simpl length.
    split; [lia | tauto].
Qed.

Lemma units_loop_ascending fuel messages i :
  0 <= i -> ascending messages i (units_loop fuel messages i []).
Proof.
  revert i. induction fuel as [|fuel IH]; intros i Hi; simpl; [done|].
  destruct (Z.ltb_spec i (len messages)); [|done].
  destruct (String.eqb_spec (Role (msg_at messages i)) RoleUser) as [Hr|_].
  2:{ eapply ascending_mono; [|apply IH]; lia. }
  pose proof (reply_loop_bounds (length messages) messages (i + 1)
                (mkSafeUnit i 0 0 "dialog") ltac:(lia)) as [Hb Hs].
  destruct (reply_loop _ _ _ _) as [i1 unit1]. simpl in Hb, Hs.
  rewrite units_loop_app. simpl.
  assert (Hstart : StartIndex (if len messages <=? i1
                     then set_EndIndex unit1 (len messages - 1) else unit1) = i).
  { destruct (len messages <=? i1); simpl; done. }
  rewrite Hstart. repeat split; [lia | lia | done |].
  eapply ascending_mono; [|apply IH]; lia.
Qed.

Lemma identifySafeUnits_ascending messages :
  ascending messages 0 (identifySafeUnits messages).
Proof.
  unfold identifySafeUnits. destruct (len messages =? 0); [done|].
  by apply units_loop_ascending.
Qed.

Lemma units_tokens_app l k :
  units_tokens (l ++ k) = units_tokens l + units_tokens k.
Proof. induction l as [|u l IH]; simpl; [done|]. rewrite IH. lia. Qed.

Lemma units_tokens_rev l : units_tokens (rev l) = units_tokens l.
Proof.
  induction l as [|u l IH]; simpl; [done|].
  rewrite units_tokens_app, IH. simpl. lia.
Qed.

(** The selection takes units newest first and stops at the first one
    that does not fit: it keeps [taken], a prefix of what it was given,
    and when nothing is left over everything fitted. *)
Lemma select_loop_spec maxTokens rest selected currentTokens :
  exists taken dropped,
    rest = taken ++ dropped
    /\ select_loop maxTokens rest selected currentTokens = rev taken ++ selected
    /\ (dropped = [] -> currentTokens <= maxTokens ->
        currentTokens + units_tokens taken <= maxTokens).
Proof.
  revert selected currentTokens.
  induction rest as [|unit rest IH]; intros selected cur; simpl.
  { exists [], []. simpl. repeat split; auto. lia. }
  destruct (Z.leb_spec (cur + TokenCount unit) maxTokens) as [Hfit|Hno].
  - destruct (IH (unit :: selected) (cur + TokenCount unit))
      as (taken & dropped & -> & Hsel & Hsum).
    exists (unit :: taken), dropped. simpl. rewrite Hsel, <- app_assoc. simpl.
    repeat split; auto. intros Hd _. specialize (Hsum Hd Hfit). lia.
  - exists [], (unit :: rest). simpl. repeat split; auto. discriminate.
Qed.

Lemma selectUnitsFromEnd_spec units maxTokens :
  exists older,
    units = older ++ selectUnitsFromEnd units maxTokens
    /\ (older = [] -> 0 <= maxTokens -> units_tokens units <= maxTokens).
Proof.
  unfold selectUnitsFromEnd.
  destruct (len units =? 0) eqn:E.
  { apply len_zero_nil in E as ->. exists []. simpl. split; [done | intros; lia]. }
  destruct (select_loop_spec maxTokens (rev units) [] 0)
    as (taken & dropped & Hrev & -> & Hsum).
  rewrite app_nil_r. exists (rev dropped). split.
  - rewrite <- rev_app_distr, <- Hrev. by rewrite rev_involutive.
  - intros Hd Hmax.
    assert (dropped = []) as ->.
    { destruct dropped; [done|]. simpl in Hd. by destruct (rev dropped). }
    specialize (Hsum eq_refl Hmax). rewrite app_nil_r in Hrev.
    rewrite <- (units_tokens_rev units), Hrev. lia.
Qed.

Lemma dropLeadingNonDialog_spec selectedUnits :
  exists skipped,
    selectedUnits = skipped ++ dropLeadingNonDialog selectedUnits
    /\ match dropLeadingNonDialog selectedUnits with
       | [] => True
       | u :: _ => UnitType u = "dialog"
       end.
Proof.
  induction selectedUnits as [|u rest (skipped & Heq & Hd)]; simpl.
  { by exists []. }
  destruct (String.eqb_spec (UnitType u) "dialog") as [Ht|Ht]; simpl.
  - by exists [].
  - exists (u :: skipped). simpl. by rewrite <- Heq.
Qed.

(** [messages[i:]] for an index inside the slice starts with [messages[i]]. *)
Lemma slice_from_cons messages i :
  0 <= i < len messages ->
  slice_from messages i = msg_at messages i :: slice_from messages (i + 1).
Proof.
  intros Hi. unfold slice_from, msg_at, len in *.
  replace (Z.to_nat (i + 1)) with (S (Z.to_nat i)) by lia.
  destruct (lookup_lt_is_Some_2 messages (Z.to_nat i)) as [m Hm]; [lia|].
  rewrite nth_lookup, Hm. simpl. by apply drop_S.
Qed.

(** What the unit-selection path of [truncateHistory] returns: the empty
    history, or the suffix that starts at a unit of the scan, of type
    dialog, reached after skipping [older] units. *)
Lemma selection_path messages availableTokens :
  let selected :=
    dropLeadingNonDialog
      (selectUnitsFromEnd (identifySafeUnits messages) availableTokens) in
  match selected with
  | [] => True
  | u :: rest =>
      exists older,
        identifySafeUnits messages = older ++ u :: rest
        /\ UnitType u = "dialog"
        /\ len older <= StartIndex u < len messages
        /\ Role (msg_at messages (StartIndex u)) = RoleUser
        /\ (older = [] -> 0 <= availableTokens ->
            units_tokens (identifySafeUnits messages) <= availableTokens)
  end.
Proof.
  intros selected. subst selected.
  destruct (selectUnitsFromEnd_spec (identifySafeUnits messages) availableTokens)
    as (older & Hunits & Hall).
  destruct (dropLeadingNonDialog_spec
              (selectUnitsFromEnd (identifySafeUnits messages) availableTokens))
    as (skipped & Hsel & Hd).
  destruct (dropLeadingNonDialog _) as [|u rest]; [done|].
  exists (older ++ skipped).
  assert (Heq : identifySafeUnits messages = (older ++ skipped) ++ u :: rest).
  { rewrite <- app_assoc, <- Hsel. exact Hunits. }
  pose proof (identifySafeUnits_ascending messages) as Hasc.
  rewrite Heq in Hasc. apply ascending_app_inv in Hasc as [Hb Hr].
  repeat split; auto; try lia.
  intros Hnil. apply app_eq_nil in Hnil as [-> _]. auto.
Qed.

Lemma quot5_ge t a : 5 * t <= a -> t <= Z.quot a 5.
Proof. intros. Z.to_euclidean_division_equations. lia. Qed.

Lemma quot5_lt t a : a + 5 <= 5 * t -> Z.quot a 5 < t.
Proof. intros. Z.to_euclidean_division_equations. lia. Qed.

(** C3. For every manager (whatever MaxHistoryTokens, EnableTruncation and
    system prompt it holds) and every history, [truncateHistory] returns a
    contiguous suffix of the history, so no longer than the history. *)
Theorem truncateHistory_suffix cm messages :
  truncateHistory cm messages `suffix_of` messages
  /\ (length (truncateHistory cm messages) <= length messages)%nat.
Proof.
  assert (Hs : truncateHistory cm messages `suffix_of` messages).
  { unfold truncateHistory.
    destruct (negb _ || _); [done|].
    destruct (_ <=? threshold _); [done|].
    destruct (_ <=? 0); [apply suffix_nil|].
    destruct (len (identifySafeUnits messages) =? 0); [done|].
    destruct (len (selectUnitsFromEnd _ _) =? 0); [apply suffix_nil|].
    destruct (dropLeadingNonDialog _); [apply suffix_nil|].
    apply suffix_drop. }
  split; [exact Hs | by apply suffix_length].
Qed.



End TruncationFacts.

(** ** Indices stay in range *)

Section TruncationBounds.

Import ConversationManager.

(** With enough fuel the reply loop either runs off the end of the slice
    or stops on an index inside it, recorded as the end of the unit. *)
Lemma reply_loop_end fuel messages i unit :
  len messages - i <= Z.of_nat fuel ->
  len messages <= (reply_loop fuel messages i unit).1
  \/ (EndIndex (reply_loop fuel messages i unit).2
      = (reply_loop fuel messages i unit).1
      /\ i - 1 <= (reply_loop fuel messages i unit).1 < len messages).
Proof.
  revert i. induction fuel as [|fuel IH]; intros i Hf; simpl; [left; lia|].
  destruct (Z.ltb_spec i (len messages)); simpl; [|left; lia].
  destruct (String.eqb _ RoleAssistant).
  - right. destruct (hasToolCalls _); simpl; [|lia].
    unfold findEndOfToolSequence.
    pose proof (findEnd_loop_bounds (length messages) messages (i + 1)).
    lia.
  - destruct (String.eqb _ RoleTool); simpl.
    + destruct (IH (i + 1)) as [Hl | [He Hb]]; [lia | by left | right; lia].
    + right. lia.
Qed.

(** Every unit of the scan delimits a non-empty range of the slice, so
    [messages[unit.StartIndex : unit.EndIndex+1]] is in range. *)
Lemma units_loop_in_range fuel messages i :
  0 <= i ->
  Forall (fun u => 0 <= StartIndex u <= EndIndex u /\ EndIndex u < len messages)
         (units_loop fuel messages i []).
Proof.
  revert i. induction fuel as [|fuel IH]; intros i Hi; simpl; [constructor|].
  destruct (Z.ltb_spec i (len messages)); [|constructor].
  destruct (String.eqb (Role (msg_at messages i)) RoleUser); [|apply IH; lia].
  pose proof (reply_loop_bounds (length messages) messages (i + 1)
                (mkSafeUnit i 0 0 "dialog") ltac:(lia)) as [Hb Hs].
  pose proof (reply_loop_end (length messages) messages (i + 1)
                (mkSafeUnit i 0 0 "dialog") ltac:(unfold len; lia)) as He.
  destruct (reply_loop _ _ _ _) as [i1 unit1]. simpl in Hb, Hs, He.
  rewrite units_loop_app. simpl. constructor; [|apply IH; lia].
  destruct (Z.leb_spec (len messages) i1); simpl; [lia|].
  destruct He as [He | [He _]]; lia.
Qed.

Lemma identifySafeUnits_in_range messages :
  Forall (fun u => 0 <= StartIndex u <= EndIndex u /\ EndIndex u < len messages)
         (identifySafeUnits messages).
Proof.
  unfold identifySafeUnits. destruct (len messages =? 0); [constructor|].
  by apply units_loop_in_range.
Qed.

(** The outer loop advances by at least one message per round: any fuel
    that covers the rest of the slice gives the same units. *)
Lemma units_loop_fuel fuel fuel' messages i :
  0 <= i ->
  len messages - i <= Z.of_nat fuel -> len messages - i <= Z.of_nat fuel' ->
  units_loop fuel messages i [] = units_loop fuel' messages i [].
Proof.
  revert fuel' i. induction fuel as [|fuel IH]; intros [|fuel'] i Hi H1 H2;
    simpl; try reflexivity.
  - destruct (Z.ltb_spec i (len messages)); [lia | reflexivity].
  - destruct (Z.ltb_spec i (len messages)); [lia | reflexivity].
  - destruct (Z.ltb_spec i (len messages)); [|reflexivity].
    destruct (String.eqb (Role (msg_at messages i)) RoleUser).
    + pose proof (reply_loop_bounds (length messages) messages (i + 1)
                    (mkSafeUnit i 0 0 "dialog") ltac:(lia)) as [Hb _].
      destruct (reply_loop _ _ _ _) as [i1 unit1]. simpl in Hb.
      rewrite units_loop_app, (units_loop_app fuel').
      f_equal. apply IH; lia.
    + apply IH; lia.
Qed.

End TruncationBounds.

Section TruncationExamples.

Import ConversationManager Fixtures.

(** The threshold as the source computes it, in binary64, against the
    integer form used by the model. *)
Example float_threshold_default : float_threshold 100000 = threshold 100000.
Proof. vm_compute. reflexivity. Qed.

Example float_threshold_samples :
  map float_threshold [0; 1; 4; 5; 6; 2560; 999999999999; -1; -7; 2 ^ 40]
  = map threshold [0; 1; 4; 5; 6; 2560; 999999999999; -1; -7; 2 ^ 40].
Proof. vm_compute. reflexivity. Qed.

Example CalculateTokens_ascii : CalculateTokens "hello" = 2.
Proof. reflexivity. Qed.

(** Three runes of three bytes each. *)
Example CalculateTokens_cjk : CalculateTokens "你好吗" = 1.
Proof. vm_compute. reflexivity. Qed.

Example identifySafeUnits_two_turns :
  identifySafeUnits two_turns
  = [mkSafeUnit 0 1 502 "dialog"; mkSafeUnit 2 3 4 "dialog"].
Proof. vm_compute. reflexivity. Qed.

Example truncateHistory_two_turns :
  truncateHistory (SetMaxHistoryTokens cm0 520) two_turns
  = [user_msg "second"; assistant_msg "ok"].
Proof. vm_compute. reflexivity. Qed.





End TruncationExamples.

(** ** The conversation loop *)

Section ChatFacts.

Import ConversationManager.
Context {World : Type} `{Runtime}.
Implicit Types (cm : @ConversationManager World) (st : @State World).

Local Arguments send : simpl never.
Local Arguments executions : simpl never.

Lemma executions_app t1 t2 :
  executions (t1 ++ t2) = executions t1 + executions t2.
Proof. unfold executions. rewrite List.filter_app. apply len_app. Qed.

Lemma executions_send (info_chan : bool) m t :
  executions (send info_chan m t) = executions t.
Proof.
  unfold send. destruct info_chan; [|done].
  rewrite executions_app. unfold executions; simpl. unfold len; simpl. lia.
Qed.

Lemma executions_nonneg t : 0 <= executions t.
Proof. apply len_nonneg. Qed.

(** A handled call is one more execution and touches nothing of the
    manager but the history; a call to an unknown function changes
    nothing at all. *)
Lemma HandleToolCall_spec st toolCall info_chan :
  match HandleToolCall st toolCall info_chan with
  | (None, st') =>
      executions (st_trace st') = executions (st_trace st) + 1
      /\ MaxFunctionCallingNums (st_cm st') = MaxFunctionCallingNums (st_cm st)
  | (Some _, st') => st' = st
  end.
Proof.
  unfold HandleToolCall.
  destruct (registeredFuncs (st_cm st) !! _); [|done].
  destruct (CallRegisteredFunction _ _ _ _) as [r w']. simpl.
  rewrite executions_send, executions_app. split; [|done].
  unfold executions at 2; simpl. unfold len; simpl. lia.
Qed.

(** One pass over the tool calls of a reply.  [count] executions have
    happened so far, within the limit. *)
Lemma toolcalls_loop_spec toolCalls info_chan st count stop_reason :
  let M := MaxFunctionCallingNums (st_cm st) in
  executions (st_trace st) = count ->
  0 <= count <= Z.max 0 M ->
  match toolcalls_loop toolCalls info_chan st count stop_reason with
  | (inl (Returned reason _), st') =>
      reason = "error" /\ executions (st_trace st') <= Z.max 0 M
  | (inl (LoopDone _), _) => False
  | (inr (count', false, reason), st') =>
      reason = stop_reason
      /\ count' = count + len toolCalls
      /\ (toolCalls = [] \/ count' <= M)
      /\ executions (st_trace st') = count'
      /\ MaxFunctionCallingNums (st_cm st') = M
  | (inr (count', true, reason), st') =>
      reason = "max_function_calling_nums"
      /\ executions (st_trace st') = Z.max 0 M + 1
      /\ MaxFunctionCallingNums (st_cm st') = M
  end.
Proof.
  revert st count. induction toolCalls as [|toolCall rest IH];
    intros st count M Hex Hc; simpl.
  { repeat split; auto. unfold len; simpl. lia. }
  pose proof (HandleToolCall_spec st toolCall info_chan) as Hh.
  destruct (Z.ltb_spec (MaxFunctionCallingNums (st_cm st)) (count + 1))
    as [Hlt|Hge].
  - destruct (HandleToolCall st toolCall info_chan) as [[err|] st'].
    + subst st'. split; [done | fold M; lia].
    + destruct Hh as [He Hm]. fold M in Hm |- *. repeat split; auto. lia.
  - destruct (HandleToolCall st toolCall info_chan) as [[err|] st'].
    + subst st'. split; [done | fold M; lia].
    + destruct Hh as [He Hm]. fold M in Hm.
      specialize (IH st' (count + 1)). simpl in IH. rewrite Hm in IH.
      fold M in Hge.
      specialize (IH ltac:(lia) ltac:(lia)).
      destruct (toolcalls_loop rest info_chan st' (count + 1) stop_reason)
        as [[[reason err|reason]|[[count' [|]] reason]] st'']; auto.
      destruct IH as (-> & -> & Hr & He' & Hm').
      repeat split; auto.
      * unfold len. simpl length. unfold len. lia.
      * right. destruct Hr as [->|Hr]; [unfold len; simpl; lia | lia].
Qed.

(** The rounds of [Chat].  With more fuel than the limit leaves calls to
    make, the loop ends: by a [return] with an error, or by leaving the
    loop with one of two finish reasons. *)
Lemma chat_loop_spec fuel provider allTools info_chan st count :
  let M := MaxFunctionCallingNums (st_cm st) in
  executions (st_trace st) = count ->
  0 <= count <= Z.max 0 M ->
  Z.max 0 M - count < Z.of_nat fuel ->
  exists exit st',
    chat_loop fuel provider allTools info_chan st count "success"
    = Some (exit, st')
    /\ match exit with
       | Returned reason _ =>
           (reason = "" \/ reason = "error")
           /\ executions (st_trace st') <= Z.max 0 M
       | LoopDone reason =>
           (reason = "success" /\ executions (st_trace st') <= Z.max 0 M)
           \/ (reason = "max_function_calling_nums"
               /\ executions (st_trace st') = Z.max 0 M + 1)
       end.
Proof.
  revert st count. induction fuel as [|fuel IH];
    intros st count M Hex Hc Hfuel; [lia|].
  simpl.
  destruct (manager (st_cm st) provider _ (st_world st)) as [[err|resp] w'].
  { eexists _, _. split; [done|]. simpl. split; [auto | lia]. }
  destruct (Choices resp) as [|choice choices].
  { eexists _, _. split; [done|]. simpl. left. split; [done | lia]. }
  destruct (len (ToolCalls (ch_Message choice)) =? 0) eqn:Ecalls.
  { eexists _, _. split; [done|]. simpl. rewrite executions_send.
    left. split; [done | lia]. }
  match goal with
  | |- context [toolcalls_loop ?tcs ?ch ?st2 ?c ?sr] =>
      pose proof (toolcalls_loop_spec tcs ch st2 c sr) as Ht;
      destruct (toolcalls_loop tcs ch st2 c sr)
        as [[[reason err|reason]|[[count' shouldExit] reason]] st3]
  end; simpl in Ht; rewrite executions_send in Ht;
    specialize (Ht Hex Hc); fold M in Ht.
  - destruct Ht as [-> Hle]. eexists _, _. split; [done|]. simpl. auto.
  - done.
  - destruct shouldExit.
    + destruct Ht as (-> & He & _). eexists _, _. split; [done|]. simpl. auto.
    + destruct Ht as (-> & Hcount & Hr & He & Hm).
      assert (Hpos : 0 < len (ToolCalls (ch_Message choice))).
      { pose proof (len_nonneg (ToolCalls (ch_Message choice))).
        apply Z.eqb_neq in Ecalls. lia. }
      destruct Hr as [Hnil|Hr].
      { rewrite Hnil in Hpos. unfold len in Hpos; simpl in Hpos. lia. }
      specialize (IH st3 count'). simpl in IH. rewrite Hm in IH.
      apply IH; lia.
Qed.

(** [Chat] always returns. *)
Lemma Chat_returns cm provider userMessage imageBase64s info_chan w :
  exists r st,
    Chat cm provider userMessage imageBase64s info_chan w = Some (r, st).
Proof.
  unfold Chat.
  match goal with
  | |- context [chat_loop ?f ?p ?t ?c ?st 0 "success"] =>
      destruct (chat_loop_spec f p t c st 0) as (exit & st' & -> & _)
  end.
  - simpl. by rewrite executions_send.
  - lia.
  - destruct (0 <? len _); simpl; lia.
  - destruct exit; eauto.
Qed.

(** How the result of [Chat] is put together from the way its loop was
    left. *)
Lemma Chat_inv cm provider userMessage imageBase64s info_chan w r st :
  Chat cm provider userMessage imageBase64s info_chan w = Some (r, st) ->
  let M := MaxFunctionCallingNums cm in
  exists exit st',
    match exit with
    | Returned reason err =>
        (reason = "" \/ reason = "error")
        /\ executions (st_trace st') <= Z.max 0 M
        /\ r = mkChatResult [] reason (Some err) None
        /\ st = mkState (set_history (st_cm st')
                           (truncateHistory cm (history cm)))
                        (st_world st') (st_trace st')
    | LoopDone reason =>
        ((reason = "success" /\ executions (st_trace st') <= Z.max 0 M)
         \/ (reason = "max_function_calling_nums"
             /\ executions (st_trace st') = Z.max 0 M + 1))
        /\ res_finish r = reason /\ res_err r = None /\ st = st'
    end.
Proof.
  intros Hchat M. unfold Chat in Hchat.
  match type of Hchat with
  | context [chat_loop ?f ?p ?t ?c ?st0 0 "success"] =>
      destruct (chat_loop_spec f p t c st0 0)
        as (exit & st' & Hloop & Hpost);
        [ simpl; by rewrite executions_send | lia
        | destruct (0 <? len _); simpl; lia | ];
      rewrite Hloop in Hchat;
      assert (HM : MaxFunctionCallingNums (st_cm st0) = M)
        by (simpl; destruct (0 <? len _); reflexivity);
      rewrite HM in Hpost
  end.
  exists exit, st'. destruct exit as [reason err|reason].
  - injection Hchat as <- <-. destruct Hpost as [Hr He].
    repeat split; auto.
  - injection Hchat as <- <-. simpl. repeat split; auto.
Qed.

(** C1 (amended). When [Chat] returns a non-nil error, the history it
    leaves is the history it was called with after the truncation done on
    entry ([truncateHistory] of the pre-call history), whatever was
    appended before the error. *)
Theorem Chat_error_restores_snapshot
    cm provider userMessage imageBase64s info_chan w r st :
  Chat cm provider userMessage imageBase64s info_chan w = Some (r, st) ->
  res_err r <> None ->
  history (st_cm st) = truncateHistory cm (history cm).
Proof.
  intros Hchat Herr. apply Chat_inv in Hchat as (exit & st' & Hpost).
  destruct exit as [reason err|reason].
  - destruct Hpost as (_ & _ & _ & ->). reflexivity.
  - destruct Hpost as (_ & _ & Hnone & _). contradiction.
Qed.

(** C2 (amended). During one [Chat] the number of tool executions is at
    most max(MaxFunctionCallingNums, 0) + 1.  When the finish reason is
    max_function_calling_nums it is exactly that number (the call beyond
    the limit was executed) and no error is returned; with any other
    finish reason it is at most max(MaxFunctionCallingNums, 0). *)
Theorem Chat_tool_budget
    cm provider userMessage imageBase64s info_chan w r st :
  Chat cm provider userMessage imageBase64s info_chan w = Some (r, st) ->
  let M := MaxFunctionCallingNums cm in
  executions (st_trace st) <= Z.max 0 M + 1
  /\ (res_finish r = "max_function_calling_nums" ->
      executions (st_trace st) = Z.max 0 M + 1 /\ res_err r = None)
  /\ (res_finish r <> "max_function_calling_nums" ->
      executions (st_trace st) <= Z.max 0 M).
Proof.
  intros Hchat M. apply Chat_inv in Hchat as (exit & st' & Hpost).
  fold M in Hpost.
  destruct exit as [reason err|reason].
  - destruct Hpost as (Hr & He & -> & ->). simpl.
    repeat split; try lia; destruct Hr as [-> | ->]; discriminate.
  - destruct Hpost as (Hr & Hfin & Hnone & ->).
    destruct Hr as [[-> He] | [-> He]]; rewrite Hfin;
      repeat split; auto; try lia; try discriminate; congruence.
Qed.

(** The finish reasons [Chat] returns, against the error it returns. *)
Lemma Chat_finish_reasons
    cm provider userMessage imageBase64s info_chan w r st :
  Chat cm provider userMessage imageBase64s info_chan w = Some (r, st) ->
  (res_err r = None
   /\ (res_finish r = "success"
       \/ res_finish r = "max_function_calling_nums"))
  \/ (res_err r <> None
      /\ (res_finish r = "error" \/ res_finish r = "")).
Proof.
  intros Hchat. apply Chat_inv in Hchat as (exit & st' & Hpost).
  destruct exit as [reason err|reason].
  - destruct Hpost as (Hr & _ & -> & _). right. simpl. split; [done | tauto].
  - destruct Hpost as (Hr & <- & Hnone & _). left. split; [done | tauto].
Qed.

End ChatFacts.

Section ChatExamples.

Import ConversationManager Fixtures.

(** S2: one tool call, then the answer. *)
Example Chat_asks_once :
  match Chat (calculator asks_once) "openai" "add them" [] false 0%nat with
  | Some (r, st) =>
      res_finish r = "success" /\ res_err r = None
      /\ map Role (res_messages r) = ["user"; "assistant"; "tool"; "assistant"]
      /\ map (fun m => map c_Text (Content_ m)) (res_messages r)
         = [["add them"]; []; ["函数返回: 1646"]; ["1646"]]
      /\ executions (st_trace st) = 1
  | None => False
  end.
Proof. vm_compute. repeat split. Qed.

(** S4: with a limit of one call, two calls are executed. *)
Example Chat_keeps_asking :
  match Chat (SetMaxFunctionCallingNums (calculator keeps_asking) 1)
             "openai" "add them" [] false 0%nat with
  | Some (r, st) =>
      res_finish r = "max_function_calling_nums"
      /\ executions (st_trace st) = 2
  | None => False
  end.
Proof. vm_compute. repeat split. Qed.

(** A failure in the second round, after a user message, two assistant
    messages and a tool result were appended: the history is put back. *)
Example Chat_rollback_after_tool_result :
  match Chat (calculator asks_unknown) "openai" "add them" [] false 0%nat with
  | Some (r, st) =>
      res_finish r = "error"
      /\ res_err r = Some "函数调用失败: 未找到函数: Missing"
      /\ history (st_cm st) = []
      /\ executions (st_trace st) = 1
  | None => False
  end.
Proof. vm_compute. repeat split. Qed.

Lemma Chat_error_restores_snapshot_witness :
  history
    (st_cm (mkState (set_history crowded [user_msg "second"; assistant_msg "ok"])
                    tt []))
  = truncateHistory crowded (history crowded).
Proof.
  apply (Chat_error_restores_snapshot crowded "openai" "third" [] false tt
           (mkChatResult [] "" (Some provider_error) None)).
  - vm_compute. reflexivity.
  - discriminate.
Defined.

(** C1 as stated fails: the snapshot is taken after the truncation on
    entry, so a failed call leaves the truncated history, two messages
    shorter here than the history before the call. *)
Lemma Chat_error_history_not_precall :
  ~ (forall (cm : ConversationManager (World := unit)) provider userMessage
            imageBase64s info_chan w r st,
       Chat cm provider userMessage imageBase64s info_chan w = Some (r, st) ->
       res_err r <> None ->
       history (st_cm st) = history cm).
Proof.
  intros Hc.
  specialize (Hc crowded "openai" "third" [] false tt
                 (mkChatResult [] "" (Some provider_error) None)
                 (mkState (set_history crowded
                             [user_msg "second"; assistant_msg "ok"]) tt [])).
  assert (Hrun : Chat crowded "openai" "third" [] false tt
                 = Some (mkChatResult [] "" (Some provider_error) None,
                         mkState (set_history crowded
                                    [user_msg "second"; assistant_msg "ok"])
                                 tt [])).
  { vm_compute. reflexivity. }
  specialize (Hc Hrun ltac:(discriminate)).
  apply (f_equal (@length Message)) in Hc. vm_compute in Hc. discriminate Hc.
Qed.

Lemma Chat_tool_budget_witness :
  exists r st,
    Chat (SetMaxFunctionCallingNums (calculator keeps_asking) 1)
         "openai" "add them" [] false 0%nat = Some (r, st)
    /\ executions (st_trace st) <= Z.max 0 1 + 1
    /\ (res_finish r = "max_function_calling_nums" ->
        executions (st_trace st) = Z.max 0 1 + 1 /\ res_err r = None)
    /\ (res_finish r <> "max_function_calling_nums" ->
        executions (st_trace st) <= Z.max 0 1).
Proof.
  eexists _, _. split.
  - vm_compute. reflexivity.
  - apply (Chat_tool_budget
             (SetMaxFunctionCallingNums (calculator keeps_asking) 1)
             "openai" "add them" [] false 0%nat).
    vm_compute. reflexivity.
Defined.

(** C2 as stated fails for a negative limit: with
    MaxFunctionCallingNums = -1 the first tool call is executed, one
    execution against a bound of -1 + 1 = 0. *)
Lemma Chat_negative_limit_executes :
  ~ (forall (cm : ConversationManager (World := nat)) provider userMessage
            imageBase64s info_chan w r st,
       Chat cm provider userMessage imageBase64s info_chan w = Some (r, st) ->
       executions (st_trace st) <= MaxFunctionCallingNums cm + 1).
Proof.
  intros Hc.
  destruct (Chat (SetMaxFunctionCallingNums (calculator keeps_asking) (-1))
                 "openai" "add them" [] false 0%nat)
    as [[r st]|] eqn:Hrun.
  - specialize (Hc _ _ _ _ _ _ r st Hrun).
    vm_compute in Hrun. injection Hrun as <- <-.
    vm_compute in Hc. apply Hc. reflexivity.
  - vm_compute in Hrun. discriminate Hrun.
Qed.

(** C6, at a dispatcher failure: the error is not nil and the finish
    reason is the empty string, not error. *)
Theorem Chat_provider_failure_finish_reason :
  Chat cm0 "openai" "hello" [] false tt
  = Some (mkChatResult [] "" (Some provider_error) None, mkState cm0 tt []).
Proof. vm_compute. reflexivity. Qed.

(** The sibling error path: an unknown tool gives finish reason error. *)
Example Chat_unknown_tool_finish_reason :
  match Chat (NewConversationManager keeps_asking)
             "openai" "add them" [] false 0%nat with
  | Some (r, _) =>
      res_finish r = "error"
      /\ res_err r = Some "函数调用失败: 未找到函数: AddNumber"
  | None => False
  end.
Proof. vm_compute. split; reflexivity. Qed.

End ChatExamples.

(** ** The function registry *)

Section RegistryFacts.

Import ConversationManager.
Context {World : Type} `{Runtime}.
Implicit Types (cm : @ConversationManager World) (fnValue : @Func World).

(** The argument loop either fails on a key that is present and cannot be
    converted, or builds one argument per parameter, the zero value of the
    parameter's type wherever the key is absent. *)
Lemma args_loop_spec params savedParamNames ins i :
  match args_loop params savedParamNames ins i with
  | inr args =>
      length args = length ins
      /\ forall j t,
           ins !! j = Some t ->
           params !! nth (i + j) savedParamNames "" = None ->
           args !! j = Some (Zero t)
  | inl _ =>
      exists j t v err,
        ins !! j = Some t
        /\ params !! nth (i + j) savedParamNames "" = Some v
        /\ ConvertInterfaceToType v t = inl err
  end.
Proof.
  revert i. induction ins as [|paramType ins IH]; intros i; simpl.
  { split; [done|]. intros j t Hj. done. }
  specialize (IH (S i)).
  destruct (params !! nth i savedParamNames "") as [paramValue|] eqn:Hp.
  - destruct (ConvertInterfaceToType paramValue paramType) as [err|v] eqn:Hc.
    { exists 0%nat, paramType, paramValue, err.
      rewrite Nat.add_0_r. by repeat split. }
    destruct (args_loop params savedParamNames ins (S i)) as [e|args].
    + destruct IH as (j & t & v' & err & Hj & Hv & He).
      exists (S j), t, v', err.
      replace (i + S j)%nat with (S i + j)%nat by lia. by repeat split.
    + destruct IH as [Hlen Hz]. split; [simpl; by rewrite Hlen|].
      intros [|j] t Hj Hnone; simpl in Hj |- *.
      * rewrite Nat.add_0_r in Hnone. congruence.
      * apply Hz; [done|]. by replace (S i + j)%nat with (i + S j)%nat by lia.
  - destruct (args_loop params savedParamNames ins (S i)) as [e|args].
    + destruct IH as (j & t & v' & err & Hj & Hv & He).
      exists (S j), t, v', err.
      replace (i + S j)%nat with (S i + j)%nat by lia. by repeat split.
    + destruct IH as [Hlen Hz]. split; [simpl; by rewrite Hlen|].
      intros [|j] t Hj Hnone; simpl in Hj |- *.
      * rewrite Nat.add_0_r in Hnone. congruence.
      * apply Hz; [done|]. by replace (S i + j)%nat with (i + S j)%nat by lia.
Qed.

(** The result loop reports every value but a trailing error. *)
Lemma results_loop_spec results resultParts :
  results_loop results = inr resultParts ->
  resultParts = map ConvertReturnValueToString (drop_trailing_error results).
Proof.
  revert resultParts. induction results as [|v rest IH]; intros parts; simpl.
  { by intros [= <-]. }
  destruct rest as [|v' rest'].
  - simpl. destruct (ImplementsError (TypeOfValue v)); simpl.
    + destruct (IsNil v); simpl; [by intros [= <-] | done].
    + by intros [= <-].
  - replace (len (v' :: rest') =? 0) with false by done.
    cbn [andb].
    destruct (results_loop (v' :: rest')) as [e|parts']; [done|].
    intros [= <-]. by rewrite (IH parts' eq_refl).
Qed.

Lemma render_results_spec results s :
  render_results results = inr s ->
  s = success_text (drop_trailing_error results).
Proof.
  unfold render_results.
  destruct (len results =? 0) eqn:E.
  { apply len_zero_nil in E as ->. by intros [= <-]. }
  destruct (results_loop results) as [e|parts] eqn:Hl; [done|].
  apply results_loop_spec in Hl as ->.
  destruct (drop_trailing_error results); simpl; by intros [= <-].
Qed.

(** Where no value of type error stands before the last position, the
    reported values are the values that are not of type error. *)
Lemma drop_trailing_error_non_error results :
  Forall (fun v => ImplementsError (TypeOfValue v) = false) (removelast results) ->
  drop_trailing_error results = non_error_results results.
Proof.
  induction results as [|v rest IH]; [done|].
  destruct rest as [|v' rest'].
  - intros _. unfold non_error_results. simpl.
    by destruct (ImplementsError (TypeOfValue v)).
  - intros Hf. change (removelast (v :: v' :: rest'))
      with (v :: removelast (v' :: rest')) in Hf.
    apply Forall_cons in Hf as [Hv Hf].
    change (drop_trailing_error (v :: v' :: rest'))
      with (v :: drop_trailing_error (v' :: rest')).
    rewrite (IH Hf). unfold non_error_results.
    cbn [List.filter]. by rewrite Hv.
Qed.

(** C7 (amended). For a registered function and arguments that parse to
    an object, [CallRegisteredFunction] builds one argument per parameter
    and puts the zero value of the parameter's type wherever the
    parameter's name is absent from the object; it fails before the call
    only on a key that is present and cannot be converted.  A successful
    call returns "函数返回: " followed by the rendering of the first return
    value other than a value of type error in the last position, or
    "函数执行完成" when there is no such value. *)
Theorem CallRegisteredFunction_spec
    cm name arguments w fnValue params savedParamNames :
  registeredFuncs cm !! name = Some fnValue ->
  parse_arguments arguments = inr params ->
  funcParamNames cm !! name = Some savedParamNames ->
  match args_loop params savedParamNames (In fnValue) 0 with
  | inr args =>
      length args = length (In fnValue)
      /\ (forall i t,
            In fnValue !! i = Some t ->
            params !! nth i savedParamNames "" = None ->
            args !! i = Some (Zero t))
      /\ CallRegisteredFunction cm name arguments w
         = (render_results (Call fnValue args w).1, (Call fnValue args w).2)
      /\ (forall s,
            (CallRegisteredFunction cm name arguments w).1 = inr s ->
            s = success_text (drop_trailing_error (Call fnValue args w).1))
  | inl e =>
      CallRegisteredFunction cm name arguments w = (inl e, w)
      /\ exists i t v err,
           In fnValue !! i = Some t
           /\ params !! nth i savedParamNames "" = Some v
           /\ ConvertInterfaceToType v t = inl err
  end.
Proof.
  intros Hfn Hparse Hnames.
  pose proof (args_loop_spec params savedParamNames (In fnValue) 0) as Ha.
  unfold CallRegisteredFunction. rewrite Hfn, Hparse, Hnames.
  destruct (args_loop params savedParamNames (In fnValue) 0) as [e|args].
  - split; [done|]. exact Ha.
  - destruct Ha as [Hlen Hz]. destruct (Call fnValue args w) as [results w'].
    simpl. repeat split; auto. intros s. apply render_results_spec.
Qed.

End RegistryFacts.

Section RegistryExamples.

Import ConversationManager Fixtures.

(** S2: both arguments present. *)
Example CallRegisteredFunction_AddNumber :
  CallRegisteredFunction (calculator keeps_asking) "AddNumber"
    (Some args_787_859) 0%nat
  = (inr "函数返回: 1646", 0%nat).
Proof. vm_compute. reflexivity. Qed.

(** The second argument is missing: the zero value 0 is added. *)
Example CallRegisteredFunction_missing_key :
  CallRegisteredFunction (calculator keeps_asking) "AddNumber"
    (Some args_787) 0%nat
  = (inr "函数返回: 787", 0%nat).
Proof. vm_compute. reflexivity. Qed.

Lemma CallRegisteredFunction_spec_witness :
  match args_loop (<["param0" := JNumber (float64.of_int 787)]> ∅)
                  ["param0"; "param1"] [TInt Int; TInt Int] 0 with
  | inr args =>
      length args = 2%nat
      /\ (forall i t,
            [TInt Int; TInt Int] !! i = Some t ->
            (<["param0" := JNumber (float64.of_int 787)]> ∅ : gmap string JValue)
              !! nth i ["param0"; "param1"] "" = None ->
            args !! i = Some (Zero t))
      /\ CallRegisteredFunction (calculator keeps_asking) "AddNumber"
           (Some args_787) 0%nat
         = (render_results (Call AddNumber args 0%nat).1,
            (Call AddNumber args 0%nat).2)
      /\ (forall s,
            (CallRegisteredFunction (calculator keeps_asking) "AddNumber"
               (Some args_787) 0%nat).1 = inr s ->
            s = success_text (drop_trailing_error (Call AddNumber args 0%nat).1))
  | inl e => False
  end.
Proof.
  pose proof (CallRegisteredFunction_spec (calculator keeps_asking) "AddNumber"
                (Some args_787) 0%nat AddNumber
                (<["param0" := JNumber (float64.of_int 787)]> ∅)
                ["param0"; "param1"]) as Hs.
  specialize (Hs ltac:(vm_compute; reflexivity) ltac:(vm_compute; reflexivity)
                 ltac:(vm_compute; reflexivity)).
  change (In AddNumber) with [TInt Int; TInt Int] in Hs.
  destruct (args_loop _ _ _ _) as [e|args] eqn:E.
  - vm_compute in E. discriminate E.
  - exact Hs.
Defined.

(** C7 as stated fails for a function whose first return value is of type
    error: [Check] returns a nil error and then a string, the call reports
    the error value, not the first value that is not an error. *)
Lemma CallRegisteredFunction_reports_leading_error :
  ~ (forall (cm : ConversationManager (World := nat)) name arguments w
            fnValue params savedParamNames args s,
       registeredFuncs cm !! name = Some fnValue ->
       parse_arguments arguments = inr params ->
       funcParamNames cm !! name = Some savedParamNames ->
       args_loop params savedParamNames (In fnValue) 0 = inr args ->
       (CallRegisteredFunction cm name arguments w).1 = inr s ->
       s = success_text (non_error_results (Call fnValue args w).1)).
Proof.
  intros Hc.
  specialize (Hc checker "Check" (Some "{}") 0%nat Check ∅ ["code"]
                 [VInt Int 0] "函数返回: <nil>").
  specialize (Hc ltac:(vm_compute; reflexivity) ltac:(vm_compute; reflexivity)
                 ltac:(vm_compute; reflexivity) ltac:(vm_compute; reflexivity)
                 ltac:(vm_compute; reflexivity)).
  vm_compute in Hc. discriminate Hc.
Qed.

End RegistryExamples.

(** ** The OpenAI adapter *)

Section OpenAIFacts.

Import openai.

Lemma hextable_at_hex i : 0 <= i < 16 -> is_lower_hex (hex.hextable_at i) = true.
Proof.
  intros Hi. replace i with (Z.of_nat (Z.to_nat i)) by lia.
  assert (Hn : (Z.to_nat i < 16)%nat) by lia.
  generalize dependent (Z.to_nat i). intros n Hn.
  do 16 (destruct n as [|n]; [reflexivity|]). lia.
Qed.

Lemma byte_bounds x : 0 <= Z.land x 255 < 256.
Proof.
  change 255 with (Z.ones 8). rewrite Z.land_ones by lia.
  apply Z.mod_pos_bound. lia.
Qed.

Lemma high_nibble_hex x :
  is_lower_hex (hex.hextable_at (Z.shiftr (Z.land x 255) 4)) = true.
Proof.
  apply hextable_at_hex. pose proof (byte_bounds x).
  rewrite Z.shiftr_div_pow2 by lia. change (2 ^ 4) with 16.
  split; [apply Z.div_pos; lia | apply Z.div_lt_upper_bound; lia].
Qed.

Lemma low_nibble_hex x :
  is_lower_hex (hex.hextable_at (Z.land (Z.land x 255) 15)) = true.
Proof.
  apply hextable_at_hex. change 15 with (Z.ones 4).
  rewrite Z.land_ones by lia. apply Z.mod_pos_bound. lia.
Qed.

(** Whatever the digest, the shortened id is [call_] and 32 hex digits. *)
Lemma call_id_shape (s : sha256.digest) :
  let id := ("call_" ++ String.substring 0 32
                          (hex.EncodeToString (sha256.digest_bytes s)))%string in
  String.length id = 37%nat /\ matches_call_hex32 id = true.
Proof.
  destruct s as [a b c d e f g h].
  cbv [sha256.digest_bytes sha256.word_bytes sha256.ha sha256.hb sha256.hc
       sha256.hd sha256.he sha256.hf sha256.hg sha256.hh
       app hex.EncodeToString String.substring String.append].
  split; [reflexivity|].
  cbv [matches_call_hex32 String.prefix String.length Nat.eqb andb
       String.substring list_ascii_of_string forallb Ascii.ascii_dec
       Ascii.ascii_rec Ascii.ascii_rect Bool.bool_dec bool_rec bool_rect
       sumbool_rec sumbool_rect].
  rewrite !high_nibble_hex, !low_nibble_hex. reflexivity.
Qed.

(** C8. An id of at most 40 bytes is emitted unchanged; a longer one is
    replaced by [call_] followed by the first 32 hex characters of its
    SHA-256, a function of the id alone, 37 characters long and matching
    [^call_[0-9a-f]{32}$]. *)
Theorem truncateToolCallID_spec (id : string) :
  ((String.length id <= 40)%nat -> truncateToolCallID id = id)
  /\ ((40 < String.length id)%nat ->
      truncateToolCallID id
      = ("call_" ++ String.substring 0 32
                      (hex.EncodeToString (sha256.Sum256 id)))%string
      /\ String.length (truncateToolCallID id) = 37%nat
      /\ matches_call_hex32 (truncateToolCallID id) = true).
Proof.
  unfold truncateToolCallID. split; intros Hlen.
  - destruct (Z.leb_spec (Z.of_nat (String.length id)) 40); [done | lia].
  - destruct (Z.leb_spec (Z.of_nat (String.length id)) 40); [lia|].
    split; [reflexivity|]. unfold sha256.Sum256. apply call_id_shape.
Qed.

(** C10. With [max_tokens > 0] the converted request carries
    [max_completion_tokens] and no [max_tokens] exactly when the model name
    contains gpt-5, o1 or gpt-4o-realtime, and [max_tokens] alone
    otherwise; for a name containing gpt-5 or o1 it carries no temperature;
    and the request the client sends for an empty model name obeys the
    same rules for the configured default model, which it carries. *)
Theorem model_family_rules (config_Model : string) (req : ChatRequest) :
  0 < req_MaxTokens req ->
  let family model :=
    gostrings.Contains model "gpt-5" || gostrings.Contains model "o1"
    || gostrings.Contains model "gpt-4o-realtime" in
  let no_temperature model :=
    gostrings.Contains model "gpt-5" || gostrings.Contains model "o1" in
  let rules model (r : OpenAIChatRequest) :=
    or_Model r = model
    /\ (family model = true ->
        or_MaxCompletionTokens r = Some (req_MaxTokens req)
        /\ or_MaxTokens r = None)
    /\ (family model = false ->
        or_MaxTokens r = Some (req_MaxTokens req)
        /\ or_MaxCompletionTokens r = None)
    /\ (no_temperature model = true -> or_Temperature r = None) in
  rules (req_Model req) (ToOpenAIRequest req)
  /\ (req_Model req = "" ->
      rules config_Model (Client_Chat_request config_Model req))
  /\ (req_Model req <> "" ->
      Client_Chat_request config_Model req = ToOpenAIRequest req).
Proof.
  intros Hmax family no_temperature rules.
  assert (Hconv : rules (req_Model req) (ToOpenAIRequest req)).
  { unfold rules, family, no_temperature, ToOpenAIRequest.
    destruct (Z.ltb_spec 0 (req_MaxTokens req)); [|lia].
    destruct (gostrings.Contains (req_Model req) "gpt-5");
      destruct (gostrings.Contains (req_Model req) "o1");
      destruct (gostrings.Contains (req_Model req) "gpt-4o-realtime");
      simpl; repeat split; intros; try done. }
  split; [exact Hconv|]. split.
  - intros Hempty. unfold Client_Chat_request.
    assert (Hm : or_Model (ToOpenAIRequest req) = "") by exact Hempty.
    rewrite Hm. simpl String.eqb. cbv iota.
    destruct Hconv as (_ & _ & Hold & _).
    assert (Hf : family (req_Model req) = false) by (by rewrite Hempty).
    destruct (Hold Hf) as [-> ->].
    destruct (Z.ltb_spec 0 (req_MaxTokens req)); [|lia].
    unfold rules, family, no_temperature.
    destruct (gostrings.Contains config_Model "gpt-5");
      destruct (gostrings.Contains config_Model "o1");
      destruct (gostrings.Contains config_Model "gpt-4o-realtime");
      simpl; repeat split; intros; try done.
  - intros Hne. unfold Client_Chat_request.
    change (or_Model (ToOpenAIRequest req)) with (req_Model req).
    destruct (String.eqb_spec (req_Model req) ""); [done | reflexivity].
Qed.

End OpenAIFacts.

Section OpenAIExamples.

Import openai Fixtures.

Example Sum256_abc :
  hex.EncodeToString (sha256.Sum256 "abc")
  = "ba7816bf8f01cfea414140de5dae2223b00361a396177a9cb410ff61f20015ad".
Proof. vm_compute. reflexivity. Qed.

(** S5: an id of 100 bytes. *)
Example truncateToolCallID_long :
  truncateToolCallID (Repeat "x" 100) = "call_09ecb6ebc8bcefc733f6f2ec44f791ab".
Proof. vm_compute. reflexivity. Qed.

Lemma truncateToolCallID_spec_witness :
  truncateToolCallID "call_1" = "call_1"
  /\ truncateToolCallID (Repeat "x" 100)
     = ("call_" ++ String.substring 0 32
                     (hex.EncodeToString (sha256.Sum256 (Repeat "x" 100))))%string
  /\ String.length (truncateToolCallID (Repeat "x" 100)) = 37%nat
  /\ matches_call_hex32 (truncateToolCallID (Repeat "x" 100)) = true.
Proof.
  split.
  - apply (truncateToolCallID_spec "call_1"). vm_compute. lia.
  - apply (truncateToolCallID_spec (Repeat "x" 100)). vm_compute. lia.
Defined.

Example ToOpenAIRequest_gpt5 :
  let r := ToOpenAIRequest gpt5_request in
  or_MaxCompletionTokens r = Some 100 /\ or_MaxTokens r = None
  /\ or_Temperature r = None.
Proof. vm_compute. repeat split. Qed.

Example Client_Chat_request_default_o1 :
  let r := Client_Chat_request "o1-preview" default_request in
  or_Model r = "o1-preview"
  /\ or_MaxCompletionTokens r = Some 100 /\ or_MaxTokens r = None
  /\ or_Temperature r = None.
Proof. vm_compute. repeat split. Qed.

Example Client_Chat_request_default_gpt4o :
  let r := Client_Chat_request "gpt-4o" default_request in
  or_Model r = "gpt-4o"
  /\ or_MaxTokens r = Some 100 /\ or_MaxCompletionTokens r = None
  /\ or_Temperature r = Some 0.7%float.
Proof. vm_compute. repeat split. Qed.

Lemma model_family_rules_witness :
  or_MaxCompletionTokens (ToOpenAIRequest gpt5_request) = Some 100
  /\ or_MaxTokens (ToOpenAIRequest gpt5_request) = None
  /\ or_MaxTokens (Client_Chat_request "gpt-4o" default_request) = Some 100
  /\ or_MaxCompletionTokens (Client_Chat_request "gpt-4o" default_request) = None.
Proof.
  pose proof (model_family_rules "gpt-4o" gpt5_request ltac:(reflexivity))
    as ((_ & Hnew & _) & _).
  pose proof (model_family_rules "gpt-4o" default_request ltac:(reflexivity))
    as (_ & Hdef & _).
  destruct (Hnew eq_refl) as [H1 H2].
  destruct (Hdef eq_refl) as (_ & _ & Hold & _).
  destruct (Hold eq_refl) as [H3 H4].
  repeat split; assumption.
Defined.

End OpenAIExamples.

(** ** The DeepSeek adapter *)

Section DeepSeekFacts.

Import deepseek.
Variable json_Marshal_string : string -> string.

Abbreviation convert_message := (deepseek.convert_message json_Marshal_string).
Abbreviation convert_messages := (deepseek.convert_messages json_Marshal_string).
Abbreviation ToDeepSeekRequest := (deepseek.ToDeepSeekRequest json_Marshal_string).

Lemma scan_contents_textParts content acc :
  textParts (scan_contents content acc)
  = textParts acc ++ map c_Text (List.filter is_text_part content).
Proof.
  revert acc. induction content as [|c rest IH]; intros acc; simpl.
  { by rewrite app_nil_r. }
  unfold is_text_part at 1.
  destruct (String.eqb (c_Type c) "text") eqn:Et; simpl.
  - destruct (String.eqb (c_Text c) ""); simpl; [apply IH|].
    rewrite IH. simpl. by rewrite <- app_assoc.
  - destruct (_ || _).
    + destruct (c_ImageURL c); by rewrite IH.
    + destruct (String.eqb (c_Type c) "tool_result"); [|apply IH].
      destruct (_ && _); by rewrite IH.
Qed.

Lemma scan_contents_toolMessages content acc :
  Forall (fun m => dm_Role m = "tool") (toolMessages acc) ->
  Forall (fun m => dm_Role m = "tool") (toolMessages (scan_contents content acc)).
Proof.
  revert acc. induction content as [|c rest IH]; intros acc Hacc; simpl; [done|].
  destruct (String.eqb (c_Type c) "text").
  { destruct (negb _); apply IH; done. }
  destruct (_ || _).
  { destruct (c_ImageURL c); apply IH; done. }
  destruct (String.eqb (c_Type c) "tool_result"); [|by apply IH].
  destruct (_ && _); apply IH; [|done].
  simpl. apply Forall_app. split; [done|]. by constructor.
Qed.

(** Every message an iteration appends is a tool message or carries the
    role of the message it converts. *)
Lemma convert_message_roles systemPrompt isFirst msg :
  Forall (fun m => dm_Role m = "tool" \/ dm_Role m = Role msg)
         (convert_message systemPrompt isFirst msg).1.
Proof.
  unfold deepseek.convert_message.
  pose proof (scan_contents_toolMessages (Content_ msg) (mkScan [] [] [])
                ltac:(constructor)) as Ht.
  assert (Ht' : Forall (fun m => dm_Role m = "tool" \/ dm_Role m = Role msg)
                  (toolMessages (scan_contents (Content_ msg) (mkScan [] [] [])))).
  { eapply Forall_impl; [exact Ht|]. simpl. tauto. }
  destruct (if 0 <? len (imageContents _) then _ else _) as [content first'].
  destruct (_ && _ && _); simpl; [done|].
  apply Forall_app. split; [done|]. constructor; [|constructor]. by right.
Qed.

(** A message that is not a user message leaves the flag as it was. *)
Lemma convert_message_not_user systemPrompt isFirst msg :
  Role msg <> RoleUser ->
  (convert_message systemPrompt isFirst msg).2 = isFirst.
Proof.
  intros Hr. unfold deepseek.convert_message.
  assert (Hu : String.eqb (Role msg) "user" = false).
  { by apply String.eqb_neq. }
  rewrite Hu, andb_false_r. simpl.
  destruct (0 <? len (imageContents _)); destruct (0 <? len (textParts _));
    destruct (_ && _ && _); reflexivity.
Qed.

(** The first user message, when it has text: the system prompt, a blank
    line and the text open its content. *)
Lemma convert_message_first_user systemPrompt msg :
  systemPrompt <> "" ->
  Role msg = RoleUser ->
  text_parts msg <> [] ->
  exists tools dm,
    (convert_message systemPrompt true msg).1 = tools ++ [dm]
    /\ Forall (fun m => dm_Role m = "tool") tools
    /\ dm_Role dm = "user"
    /\ leading_text (dm_Content dm)
       = Some (systemPrompt ++ blank_line
               ++ gostrings.Join (text_parts msg) " ")%string.
Proof.
  intros Hsys Hrole Htext. unfold deepseek.convert_message.
  pose proof (scan_contents_toolMessages (Content_ msg) (mkScan [] [] [])
                ltac:(constructor)) as Ht.
  pose proof (scan_contents_textParts (Content_ msg) (mkScan [] [] [])) as Hp.
  simpl in Hp. fold (text_parts msg) in Hp.
  rewrite Hp, Hrole.
  assert (Hs : String.eqb systemPrompt "" = false) by (by apply String.eqb_neq).
  rewrite Hs. simpl (true && String.eqb RoleUser "user" && negb false).
  assert (Hlen : (0 <? len (text_parts msg)) = true).
  { destruct (text_parts msg); [done | reflexivity]. }
  rewrite Hlen.
  assert (Hother : existsb (fun c => negb (String.eqb (c_Type c) "tool_result"))
                     (Content_ msg) = true).
  { apply existsb_exists. unfold text_parts in Htext.
    destruct (List.filter _ (Content_ msg)) as [|c cs] eqn:Hf; [done|].
    assert (Hin : List.In c (List.filter is_text_part (Content_ msg))).
    { rewrite Hf. by left. }
    apply filter_In in Hin as [Hin Hc]. exists c. split; [done|].
    apply andb_true_iff in Hc as [Hc _]. apply String.eqb_eq in Hc.
    by rewrite Hc. }
  rewrite Hother, andb_false_r.
  destruct (0 <? len (imageContents _)); simpl;
    eexists _, _; (split; [reflexivity|]); repeat split; auto.
Qed.

Lemma convert_messages_app systemPrompt isFirst before rest :
  Forall (fun m => Role m <> RoleUser) before ->
  exists dbefore,
    convert_messages systemPrompt isFirst (before ++ rest)
    = dbefore ++ convert_messages systemPrompt isFirst rest
    /\ Forall (fun m => dm_Role m <> "user") dbefore.
Proof.
  induction before as [|msg before IH]; intros Hb.
  { exists []. by split. }
  apply Forall_cons in Hb as [Hmsg Hb]. destruct (IH Hb) as (db & Heq & Hdb).
  pose proof (convert_message_not_user systemPrompt isFirst msg Hmsg) as Hflag.
  pose proof (convert_message_roles systemPrompt isFirst msg) as Hroles.
  simpl. destruct (convert_message systemPrompt isFirst msg) as [out first'].
  simpl in Hflag, Hroles. subst first'.
  exists (out ++ db). rewrite Heq, app_assoc. split; [done|].
  apply Forall_app. split; [|done].
  eapply Forall_impl; [exact Hroles|]. simpl.
  intros m [-> | ->]; [discriminate | exact Hmsg].
Qed.

Lemma convert_messages_no_system systemPrompt isFirst messages :
  Forall (fun m => Role m <> RoleSystem) messages ->
  Forall (fun m => dm_Role m <> "system")
         (convert_messages systemPrompt isFirst messages).
Proof.
  revert isFirst. induction messages as [|msg rest IH]; intros isFirst Hm;
    simpl; [constructor|].
  apply Forall_cons in Hm as [Hmsg Hrest].
  pose proof (convert_message_roles systemPrompt isFirst msg) as Hroles.
  destruct (convert_message systemPrompt isFirst msg) as [out first'].
  apply Forall_app. split; [|by apply IH].
  eapply Forall_impl; [exact Hroles|]. simpl.
  intros m [-> | ->]; [discriminate | exact Hmsg].
Qed.


End DeepSeekFacts.

Section DeepSeekExamples.

Import deepseek Fixtures.

(** S6: one user message hi under a system prompt. *)
Example ToDeepSeekRequest_s6 :
  dr_Messages (ToDeepSeekRequest quote_json s6_request)
  = [mkDeepSeekMessage "user"
       (ContentString ("Be brief" ++ blank_line ++ "hi")%string) "" [] ""].
Proof. vm_compute. reflexivity. Qed.

(** An image with no text: the prompt is not merged into the message. *)
Example ToDeepSeekRequest_image_only :
  map (fun m => leading_text (dm_Content m))
      (dr_Messages (ToDeepSeekRequest quote_json image_request))
  = [None].
Proof. vm_compute. reflexivity. Qed.



End DeepSeekExamples.

(** ** Safe units cut the history into user turns *)

Section UnitFacts.

Import ConversationManager.

Lemma role_not_user_of_tool m :
  String.eqb (Role m) RoleTool = true -> Role m <> RoleUser.
Proof. intros E%String.eqb_eq. rewrite E. discriminate. Qed.

Lemma role_not_user_of_assistant m :
  String.eqb (Role m) RoleAssistant = true -> Role m <> RoleUser.
Proof. intros E%String.eqb_eq. rewrite E. discriminate. Qed.

(** The tool-sequence scan never steps over a user message. *)
Lemma findEnd_loop_no_user fuel messages i :
  len messages - i <= Z.of_nat fuel ->
  forall k, i <= k <= findEnd_loop fuel messages i ->
            Role (msg_at messages k) <> RoleUser.
Proof.
  revert i. induction fuel as [|fuel IH]; intros i Hf k Hk; simpl in Hk.
  { lia. }
  destruct (Z.ltb_spec i (len messages)); [|lia].
  destruct (String.eqb (Role (msg_at messages i)) RoleTool) eqn:Et.
  { destruct (Z.eq_dec k i) as [->|]; [by apply role_not_user_of_tool|].
    apply (IH (i + 1)); lia. }
  destruct (String.eqb (Role (msg_at messages i)) RoleAssistant) eqn:Ea; [|lia].
  destruct (hasToolCalls (msg_at messages i)).
  - destruct (Z.eq_dec k i) as [->|]; [by apply role_not_user_of_assistant|].
    apply (IH (i + 1)); lia.
  - assert (k = i) as -> by lia. by apply role_not_user_of_assistant.
Qed.

(** Neither does the search for the reply. *)
Lemma reply_loop_no_user fuel messages i unit :
  0 <= i ->
  len messages - i <= Z.of_nat fuel ->
  forall k, i <= k <= (reply_loop fuel messages i unit).1 ->
            k < len messages ->
            Role (msg_at messages k) <> RoleUser.
Proof.
  revert i. induction fuel as [|fuel IH]; intros i Hi Hf k Hk Hlen;
    simpl in Hk.
  { lia. }
  destruct (Z.ltb_spec i (len messages)); [|lia].
  destruct (String.eqb (Role (msg_at messages i)) RoleAssistant) eqn:Ea.
  - destruct (hasToolCalls (msg_at messages i)); simpl in Hk.
    + destruct (Z.eq_dec k i) as [->|]; [by apply role_not_user_of_assistant|].
      unfold findEndOfToolSequence in Hk.
      apply (findEnd_loop_no_user (length messages) messages (i + 1));
        unfold len in *; lia.
    + assert (k = i) as -> by lia. by apply role_not_user_of_assistant.
  - destruct (String.eqb (Role (msg_at messages i)) RoleTool) eqn:Et;
      simpl in Hk; [|lia].
    destruct (Z.eq_dec k i) as [->|]; [by apply role_not_user_of_tool|].
    apply (IH (i + 1)); lia.
Qed.

Lemma units_loop_past_end fuel messages i units :
  len messages <= i -> units_loop fuel messages i units = units.
Proof.
  intros Hi. destruct fuel; simpl; [done|].
  destruct (Z.ltb_spec i (len messages)); [lia | done].
Qed.

Lemma partitions_step messages lo units :
  Role (msg_at messages lo) <> RoleUser ->
  partitions messages (lo + 1) units -> partitions messages lo units.
Proof.
  intros Hlo. destruct units as [|u rest]; simpl.
  - intros Hp k Hk. destruct (Z.eq_dec k lo) as [->|]; [done|]. apply Hp. lia.
  - intros ((Hb & He) & Hgap & Hrest). repeat split; try tauto; try lia.
    intros k Hk. destruct (Z.eq_dec k lo) as [->|]; [done|]. apply Hgap. lia.
Qed.

Lemma units_loop_partitions fuel messages i :
  0 <= i ->
  len messages - i <= Z.of_nat fuel ->
  partitions messages i (units_loop fuel messages i []).
Proof.
  revert i. induction fuel as [|fuel IH]; intros i Hi Hf; simpl.
  { intros k Hk. lia. }
  destruct (Z.ltb_spec i (len messages)) as [Hlt|Hge].
  2:{ intros k Hk. lia. }
  destruct (String.eqb_spec (Role (msg_at messages i)) RoleUser) as [Hr|Hr].
  2:{ apply partitions_step; [done|]. apply IH; lia. }
  pose proof (reply_loop_bounds (length messages) messages (i + 1)
                (mkSafeUnit i 0 0 "dialog") ltac:(lia)) as [Hb Hs].
  pose proof (reply_loop_end (length messages) messages (i + 1)
                (mkSafeUnit i 0 0 "dialog") ltac:(unfold len; lia)) as He.
  pose proof (reply_loop_no_user (length messages) messages (i + 1)
                (mkSafeUnit i 0 0 "dialog") ltac:(lia)
                ltac:(unfold len; lia)) as Hn.
  destruct (reply_loop _ _ _ _) as [i1 unit1]. simpl in Hb, Hs, He, Hn.
  rewrite units_loop_app. simpl app. cbn [partitions].
  destruct (Z.leb_spec (len messages) i1) as [Hout|Hin]; simpl.
  - rewrite Hs. repeat split; try lia; try done.
    + intros k Hk. apply Hn; lia.
    + rewrite units_loop_past_end by lia.
      replace (len messages - 1 + 1) with (len messages) by lia.
      intros k Hk. lia.
  - destruct He as [He | [He _]]; [lia|].
    rewrite Hs, He. repeat split; try lia; try done.
    + intros k Hk. apply Hn; lia.
    + apply IH; lia.
Qed.

Lemma identifySafeUnits_partitions_aux messages :
  partitions messages 0 (identifySafeUnits messages).
Proof.
  unfold identifySafeUnits. destruct (len messages =? 0) eqn:E.
  - apply len_zero_nil in E as ->. intros k Hk. unfold len in Hk. simpl in Hk. lia.
  - apply units_loop_partitions; unfold len; lia.
Qed.

(** X1. The safe units cut the history into user turns: every unit lies
    inside the history and is not empty, starts on a user message and
    holds no other, begins after the unit before it ends, carries the token
    count of the messages it spans, and no user message is left outside
    the first message of a unit. *)
Theorem identifySafeUnits_partitions messages :
  partitions messages 0 (identifySafeUnits messages).
Proof. apply identifySafeUnits_partitions_aux. Qed.

End UnitFacts.

Section TokenFacts.

Import ConversationManager.

(** A rune takes at least one byte. *)
Lemma rune_count_bounds_upto n text :
  (String.length text <= n)%nat ->
  0 <= rune_count text <= Z.of_nat (String.length text).
Proof.
  revert text. induction n as [|n IH]; intros text Hlen.
  { destruct text; simpl in *; [lia | lia]. }
  destruct text as [|b0 t0]; [simpl; lia|].
  assert (H0 : 0 <= rune_count t0 <= Z.of_nat (String.length t0)).
  { apply IH. simpl in Hlen. lia. }
  cbn [rune_count].
  assert (Hone : 0 <= 1 + rune_count t0
                 <= Z.of_nat (String.length (String b0 t0))).
  { simpl String.length. lia. }
  destruct (byte_of b0 <? 128); [exact Hone|].
  destruct t0 as [|b1 t1]; [exact Hone|].
  assert (H1 : 0 <= rune_count t1 <= Z.of_nat (String.length t1)).
  { apply IH. simpl in Hlen. lia. }
  destruct (in_range 194 223 b0).
  { destruct (is_cont b1); [simpl String.length; lia | exact Hone]. }
  destruct t1 as [|b2 t2]; [exact Hone|].
  assert (H2 : 0 <= rune_count t2 <= Z.of_nat (String.length t2)).
  { apply IH. simpl in Hlen. lia. }
  destruct (in_range 224 239 b0).
  { destruct (_ && is_cont b2); [simpl String.length; lia | exact Hone]. }
  destruct t2 as [|b3 t3]; [exact Hone|].
  assert (H3 : 0 <= rune_count t3 <= Z.of_nat (String.length t3)).
  { apply IH. simpl in Hlen. lia. }
  destruct (_ && is_cont b2 && is_cont b3);
    [simpl String.length; lia | exact Hone].
Qed.

Lemma CalculateTokens_range text :
  0 <= CalculateTokens text <= Z.of_nat (String.length text) / 2.
Proof.
  unfold CalculateTokens.
  destruct (String.eqb text ""); [split; [lia | apply Z.div_pos; lia]|].
  pose proof (rune_count_bounds_upto (String.length text) text (le_n _)) as Hb.
  rewrite Z.quot_div_nonneg by lia.
  split; [apply Z.div_pos; lia | apply Z.div_le_mono; lia].
Qed.

Lemma fold_left_add {A} (f : A -> Z) (l : list A) (a : Z) :
  fold_left (fun acc x => acc + f x) l a
  = a + fold_left (fun acc x => acc + f x) l 0.
Proof.
  revert a. induction l as [|x l IH]; intros a; simpl; [lia|].
  rewrite IH, (IH (0 + f x)). lia.
Qed.

Lemma fold_left_add_nonneg {A} (f : A -> Z) (l : list A) :
  (forall x, 0 <= f x) -> 0 <= fold_left (fun acc x => acc + f x) l 0.
Proof.
  intros Hf. induction l as [|x l IH]; simpl; [lia|].
  rewrite fold_left_add. specialize (Hf x). lia.
Qed.

Lemma calculateMessageTokens_nonneg msg : 0 <= calculateMessageTokens msg.
Proof.
  unfold calculateMessageTokens.
  pose proof (fold_left_add_nonneg (fun c => CalculateTokens (c_Text c))
                (Content_ msg)
                (fun c => proj1 (CalculateTokens_range (c_Text c)))).
  pose proof (len_nonneg (ToolCalls msg)). lia.
Qed.

Lemma CalculateUnitTokens_nonneg messages : 0 <= CalculateUnitTokens messages.
Proof. apply fold_left_add_nonneg, calculateMessageTokens_nonneg. Qed.

Lemma CalculateUnitTokens_append l k :
  CalculateUnitTokens (l ++ k) = CalculateUnitTokens l + CalculateUnitTokens k.
Proof. unfold CalculateUnitTokens. rewrite fold_left_app. apply fold_left_add. Qed.

(** X4. The estimate of a text is never negative and never more than half
    its length in bytes; the estimate of a history is never negative and
    adds up over its parts. *)
Theorem token_estimates_bounds text (l k : list Message) :
  0 <= CalculateTokens text <= Z.of_nat (String.length text) / 2
  /\ 0 <= CalculateUnitTokens l
  /\ CalculateUnitTokens (l ++ k) = CalculateUnitTokens l + CalculateUnitTokens k.
Proof.
  split; [apply CalculateTokens_range|].
  split; [apply CalculateUnitTokens_nonneg | apply CalculateUnitTokens_append].
Qed.

End TokenFacts.

Section PartitionFacts.

Import ConversationManager.

Lemma slice_from_split {A} (s : list A) (lo hi : Z) :
  0 <= lo <= hi ->
  slice_from s lo = slice s lo hi ++ slice_from s hi.
Proof.
  intros H. unfold slice_from, slice.
  rewrite <- (take_drop (Z.to_nat (hi - lo)) (drop (Z.to_nat lo) s)) at 1.
  rewrite drop_drop. do 2 f_equal. lia.
Qed.

Lemma slice_from_end {A} (s : list A) (lo : Z) :
  len s <= lo -> slice_from s lo = [].
Proof. intros H. unfold slice_from. apply drop_ge. unfold len in H. lia. Qed.

(** The units never count a message twice: their token counts together
    are at most the estimate of the messages from [lo] on. *)
Lemma partitions_tokens messages lo units :
  0 <= lo ->
  partitions messages lo units ->
  units_tokens units <= CalculateUnitTokens (slice_from messages lo).
Proof.
  revert lo. induction units as [|u rest IH]; intros lo Hlo; simpl.
  { intros _. apply CalculateUnitTokens_nonneg. }
  intros ((Hb & He) & _ & _ & _ & Htok & Hrest).
  rewrite (slice_from_split messages lo (StartIndex u)) by lia.
  rewrite (slice_from_split messages (StartIndex u) (EndIndex u + 1)) by lia.
  rewrite !CalculateUnitTokens_append, <- Htok.
  pose proof (CalculateUnitTokens_nonneg (slice messages lo (StartIndex u))).
  specialize (IH (EndIndex u + 1) ltac:(lia) Hrest). lia.
Qed.

Lemma user_indices_skip messages (n : nat) (a : Z) :
  0 <= a ->
  a + Z.of_nat n <= len messages ->
  (forall k, a <= k < a + Z.of_nat n -> Role (msg_at messages k) <> RoleUser) ->
  user_indices (slice_from messages a) a
  = user_indices (slice_from messages (a + Z.of_nat n)) (a + Z.of_nat n).
Proof.
  revert a. induction n as [|n IH]; intros a Ha Hlen Hno.
  { by rewrite Z.add_0_r. }
  rewrite slice_from_cons by lia. simpl user_indices.
  assert (Hr : String.eqb (Role (msg_at messages a)) RoleUser = false).
  { apply String.eqb_neq, Hno. lia. }
  replace (a + Z.of_nat (S n)) with (a + 1 + Z.of_nat n) in * by lia.
  rewrite Hr. apply IH; [lia | lia |].
  intros k Hk. apply Hno. lia.
Qed.

Lemma user_indices_skip_to messages a b :
  0 <= a <= b -> b <= len messages ->
  (forall k, a <= k < b -> Role (msg_at messages k) <> RoleUser) ->
  user_indices (slice_from messages a) a = user_indices (slice_from messages b) b.
Proof.
  intros Hab Hb Hno.
  replace b with (a + Z.of_nat (Z.to_nat (b - a))) by lia.
  apply user_indices_skip; [lia | lia |]. intros k Hk. apply Hno. lia.
Qed.

Lemma partitions_starts messages lo units :
  0 <= lo <= len messages ->
  partitions messages lo units ->
  map StartIndex units = user_indices (slice_from messages lo) lo.
Proof.
  revert lo. induction units as [|u rest IH]; intros lo Hlo; simpl.
  - intros Hno.
    rewrite (user_indices_skip_to messages lo (len messages)) by (auto; lia).
    by rewrite slice_from_end.
  - intros ((Hb & He) & Hgap & Hr & Hin & _ & Hrest).
    rewrite (user_indices_skip_to messages lo (StartIndex u)) by (auto; lia).
    rewrite slice_from_cons by lia. simpl user_indices.
    apply String.eqb_eq in Hr. rewrite Hr. f_equal.
    rewrite (user_indices_skip_to messages (StartIndex u + 1) (EndIndex u + 1))
      by (try lia; intros k Hk; apply Hin; lia).
    apply IH; [lia | done].
Qed.

(** X2. One unit per user message: the units start exactly at the user
    messages of the history, in order. *)
Theorem identifySafeUnits_starts messages :
  map StartIndex (identifySafeUnits messages) = user_indices messages 0.
Proof.
  pose proof (partitions_starts messages 0 (identifySafeUnits messages)) as H.
  unfold slice_from in H. simpl in H. apply H.
  - pose proof (len_nonneg messages). lia.
  - apply identifySafeUnits_partitions_aux.
Qed.

(** X3. The token counts of the units together never exceed the estimate of
    the whole history. *)
Theorem identifySafeUnits_tokens messages :
  units_tokens (identifySafeUnits messages) <= CalculateUnitTokens messages.
Proof.
  pose proof (partitions_tokens messages 0 (identifySafeUnits messages)) as H.
  unfold slice_from in H. simpl in H. apply H; [lia|].
  apply identifySafeUnits_partitions_aux.
Qed.

End PartitionFacts.

Section SelectionFacts.

Import ConversationManager.
Context {World : Type}.
Implicit Types (cm : @ConversationManager World).

Lemma select_loop_budget maxTokens rest selected currentTokens :
  exists taken dropped,
    rest = taken ++ dropped
    /\ select_loop maxTokens rest selected currentTokens = rev taken ++ selected
    /\ (taken <> [] -> currentTokens + units_tokens taken <= maxTokens)
    /\ (forall u d, dropped = u :: d ->
          maxTokens < currentTokens + units_tokens taken + TokenCount u).
Proof.
  revert selected currentTokens.
  induction rest as [|unit rest IH]; intros selected cur; simpl.
  { exists [], []. repeat split; try done. }
  destruct (Z.leb_spec (cur + TokenCount unit) maxTokens) as [Hfit|Hno].
  - destruct (IH (unit :: selected) (cur + TokenCount unit))
      as (taken & dropped & -> & Hsel & Hsum & Hnext).
    exists (unit :: taken), dropped. simpl. rewrite Hsel, <- app_assoc. simpl.
    repeat split; auto.
    + intros _. destruct taken as [|t taken]; [simpl; lia|].
      specialize (Hsum ltac:(discriminate)). lia.
    + intros u d Hd. specialize (Hnext u d Hd). lia.
  - exists [], (unit :: rest). simpl. repeat split; auto; [done|].
    intros u d [= <- <-]. lia.
Qed.

(** X5. The selection keeps the newest units: what it returns is a suffix of
    the units, within the limit when it is not empty, and the unit just
    before that suffix would not have fitted. *)
Theorem selectUnitsFromEnd_budget units maxTokens :
  exists older,
    units = older ++ selectUnitsFromEnd units maxTokens
    /\ (selectUnitsFromEnd units maxTokens <> [] ->
        units_tokens (selectUnitsFromEnd units maxTokens) <= maxTokens)
    /\ (forall older' u,
          older = older' ++ [u] ->
          maxTokens
          < units_tokens (selectUnitsFromEnd units maxTokens) + TokenCount u).
Proof.
  unfold selectUnitsFromEnd.
  destruct (len units =? 0) eqn:E.
  { apply len_zero_nil in E as ->. exists []. repeat split; try done.
    intros older' u Hu. by destruct older'. }
  destruct (select_loop_budget maxTokens (rev units) [] 0)
    as (taken & dropped & Hrev & -> & Hsum & Hnext).
  rewrite app_nil_r. exists (rev dropped).
  assert (Hunits : units = rev dropped ++ rev taken).
  { rewrite <- rev_app_distr, <- Hrev. by rewrite rev_involutive. }
  split; [exact Hunits|]. rewrite units_tokens_rev. split.
  - intros Hne. assert (taken <> []) as Ht by (intros ->; done).
    specialize (Hsum Ht). lia.
  - intros older' u Hu. destruct dropped as [|d0 dropped].
    { by destruct older'. }
    simpl in Hu. apply app_inj_tail in Hu as [_ ->].
    specialize (Hnext u dropped eq_refl). lia.
Qed.

(** X6. When the newest unit alone is over the budget, a history above the
    threshold is emptied, whatever its size. *)
Theorem truncateHistory_newest_unit_too_large cm messages older newest :
  EnableTruncation cm = true ->
  threshold (MaxHistoryTokens cm)
    < CalculateUnitTokens messages + CalculateTokens (systemPrompt cm) ->
  identifySafeUnits messages = older ++ [newest] ->
  MaxHistoryTokens cm - CalculateTokens (systemPrompt cm) - 500
    < TokenCount newest ->
  truncateHistory cm messages = [].
Proof.
  intros Hen Habove Hunits Hbig. unfold truncateHistory. rewrite Hen. simpl.
  destruct (len messages =? 0) eqn:E.
  { apply len_zero_nil in E. subst messages. by destruct older. }
  destruct (Z.leb_spec (CalculateUnitTokens messages
                        + CalculateTokens (systemPrompt cm))
                       (threshold (MaxHistoryTokens cm))); [lia|].
  destruct (_ <=? 0); [done|].
  rewrite Hunits.
  assert (Hl : (len (older ++ [newest]) =? 0) = false).
  { rewrite len_app. pose proof (len_nonneg older).
    unfold len at 2. simpl. apply Z.eqb_neq. lia. }
  assert (Hsel : selectUnitsFromEnd (older ++ [newest])
                   (MaxHistoryTokens cm - CalculateTokens (systemPrompt cm) - 500)
                 = []).
  { unfold selectUnitsFromEnd. rewrite Hl, rev_app_distr. simpl.
    destruct (Z.leb_spec (0 + TokenCount newest)
                (MaxHistoryTokens cm - CalculateTokens (systemPrompt cm) - 500));
      [lia | done]. }
  rewrite Hl, Hsel. reflexivity.
Qed.

End SelectionFacts.

(** ** What a conversation turn leaves behind *)

Section ChatFrame.

Import ConversationManager.
Context {World : Type} `{Runtime}.
Implicit Types (cm : @ConversationManager World) (st : @State World).

Local Arguments send : simpl never.

Lemma same_settings_refl cm : same_settings cm cm.
Proof. by repeat split. Qed.

Lemma same_settings_trans (a b c : @ConversationManager World) :
  same_settings a b -> same_settings b c -> same_settings a c.
Proof.
  unfold same_settings. intros Hab Hbc.
  repeat match goal with H : _ /\ _ |- _ => destruct H end.
  repeat split; congruence.
Qed.

Lemma sent_messages_app t1 t2 :
  sent_messages (t1 ++ t2) = sent_messages t1 ++ sent_messages t2.
Proof.
  induction t1 as [|[m|tc] t1 IH]; simpl; [done | by rewrite IH | done].
Qed.

Lemma executed_ids_app t1 t2 :
  executed_ids (t1 ++ t2) = executed_ids t1 ++ executed_ids t2.
Proof.
  induction t1 as [|[m|tc] t1 IH]; simpl; [done | done | by rewrite IH].
Qed.

Lemma tool_result_ids_app l k :
  tool_result_ids (l ++ k) = tool_result_ids l ++ tool_result_ids k.
Proof.
  induction l as [|m l IH]; simpl; [done|].
  destruct (String.eqb (Role m) RoleTool); [by rewrite IH, app_assoc | done].
Qed.

Lemma sent_messages_send (info_chan : bool) m t :
  sent_messages (send info_chan m t)
  = sent_messages t ++ if info_chan then [m] else [].
Proof.
  unfold send. destruct info_chan; [|by rewrite app_nil_r].
  by rewrite sent_messages_app.
Qed.

Lemma executed_ids_send (info_chan : bool) m t :
  executed_ids (send info_chan m t) = executed_ids t.
Proof.
  unfold send. destruct info_chan; [|done].
  rewrite executed_ids_app. simpl. by rewrite app_nil_r.
Qed.

Lemma extends_refl info_chan st : extends info_chan st st [].
Proof.
  unfold extends. rewrite !app_nil_r. split; [done|].
  split; [apply same_settings_refl|]. by destruct info_chan; rewrite ?app_nil_r.
Qed.

Lemma extends_trans info_chan st1 st2 st3 a b :
  extends info_chan st1 st2 a -> extends info_chan st2 st3 b ->
  extends info_chan st1 st3 (a ++ b).
Proof.
  intros (Ha & Hsa & Hta) (Hb & Hsb & Htb). unfold extends.
  rewrite Hb, Ha, Htb, Hta, <- !app_assoc.
  split; [done|]. split; [by eapply same_settings_trans|].
  by destruct info_chan; rewrite ?app_nil_r.
Qed.

Lemma HandleToolCall_appends st toolCall info_chan :
  match HandleToolCall st toolCall info_chan with
  | (None, st') =>
      is_Some (registeredFuncs (st_cm st) !! fc_Name (tc_Function toolCall))
      /\ exists text,
           extends info_chan st st' [tool_result_message toolCall text]
           /\ executed_ids (st_trace st')
              = executed_ids (st_trace st) ++ [tc_ID toolCall]
  | (Some err, st') =>
      registeredFuncs (st_cm st) !! fc_Name (tc_Function toolCall) = None
      /\ err = ("未找到函数: " ++ fc_Name (tc_Function toolCall))%string
      /\ st' = st
  end.
Proof.
  unfold HandleToolCall.
  destruct (registeredFuncs (st_cm st) !! _) as [fn|]; [|done].
  destruct (CallRegisteredFunction _ _ _ _) as [r w']. split; [by eexists|].
  eexists. unfold extends. simpl.
  rewrite sent_messages_send, executed_ids_send, sent_messages_app,
    executed_ids_app. simpl. rewrite !app_nil_r.
  repeat split; try reflexivity.
Qed.

(** One pass over the tool calls of a reply appends tool messages only,
    one per executed call, each carrying the id of its call. *)
Lemma toolcalls_loop_appends toolCalls info_chan st count stop_reason :
  exists added,
    extends info_chan st
      (toolcalls_loop toolCalls info_chan st count stop_reason).2 added
    /\ executed_ids
         (st_trace (toolcalls_loop toolCalls info_chan st count stop_reason).2)
       = executed_ids (st_trace st) ++ tool_result_ids added.
Proof.
  revert st count. induction toolCalls as [|toolCall rest IH];
    intros st count; simpl.
  { exists []. split; [apply extends_refl | by rewrite app_nil_r]. }
  pose proof (HandleToolCall_appends st toolCall info_chan) as Hh.
  assert (Hone : forall text,
            tool_result_ids [tool_result_message toolCall text]
            = [tc_ID toolCall]) by done.
  destruct (MaxFunctionCallingNums (st_cm st) <? count + 1).
  - destruct (HandleToolCall st toolCall info_chan) as [[err|] st']; simpl.
    + destruct Hh as (_ & _ & ->). exists [].
      split; [apply extends_refl | by rewrite app_nil_r].
    + destruct Hh as (_ & text & Hext & Hids). eexists. split; [exact Hext|].
      by rewrite Hids, Hone.
  - destruct (HandleToolCall st toolCall info_chan) as [[err|] st']; simpl.
    + destruct Hh as (_ & _ & ->). exists [].
      split; [apply extends_refl | by rewrite app_nil_r].
    + destruct Hh as (_ & text & Hext & Hids).
      destruct (IH st' (count + 1)) as (added & Hext' & Hids').
      eexists. split; [eapply extends_trans; eassumption|].
      rewrite Hids', Hids, tool_result_ids_app, Hone. by rewrite <- app_assoc.
Qed.

(** The rounds of [Chat] only append to the history. *)
Lemma chat_loop_appends fuel provider allTools info_chan st count stop_reason
    exit st' :
  chat_loop fuel provider allTools info_chan st count stop_reason
  = Some (exit, st') ->
  exists added, extends info_chan st st' added.
Proof.
  revert st count stop_reason. induction fuel as [|fuel IH];
    intros st count stop_reason; simpl; [done|].
  destruct (manager (st_cm st) provider _ (st_world st)) as [[err|resp] w'].
  { intros [= <- <-]. exists []. unfold extends; simpl. rewrite !app_nil_r.
    split; [done|]. split; [apply same_settings_refl|].
    by destruct info_chan; rewrite ?app_nil_r. }
  destruct (Choices resp) as [|choice choices].
  { intros [= <- <-]. exists []. unfold extends; simpl. rewrite !app_nil_r.
    split; [done|]. split; [by repeat split|].
    by destruct info_chan; rewrite ?app_nil_r. }
  set (st2 := mkState _ w' (send info_chan (ch_Message choice) (st_trace st))).
  assert (H12 : extends info_chan st st2 [ch_Message choice]).
  { unfold extends, st2. simpl. rewrite sent_messages_send.
    split; [done|]. split; [by repeat split | done]. }
  destruct (len (ToolCalls (ch_Message choice)) =? 0).
  { intros [= <- <-]. by eexists. }
  destruct (toolcalls_loop_appends (ToolCalls (ch_Message choice)) info_chan
              st2 count stop_reason) as (added & Hext & _).
  destruct (toolcalls_loop _ _ st2 _ _)
    as [[exit0|[[count' shouldExit] reason]] st3]; simpl in Hext.
  - intros [= <- <-]. eexists. eapply extends_trans; eassumption.
  - destruct shouldExit.
    + intros [= <- <-]. eexists. eapply extends_trans; eassumption.
    + intros Hrec. apply IH in Hrec as (added' & Hext').
      eexists. eapply extends_trans; [|exact Hext'].
      eapply extends_trans; eassumption.
Qed.

End ChatFrame.

Section ChatTurn.

Import ConversationManager.
Context {World : Type} `{Runtime}.
Implicit Types (cm : @ConversationManager World) (st : @State World).

Local Arguments send : simpl never.


(** The rounds of [Chat], for a provider that never answers with a message
    of role tool: the tool results appended are those of the calls
    executed, in order. *)
Lemma chat_loop_pairs fuel provider allTools info_chan st count stop_reason
    exit st' :
  (forall p req w resp w' choice rest,
     manager (st_cm st) p req w = (inr resp, w') ->
     Choices resp = choice :: rest ->
     Role (ch_Message choice) <> RoleTool) ->
  chat_loop fuel provider allTools info_chan st count stop_reason
  = Some (exit, st') ->
  exists added,
    extends info_chan st st' added
    /\ executed_ids (st_trace st')
       = executed_ids (st_trace st) ++ tool_result_ids added.
Proof.
  revert st count stop_reason. induction fuel as [|fuel IH];
    intros st count stop_reason Hprov; simpl; [done|].
  destruct (manager (st_cm st) provider _ (st_world st)) as [[err|resp] w']
    eqn:Hm.
  { intros [= <- <-]. exists []. split; [|by rewrite app_nil_r].
    unfold extends; simpl. rewrite !app_nil_r.
    split; [done|]. split; [apply same_settings_refl|].
    by destruct info_chan; rewrite ?app_nil_r. }
  destruct (Choices resp) as [|choice choices] eqn:Hc.
  { intros [= <- <-]. exists []. split; [|by rewrite app_nil_r].
    unfold extends; simpl. rewrite !app_nil_r.
    split; [done|]. split; [by repeat split|].
    by destruct info_chan; rewrite ?app_nil_r. }
  pose proof (Hprov _ _ _ _ _ _ _ Hm Hc) as Hrole.
  apply String.eqb_neq in Hrole.
  set (st2 := mkState _ w' (send info_chan (ch_Message choice) (st_trace st))).
  assert (H12 : extends info_chan st st2 [ch_Message choice]).
  { unfold extends, st2. simpl. rewrite sent_messages_send.
    split; [done|]. split; [by repeat split | done]. }
  assert (Hid2 : executed_ids (st_trace st2) = executed_ids (st_trace st)).
  { unfold st2. simpl. apply executed_ids_send. }
  assert (Htool : tool_result_ids [ch_Message choice] = []).
  { simpl. by rewrite Hrole. }
  destruct (len (ToolCalls (ch_Message choice)) =? 0).
  { intros [= <- <-]. eexists. split; [exact H12|].
    rewrite Htool, app_nil_r. exact Hid2. }
  destruct (toolcalls_loop_appends (ToolCalls (ch_Message choice)) info_chan
              st2 count stop_reason) as (added & Hext & Hids).
  destruct (toolcalls_loop _ _ st2 _ _)
    as [[exit0|[[count' shouldExit] reason]] st3]; cbn [snd] in Hext, Hids.
  - intros [= <- <-]. eexists. split; [eapply extends_trans; eassumption|].
    by rewrite tool_result_ids_app, Htool, Hids, Hid2.
  - destruct shouldExit.
    + intros [= <- <-]. eexists. split; [eapply extends_trans; eassumption|].
      by rewrite tool_result_ids_app, Htool, Hids, Hid2.
    + intros Hrec. apply IH in Hrec as (added' & Hext' & Hids').
      * eexists. split.
        { eapply extends_trans; [|exact Hext'].
          eapply extends_trans; eassumption. }
        rewrite !tool_result_ids_app, Htool, Hids', Hids, Hid2. simpl.
        by rewrite app_assoc.
      * destruct Hext as (_ & Hs3 & _). destruct H12 as (_ & Hs2 & _).
        destruct Hs2 as [Hm2 _]. destruct Hs3 as [Hm3 _].
        intros p req w0 resp0 w0' choice0 rest0. rewrite <- Hm3, <- Hm2.
        apply Hprov.
Qed.

Lemma slice_from_app_len {A} (l k : list A) : slice_from (l ++ k) (len l) = k.
Proof.
  unfold slice_from, len. rewrite Nat2Z.id. by rewrite drop_app_length.
Qed.

(** How [Chat] starts: the manager after the truncation and the user
    turn, and the trace after the first send. *)
Lemma Chat_unfold cm provider userMessage imageBase64s info_chan w :
  let content := user_content userMessage imageBase64s in
  let um := mkMessage RoleUser content "" [] in
  let cm0 := set_history cm (truncateHistory cm (history cm)) in
  let cm1 := if 0 <? len content then AddMessage cm0 RoleUser content else cm0 in
  Chat cm provider userMessage imageBase64s info_chan w
  = match chat_loop (S (Z.to_nat (MaxFunctionCallingNums cm1))) provider
            (tools cm1) info_chan (mkState cm1 w (send info_chan um [])) 0
            "success" with
    | None => None
    | Some (Returned stop_reason err, st) =>
        Some (mkChatResult [] stop_reason (Some err) None,
              mkState (set_history (st_cm st) (history cm0))
                      (st_world st) (st_trace st))
    | Some (LoopDone stop_reason, st) =>
        Some (mkChatResult (slice_from (history (st_cm st)) (len (history cm0)))
                           stop_reason None (TotalUsage (st_cm st)),
              st)
    end.
Proof. reflexivity. Qed.

(** What [Chat] leaves behind, success or failure. *)
Lemma Chat_effects cm provider userMessage imageBase64s info_chan w r st :
  Chat cm provider userMessage imageBase64s info_chan w = Some (r, st) ->
  let content := user_content userMessage imageBase64s in
  let um := mkMessage RoleUser content "" [] in
  let turn := if 0 <? len content then [um] else [] in
  exists added,
    same_settings cm (st_cm st)
    /\ sent_messages (st_trace st) = (if info_chan then um :: added else [])
    /\ (res_err r = None ->
        res_messages r = turn ++ added
        /\ history (st_cm st)
           = truncateHistory cm (history cm) ++ res_messages r)
    /\ (res_err r <> None -> res_messages r = [] /\ res_usage r = None).
Proof.
  intros Hchat content um turn. rewrite Chat_unfold in Hchat. cbv zeta in Hchat.
  fold content in Hchat. fold um in Hchat.
  set (cm0 := set_history cm (truncateHistory cm (history cm))) in *.
  set (cm1 := if 0 <? len content then AddMessage cm0 RoleUser content else cm0)
    in *.
  destruct (chat_loop _ _ _ _ _ _ _) as [[exit st']|] eqn:Hloop; [|done].
  apply chat_loop_appends in Hloop as (added & Hhist & Hset & Hsent).
  simpl in Hhist, Hset, Hsent.
  assert (Hcm1 : same_settings cm cm1 /\ history cm1 = history cm0 ++ turn).
  { unfold cm1, turn. destruct (0 <? len content); simpl.
    - split; [by repeat split | done].
    - split; [by repeat split | by rewrite app_nil_r]. }
  destruct Hcm1 as [Hs1 Hh1].
  rewrite sent_messages_send in Hsent. simpl in Hsent.
  exists added. destruct exit as [reason err|reason];
    injection Hchat as <- <-; simpl.
  - split.
    { eapply same_settings_trans; [exact Hs1|].
      eapply same_settings_trans; [exact Hset|]. by repeat split. }
    split; [by destruct info_chan|]. split; [done | done].
  - split; [by eapply same_settings_trans|].
    split; [by destruct info_chan|]. split; [|done].
    intros _. rewrite Hhist, Hh1, <- app_assoc.
    change (history cm0) with (truncateHistory cm (history cm)).
    by rewrite slice_from_app_len.
Qed.

(** X8. A turn only appends: after a successful [Chat] the history is the
    truncated pre-call history followed by the returned messages, which
    open with the user message when the turn has text or an image; and no
    setting of the manager changes, whether the call succeeds or fails. *)
Theorem Chat_appends_turn cm provider userMessage imageBase64s info_chan w r st :
  Chat cm provider userMessage imageBase64s info_chan w = Some (r, st) ->
  same_settings cm (st_cm st)
  /\ (res_err r = None ->
      history (st_cm st) = truncateHistory cm (history cm) ++ res_messages r
      /\ (user_content userMessage imageBase64s <> [] ->
          exists rest,
            res_messages r
            = mkMessage RoleUser (user_content userMessage imageBase64s) "" []
              :: rest)).
Proof.
  intros Hchat. apply Chat_effects in Hchat as (added & Hset & _ & Hok & _).
  split; [exact Hset|]. intros Hnone. destruct (Hok Hnone) as [Hres Hhist].
  split; [exact Hhist|]. intros Hne. exists added. rewrite Hres.
  destruct (user_content userMessage imageBase64s) as [|c cs]; [done|].
  reflexivity.
Qed.

(** X9. The first message sent on [info_chan] is the user message, even when
    its content is empty; after a successful call with a non-empty turn
    the messages sent are exactly the messages returned, in order.  A
    failed call returns no messages. *)
Theorem Chat_channel_mirrors_history
    cm provider userMessage imageBase64s w r st :
  Chat cm provider userMessage imageBase64s true w = Some (r, st) ->
  exists added,
    sent_messages (st_trace st)
    = mkMessage RoleUser (user_content userMessage imageBase64s) "" [] :: added
    /\ (res_err r = None ->
        user_content userMessage imageBase64s <> [] ->
        res_messages r = sent_messages (st_trace st))
    /\ (res_err r <> None -> res_messages r = []).
Proof.
  intros Hchat. apply Chat_effects in Hchat as (added & _ & Hsent & Hok & Herr).
  exists added. split; [exact Hsent|]. split.
  - intros Hnone Hne. destruct (Hok Hnone) as [-> _]. rewrite Hsent.
    destruct (user_content userMessage imageBase64s) as [|c cs]; [done|].
    reflexivity.
  - intros He. by destruct (Herr He).
Qed.

(** X10. With a provider that never answers with a message of role tool, the
    tool results among the messages a successful [Chat] returns are those
    of the tool calls it executed: the same ids, in the same order. *)
Theorem Chat_tool_results_paired
    cm provider userMessage imageBase64s info_chan w r st :
  (forall p req w0 resp w0' choice rest,
     manager cm p req w0 = (inr resp, w0') ->
     Choices resp = choice :: rest ->
     Role (ch_Message choice) <> RoleTool) ->
  Chat cm provider userMessage imageBase64s info_chan w = Some (r, st) ->
  res_err r = None ->
  tool_result_ids (res_messages r) = executed_ids (st_trace st).
Proof.
  intros Hprov Hchat Hnone. rewrite Chat_unfold in Hchat. cbv zeta in Hchat.
  set (content := user_content userMessage imageBase64s) in *.
  set (um := mkMessage RoleUser content "" []) in *.
  set (cm0 := set_history cm (truncateHistory cm (history cm))) in *.
  set (cm1 := if 0 <? len content then AddMessage cm0 RoleUser content else cm0)
    in *.
  destruct (chat_loop _ _ _ _ _ _ _) as [[exit st']|] eqn:Hloop; [|done].
  apply chat_loop_pairs in Hloop as (added & (Hhist & _ & _) & Hids).
  2:{ intros p req w0 resp w0' choice rest. simpl.
      replace (manager cm1) with (manager cm); [apply Hprov|].
      unfold cm1. by destruct (0 <? len content). }
  simpl in Hhist, Hids. rewrite executed_ids_send in Hids. simpl in Hids.
  destruct exit as [reason err|reason]; injection Hchat as <- <-;
    simpl in *; [done|].
  rewrite Hids, Hhist.
  assert (Hh1 : history cm1
                = history cm0 ++ if 0 <? len content then [um] else []).
  { unfold cm1. destruct (0 <? len content); simpl; [done|].
    by rewrite app_nil_r. }
  rewrite Hh1, <- app_assoc, slice_from_app_len, tool_result_ids_app.
  destruct (0 <? len content); reflexivity.
Qed.


End ChatTurn.

(** ** Registration and the call path *)

Section RegistrationFacts.

Import ConversationManager.
Context {World : Type} `{Runtime}.
Variable Parameters_text : JValue -> string.
Implicit Types (cm : @ConversationManager World) (fnValue : @Func World).

Abbreviation RegisterFunctionSimple :=
  (ConversationManager.RegisterFunctionSimple Parameters_text).
Abbreviation RegisterFunction :=
  (ConversationManager.RegisterFunction Parameters_text).
Abbreviation ModifyFunctionParaDescription :=
  (ConversationManager.ModifyFunctionParaDescription Parameters_text).

Lemma GoType_eqb_eq a b : GoType_eqb a b = true -> a = b.
Proof.
  revert b. induction a as [| k | | | | | | n e IHe | e IHe | k IHk e IHe | |];
    intros b; destruct b; simpl; try discriminate; try reflexivity.
  - destruct k, k0; simpl; try discriminate; reflexivity.
  - intros [Hn He]%andb_true_iff. apply Z.eqb_eq in Hn. apply IHe in He.
    by subst.
  - intros He. apply IHe in He. by subst.
  - intros [Hk He]%andb_true_iff. apply IHk in Hk. apply IHe in He. by subst.
Qed.

Lemma TypeOfValue_Zero t : TypeOfValue (Zero t) = t.
Proof. by destruct t. Qed.

Lemma ConvertInterfaceToType_type value targetType v :
  ConvertInterfaceToType value targetType = inr v ->
  TypeOfValue v = targetType.
Proof.
  unfold ConvertInterfaceToType.
  destruct (TypeOfJSON value) as [t|] eqn:Ht.
  2:{ intros [= <-]. apply TypeOfValue_Zero. }
  destruct (GoType_eqb t targetType) eqn:Heq.
  { apply GoType_eqb_eq in Heq as <-. intros [= <-].
    destruct value; simpl in *; congruence. }
  destruct targetType; destruct value; try discriminate;
    by intros [= <-].
Qed.

Lemma args_loop_types_aux params savedParamNames ins i args :
  args_loop params savedParamNames ins i = inr args ->
  map TypeOfValue args = ins.
Proof.
  revert i args. induction ins as [|paramType ins IH]; intros i args; simpl.
  { by intros [= <-]. }
  destruct (params !! nth i savedParamNames "") as [paramValue|].
  - destruct (ConvertInterfaceToType paramValue paramType) as [e|v] eqn:Hc;
      [done|].
    destruct (args_loop params savedParamNames ins (S i)) as [e|rest] eqn:Hr;
      [done|].
    intros [= <-]. simpl. f_equal; [|by eapply IH].
    by eapply ConvertInterfaceToType_type.
  - destruct (args_loop params savedParamNames ins (S i)) as [e|rest] eqn:Hr;
      [done|].
    intros [= <-]. simpl. f_equal; [apply TypeOfValue_Zero | by eapply IH].
Qed.


(** X13. Registration accepts array, slice, map and complex parameters, but
    apart from [[]interface{}] and [map[string]interface{}] no JSON value
    other than null converts to them: a call that supplies such a
    parameter fails before the function runs. *)
Theorem ConvertInterfaceToType_composite value targetType :
  no_json_form targetType = true ->
  value <> JNull ->
  IsValidParameterType targetType = true
  /\ ConvertInterfaceToType value targetType
     = inl ("不支持的类型转换: " ++ Type_String targetType)%string.
Proof.
  intros Hn Hv. split; [by destruct targetType|].
  unfold ConvertInterfaceToType.
  destruct value; try done; simpl;
    destruct targetType; simpl in Hn; try discriminate; try reflexivity.
  - destruct targetType; simpl in *; try reflexivity; discriminate.
  - destruct targetType1; simpl in *; try reflexivity.
    destruct targetType2; simpl in *; try reflexivity; discriminate.
Qed.

Lemma properties_loop_valid ins paramName description i properties required :
  match properties_loop true ins paramName description i properties required with
  | inr _ => forallb IsValidParameterType ins = true
  | inl _ => forallb IsValidParameterType ins = false
  end.
Proof.
  revert i properties required. induction ins as [|t ins IH];
    intros i properties required; simpl; [done|].
  destruct (IsValidParameterType t); simpl; [apply IH | done].
Qed.

Lemma returns_loop_valid out i :
  match returns_loop out i with
  | None => forallb IsValidParameterTypeReturn out = true
  | Some _ => forallb IsValidParameterTypeReturn out = false
  end.
Proof.
  revert i. induction out as [|t out IH]; intros i; simpl; [done|].
  destruct (IsValidParameterTypeReturn t); simpl; [apply IH | done].
Qed.

(** What a stored registration looks like. *)
Lemma store_spec cm name fnValue tool paramNames :
  let cm' := store cm name fnValue tool paramNames in
  registeredFuncs cm' !! name = Some fnValue
  /\ funcParamNames cm' !! name = Some paramNames
  /\ funcSchemas cm' !! name = Some tool
  /\ tools cm' = tools cm ++ [tool]
  /\ history cm' = history cm
  /\ (forall other, other <> name ->
        registeredFuncs cm' !! other = registeredFuncs cm !! other
        /\ funcParamNames cm' !! other = funcParamNames cm !! other
        /\ funcSchemas cm' !! other = funcSchemas cm !! other).
Proof.
  simpl. rewrite !lookup_insert_eq. repeat split; try done;
    by rewrite lookup_insert_ne.
Qed.

(** X14. [RegisterFunction] succeeds exactly when the two lists have one entry
    per parameter, every parameter type is accepted and every return type
    is accepted.  It then binds the name to the callable and to the given
    parameter names, touching no other name, and appends one tool
    definition of that name to the tools, even when the name was
    registered before; when it fails the manager is unchanged. *)
Theorem RegisterFunction_outcome
    cm name description fnValue out paramNames paraDescriptions :
  let r := RegisterFunction cm name description (IsFunc fnValue out)
                            paramNames paraDescriptions in
  if Nat.eqb (length (In fnValue)) (length paramNames)
     && Nat.eqb (length (In fnValue)) (length paraDescriptions)
     && forallb IsValidParameterType (In fnValue)
     && forallb IsValidParameterTypeReturn out
  then
    r.1 = None
    /\ registeredFuncs r.2 !! name = Some fnValue
    /\ funcParamNames r.2 !! name = Some paramNames
    /\ (exists tool,
          tool_Name tool = name
          /\ funcSchemas r.2 !! name = Some tool
          /\ tools r.2 = tools cm ++ [tool])
    /\ history r.2 = history cm
    /\ (forall other, other <> name ->
          registeredFuncs r.2 !! other = registeredFuncs cm !! other
          /\ funcParamNames r.2 !! other = funcParamNames cm !! other
          /\ funcSchemas r.2 !! other = funcSchemas cm !! other)
  else r.1 <> None /\ r.2 = cm.
Proof.
  unfold ConversationManager.RegisterFunction. cbv zeta.
  destruct (Nat.eqb (length (In fnValue)) (length paramNames));
    cbn [negb orb andb fst snd]; [|done].
  destruct (Nat.eqb (length (In fnValue)) (length paraDescriptions));
    cbn [negb orb andb fst snd]; [|done].
  pose proof (properties_loop_valid (In fnValue) (fun i => nth i paramNames "")
                (fun i _ => nth i paraDescriptions "") 0 ∅ []) as Hp.
  destruct (properties_loop _ _ _ _ _ _ _) as [e|[properties required]];
    rewrite Hp; cbn [negb orb andb fst snd]; [done|].
  pose proof (returns_loop_valid out 0) as Hr.
  destruct (returns_loop out 0) as [e|]; rewrite Hr;
    cbn [negb orb andb fst snd]; [done|].
  match goal with
  | |- context [store cm name fnValue ?tool paramNames] =>
      destruct (store_spec cm name fnValue tool paramNames)
        as (H1 & H2 & H3 & H4 & H5 & H6)
  end.
  split; [reflexivity|]. split; [exact H1|]. split; [exact H2|].
  split; [eexists; split; [|split; [exact H3|exact H4]]; reflexivity|].
  split; [exact H5|exact H6].
Qed.


(** X16. [ModifyFunctionParaDescription] rewrites the schema only: the callable
    and the parameter names the call path looks up stay as they were
    registered, so every call returns what it returned before; the tools
    keep their number and the history is untouched, and a failed
    modification changes nothing. *)
Theorem ModifyFunctionParaDescription_call_path
    cm name paraNames paraDescriptions :
  let r := ModifyFunctionParaDescription cm name paraNames paraDescriptions in
  (forall name' arguments w,
     CallRegisteredFunction r.2 name' arguments w
     = CallRegisteredFunction cm name' arguments w)
  /\ funcParamNames r.2 = funcParamNames cm
  /\ length (tools r.2) = length (tools cm)
  /\ history r.2 = history cm
  /\ (r.1 <> None -> r.2 = cm).
Proof.
  unfold ConversationManager.ModifyFunctionParaDescription. cbv zeta.
  destruct (registeredFuncs cm !! name) as [fnValue|]; [|done].
  destruct (_ || _); [done|].
  destruct (funcSchemas cm !! name) as [tool|]; [|done].
  destruct (properties_loop _ _ _ _ _ _ _) as [e|[properties required]];
    [done|].
  simpl. repeat split; try done.
  match goal with |- context [replace_tool ?l ?n ?t] =>
    generalize t; intros t' end.
  induction (tools cm) as [|t0 ts IH]; simpl; [done|].
  destruct (String.eqb (tool_Name t0) name); simpl; [done | by rewrite IH].
Qed.

Lemma results_loop_trailing_error front msg :
  results_loop (front ++ [VError (Some msg)])
  = inl ("函数执行错误: ERROR: " ++ msg)%string.
Proof.
  induction front as [|v front IH]; [reflexivity|].
  simpl app. cbn [results_loop].
  assert (Hl : (len (front ++ [VError (Some msg)]) =? 0) = false).
  { rewrite len_app. pose proof (len_nonneg front). unfold len at 2. simpl.
    apply Z.eqb_neq. lia. }
  rewrite Hl. cbn [andb]. by rewrite IH.
Qed.

(** X17. A registered function that returns a non-nil error in the last
    position does not fail the turn: [HandleToolCall] returns no error and
    appends the tool result 函数执行错误: 函数执行错误: ERROR: followed by
    the error's message (the prefix is added once by the call and once by
    the handler). *)
Theorem HandleToolCall_function_error
    (st : @State World) toolCall info_chan fnValue params savedParamNames
    args front msg :
  registeredFuncs (st_cm st) !! fc_Name (tc_Function toolCall) = Some fnValue ->
  parse_arguments (fc_Arguments (tc_Function toolCall)) = inr params ->
  funcParamNames (st_cm st) !! fc_Name (tc_Function toolCall)
  = Some savedParamNames ->
  (length (In fnValue) <= length savedParamNames)%nat ->
  args_loop params savedParamNames (In fnValue) 0 = inr args ->
  (Call fnValue args (st_world st)).1 = front ++ [VError (Some msg)] ->
  (HandleToolCall st toolCall info_chan).1 = None
  /\ history (st_cm (HandleToolCall st toolCall info_chan).2)
     = history (st_cm st)
       ++ [tool_result_message toolCall
             ("函数执行错误: 函数执行错误: ERROR: " ++ msg)%string].
Proof.
  intros Hfn Hparse Hnames _ Hargs Hres.
  unfold HandleToolCall, CallRegisteredFunction.
  rewrite Hfn, Hparse, Hnames, Hargs.
  destruct (Call fnValue args (st_world st)) as [results w']. simpl in Hres.
  subst results. unfold render_results.
  assert (Hl : (len (front ++ [VError (Some msg)]) =? 0) = false).
  { rewrite len_app. pose proof (len_nonneg front). unfold len at 2. simpl.
    apply Z.eqb_neq. lia. }
  rewrite Hl, results_loop_trailing_error. simpl. done.
Qed.

End RegistrationFacts.

(** ** The requests sent to OpenAI *)

Section OpenAIRequestFacts.

Import openai.

Lemma truncateToolCallID_length id :
  (String.length (truncateToolCallID id) <= 40)%nat.
Proof.
  unfold truncateToolCallID.
  destruct (Z.leb_spec (Z.of_nat (String.length id)) 40); [lia|].
  unfold sha256.Sum256.
  match goal with
  | |- context [sha256.digest_bytes ?s] =>
      pose proof (call_id_shape s) as [Hl _]
  end.
  cbv zeta in Hl. rewrite Hl. lia.
Qed.

(** X18. Shortening is stable: the id it returns is at most 40 bytes long and
    is returned unchanged when shortened again, so a history whose ids
    were already shortened keeps them. *)
Theorem truncateToolCallID_stable id :
  (String.length (truncateToolCallID id) <= 40)%nat
  /\ truncateToolCallID (truncateToolCallID id) = truncateToolCallID id.
Proof.
  pose proof (truncateToolCallID_length id) as Hl. split; [exact Hl|].
  unfold truncateToolCallID at 1.
  destruct (Z.leb_spec (Z.of_nat (String.length (truncateToolCallID id))) 40);
    [reflexivity | lia].
Qed.

Lemma convert_contents_types content :
  Forall (fun t => t = "text" \/ t = "image_url")
         (map oc_Type (convert_contents content)).
Proof.
  induction content as [|c rest IH]; simpl; [constructor|].
  destruct (String.eqb (c_Type c) "text"); simpl.
  { constructor; [by left | exact IH]. }
  destruct (_ || _); [|exact IH].
  destruct (c_ImageURL c); simpl; [|exact IH].
  constructor; [by right | exact IH].
Qed.

Lemma existsb_negb_forallb {A} (f : A -> bool) (l : list A) :
  existsb (fun c => negb (f c)) l = negb (forallb f l).
Proof.
  induction l as [|a l IH]; simpl; [done|]. rewrite IH. by destruct (f a).
Qed.

Lemma filter_forallb {A} (f : A -> bool) (l : list A) :
  forallb f l = true -> List.filter f l = l.
Proof.
  induction l as [|a l IH]; simpl; [done|].
  intros [Ha Hl]%andb_true_iff. rewrite Ha. f_equal. by apply IH.
Qed.

Lemma convert_message_cases msg :
  if negb (len (Content_ msg) =? 0) && forallb is_tool_result (Content_ msg)
     && (len (ToolCalls msg) =? 0)
  then
    convert_message msg
    = map (fun c =>
             mkOpenAIMessage "tool" (ContentString (c_Text c)) "" []
                             (truncateToolCallID (c_ToolID c)))
          (Content_ msg)
  else
    exists content,
      convert_message msg
      = [mkOpenAIMessage (Role msg) content (Name msg)
                         (map convert_tool_call (ToolCalls msg)) ""]
      /\ Forall (fun t => t = "text" \/ t = "image_url") (part_types content).
Proof.
  unfold convert_message. rewrite existsb_negb_forallb.
  destruct (Content_ msg) as [|c cs] eqn:Hc.
  { simpl. eexists. split; [reflexivity|]. constructor. }
  change (len (c :: cs) =? 0) with (Z.of_nat (S (length cs)) =? 0).
  replace (Z.of_nat (S (length cs)) =? 0) with false
    by (symmetry; apply Z.eqb_neq; lia).
  cbn [negb andb].
  destruct (forallb is_tool_result (c :: cs)) eqn:Hall.
  - assert (Hex : existsb is_tool_result (c :: cs) = true).
    { simpl in *. apply andb_true_iff in Hall as [-> _]. done. }
    assert (Hst : match c :: cs with
                  | [c0] => String.eqb (c_Type c0) "text"
                  | _ => false
                  end = false).
    { destruct cs; [|done]. simpl in Hall. rewrite andb_true_r in Hall.
      unfold is_tool_result in Hall. apply String.eqb_eq in Hall.
      by rewrite Hall. }
    rewrite Hst, Hex. cbn [negb andb].
    destruct (len (ToolCalls msg) =? 0).
    + by rewrite filter_forallb.
    + eexists. split; [reflexivity|].
      destruct (convert_contents (c :: cs)) eqn:Hcc; [constructor|].
      rewrite <- Hcc. apply convert_contents_types.
  - rewrite andb_false_r. cbn [negb andb].
    eexists. split; [reflexivity|].
    destruct cs as [|c' cs'].
    + destruct (String.eqb (c_Type c) "text"); [constructor|].
      destruct (convert_contents [c]) eqn:Hcc; [constructor|].
      rewrite <- Hcc. apply convert_contents_types.
    + destruct (convert_contents (c :: c' :: cs')) eqn:Hcc; [constructor|].
      rewrite <- Hcc. apply convert_contents_types.
Qed.

(** X19. A message that consists of tool results only, with no tool calls,
    becomes one message of role tool per result, whatever its own role.
    Every other message becomes exactly one message of its own role, whose
    parts are text and image parts only: tool results that share a message
    with other content, and [tool_call] parts, are left out. *)
Theorem convert_message_shape msg :
  if negb (len (Content_ msg) =? 0) && forallb is_tool_result (Content_ msg)
     && (len (ToolCalls msg) =? 0)
  then
    convert_message msg
    = map (fun c =>
             mkOpenAIMessage "tool" (ContentString (c_Text c)) "" []
                             (truncateToolCallID (c_ToolID c)))
          (Content_ msg)
  else
    exists content,
      convert_message msg
      = [mkOpenAIMessage (Role msg) content (Name msg)
                         (map convert_tool_call (ToolCalls msg)) ""]
      /\ Forall (fun t => t = "text" \/ t = "image_url") (part_types content).
Proof. apply convert_message_cases. Qed.

Lemma Forall_map_all {A B} (P : B -> Prop) (f : A -> B) (l : list A) :
  (forall a, P (f a)) -> Forall P (map f l).
Proof. intros Hf. induction l; simpl; constructor; auto. Qed.

Lemma convert_message_ids msg :
  Forall (fun m => Forall (fun id => (String.length id <= 40)%nat)
                          (message_ids m))
         (convert_message msg).
Proof.
  pose proof (convert_message_cases msg) as Hc.
  destruct (_ && _ && _).
  - rewrite Hc. apply Forall_map_all. intros c.
    unfold message_ids. simpl. constructor; [|constructor].
    apply truncateToolCallID_length.
  - destruct Hc as (content & -> & _). constructor; [|constructor].
    unfold message_ids. simpl. constructor; [simpl; lia|].
    rewrite map_map. apply Forall_map_all.
    intros tc. simpl. apply truncateToolCallID_length.
Qed.

(** X20. No id in a converted request is longer than 40 bytes: neither the id
    of a tool call nor the [tool_call_id] of a tool message. *)
Theorem ToOpenAIRequest_ids_within_limit req :
  Forall (fun m => Forall (fun id => (String.length id <= 40)%nat)
                          (message_ids m))
         (or_Messages (ToOpenAIRequest req)).
Proof.
  unfold ToOpenAIRequest. simpl. apply Forall_app. split.
  - destruct (negb _); [|constructor]. constructor; [|constructor].
    unfold message_ids. simpl. constructor; [simpl; lia | constructor].
  - induction (req_Messages req) as [|msg rest IH]; simpl; [constructor|].
    apply Forall_app. split; [apply convert_message_ids | exact IH].
Qed.

(** X21. What a request never carries, on the three paths that build one: both
    token limits at once; a token limit when [MaxTokens] is not positive;
    a temperature equal to zero. *)
Theorem OpenAI_request_omissions config_Model req :
  let omits (r : OpenAIChatRequest) :=
    (or_MaxTokens r = None \/ or_MaxCompletionTokens r = None)
    /\ (req_MaxTokens req <= 0 ->
        or_MaxTokens r = None /\ or_MaxCompletionTokens r = None)
    /\ (PrimFloat.eqb (req_Temperature req) 0%float = true ->
        or_Temperature r = None) in
  omits (ToOpenAIRequest req)
  /\ omits (Client_Chat_request config_Model req)
  /\ omits (Client_ChatStream_request config_Model req).
Proof.
  intros omits. subst omits. cbv beta.
  unfold Client_Chat_request, Client_ChatStream_request.
  change (or_Model (ToOpenAIRequest req)) with (req_Model req).
  assert (Hlim : forall P : option Z -> option Z -> Prop,
            P None None ->
            (0 < req_MaxTokens req -> P (Some (req_MaxTokens req)) None) ->
            (0 < req_MaxTokens req -> P None (Some (req_MaxTokens req))) ->
            P (or_MaxTokens (ToOpenAIRequest req))
              (or_MaxCompletionTokens (ToOpenAIRequest req))).
  { intros P H0 H1 H2. unfold ToOpenAIRequest. simpl.
    destruct (Z.ltb_spec 0 (req_MaxTokens req)); [|exact H0].
    destruct (_ || _ || _); simpl; auto. }
  assert (Htemp : PrimFloat.eqb (req_Temperature req) 0%float = true ->
                  or_Temperature (ToOpenAIRequest req) = None).
  { intros Ht. unfold ToOpenAIRequest. simpl. by rewrite Ht, !andb_false_r. }
  assert (Htemp' : forall b : bool,
            PrimFloat.eqb (req_Temperature req) 0%float = true ->
            (if b then None else or_Temperature (ToOpenAIRequest req)) = None).
  { intros b Ht. destruct b; auto. }
  split; [|split].
  - split; [|split; [|exact Htemp]]; apply Hlim; intros; auto; lia.
  - destruct (String.eqb (req_Model req) "").
    + cbn [or_MaxTokens or_MaxCompletionTokens or_Temperature].
      split; [|split; [|apply Htemp']].
      * apply Hlim; cbn [fst snd]; auto; intros Hpos;
          (destruct (Z.ltb_spec 0 (req_MaxTokens req)); [|lia]);
          destruct (_ || _ || _); cbn [fst snd]; auto.
      * intros Hle. apply Hlim; cbn [fst snd]; auto; intros; lia.
    + split; [|split; [|exact Htemp]]; apply Hlim; intros; auto; lia.
  - destruct (String.eqb (req_Model req) "");
      cbn [or_MaxTokens or_MaxCompletionTokens or_Temperature];
      (split; [|split; [|auto]]); apply Hlim; intros; auto; lia.
Qed.

(** X22. The streaming path does not apply the rule of the token limits again:
    a request without a model takes the client's model, yet goes out with
    [max_tokens] and without [max_completion_tokens] whatever that model
    is, with the stream flag set. *)
Theorem ChatStream_keeps_max_tokens config_Model req :
  req_Model req = "" ->
  0 < req_MaxTokens req ->
  let r := Client_ChatStream_request config_Model req in
  or_Model r = config_Model
  /\ or_Stream r = true
  /\ or_MaxTokens r = Some (req_MaxTokens req)
  /\ or_MaxCompletionTokens r = None.
Proof.
  intros Hm Hpos. unfold Client_ChatStream_request.
  assert (Hmodel : or_Model (ToOpenAIRequest req) = "") by exact Hm.
  rewrite Hmodel. simpl String.eqb. cbv iota zeta.
  unfold ToOpenAIRequest. simpl. rewrite Hm.
  destruct (Z.ltb_spec 0 (req_MaxTokens req)); [|lia].
  by repeat split.
Qed.

End OpenAIRequestFacts.

(** ** The requests sent to DeepSeek *)

Section DeepSeekRequestFacts.

Import deepseek.
Variable json_Marshal_string : string -> string.

Abbreviation ds_convert_message := (deepseek.convert_message json_Marshal_string).
Abbreviation ds_convert_messages := (deepseek.convert_messages json_Marshal_string).
Abbreviation ds_ToDeepSeekRequest := (deepseek.ToDeepSeekRequest json_Marshal_string).

Lemma convert_message_no_merge systemPrompt isFirst msg :
  Role msg <> RoleUser ->
  ds_convert_message systemPrompt isFirst msg = ds_convert_message "" isFirst msg.
Proof.
  intros Hr. unfold deepseek.convert_message.
  assert (Hu : String.eqb (Role msg) "user" = false).
  { by apply String.eqb_neq. }
  rewrite Hu, !andb_false_r. reflexivity.
Qed.

Lemma convert_messages_no_user systemPrompt isFirst messages :
  Forall (fun m => Role m <> RoleUser) messages ->
  ds_convert_messages systemPrompt isFirst messages
  = ds_convert_messages "" isFirst messages.
Proof.
  intros Hall. revert isFirst.
  induction Hall as [|msg rest Hr _ IH]; intros isFirst; simpl; [done|].
  rewrite (convert_message_no_merge systemPrompt isFirst msg Hr).
  destruct (ds_convert_message "" isFirst msg) as [out first'].
  by rewrite IH.
Qed.

(** X23. The system prompt travels inside the first user message only: a
    request without a message of role user is converted exactly like the
    same request without a system prompt, so the prompt is not sent. *)
Theorem ToDeepSeekRequest_prompt_needs_user req :
  Forall (fun m => Role m <> RoleUser) (req_Messages req) ->
  ds_ToDeepSeekRequest req
  = ds_ToDeepSeekRequest
      (mkChatRequest (req_Model req) (req_Messages req) (req_Tools req)
         (req_MaxTokens req) (req_Temperature req) (req_Stream req) "").
Proof.
  intros Hall. unfold deepseek.ToDeepSeekRequest. simpl.
  by rewrite (convert_messages_no_user _ _ _ Hall).
Qed.

End DeepSeekRequestFacts.

(** ** Tool results on their way to the providers *)

Section ToolResultFacts.

Import ConversationManager.
Context {World : Type} `{Runtime}.
Variable json_Marshal_string : string -> string.

Lemma render_results_nonempty results text :
  render_results results = inr text -> text <> "".
Proof.
  unfold render_results. destruct (len results =? 0).
  { by intros [= <-]. }
  destruct (results_loop results) as [e|parts]; [done|].
  destruct parts; by intros [= <-].
Qed.

Lemma HandleToolCall_text (st : @State World) toolCall info_chan st' :
  HandleToolCall st toolCall info_chan = (None, st') ->
  exists text,
    text <> ""
    /\ history (st_cm st')
       = history (st_cm st) ++ [tool_result_message toolCall text].
Proof.
  unfold HandleToolCall.
  destruct (registeredFuncs (st_cm st) !! _) as [fn|]; [|done].
  destruct (CallRegisteredFunction _ _ _ _) as [[e|text] w'] eqn:Hcall;
    intros [= <-]; simpl.
  - eexists. split; [|reflexivity]. done.
  - exists text. split; [|reflexivity].
    unfold CallRegisteredFunction in Hcall.
    destruct (registeredFuncs (st_cm st) !! _); [|done].
    destruct (parse_arguments _); [done|].
    destruct (funcParamNames (st_cm st) !! _); [|done].
    destruct (args_loop _ _ _ _); [done|].
    destruct (Call _ _ _) as [results w2]. injection Hcall as Hr _.
    by eapply render_results_nonempty.
Qed.

(** X24. What a handled tool call appends reaches both providers as a tool
    message with a text that is never empty.  OpenAI gets it under the
    shortened id.  DeepSeek gets it under the id as it is, and only when
    the id is not empty: for a call without an id the result text is lost
    and an empty tool message is sent in its place. *)
Theorem HandleToolCall_result_converts
    (st : @State World) toolCall info_chan st' systemPrompt isFirst :
  HandleToolCall st toolCall info_chan = (None, st') ->
  exists text,
    text <> ""
    /\ history (st_cm st')
       = history (st_cm st) ++ [tool_result_message toolCall text]
    /\ openai.convert_message (tool_result_message toolCall text)
       = [openai.mkOpenAIMessage "tool" (openai.ContentString text) "" []
            (openai.truncateToolCallID (tc_ID toolCall))]
    /\ deepseek.convert_message json_Marshal_string systemPrompt isFirst
         (tool_result_message toolCall text)
       = ([deepseek.mkDeepSeekMessage "tool"
             (deepseek.ContentString
                (if String.eqb (tc_ID toolCall) "" then "" else text))
             "" [] (tc_ID toolCall)],
          isFirst).
Proof.
  intros Hh. destruct (HandleToolCall_text _ _ _ _ Hh) as (text & Hne & Hhist).
  exists text. split; [exact Hne|]. split; [exact Hhist|]. split.
  - reflexivity.
  - unfold deepseek.convert_message, tool_result_message. simpl.
    assert (Ht : String.eqb text "" = false) by (by apply String.eqb_neq).
    rewrite Ht. simpl.
    destruct (String.eqb_spec (tc_ID toolCall) "") as [->|Hid]; simpl.
    + by rewrite andb_false_r.
    + by rewrite andb_false_r.
Qed.

End ToolResultFacts.

(** ** The dispatcher *)

Section DispatchFacts.

Context {World : Type}.
Implicit Types (p : @AgentManager.LLMProvider World).

Lemma with_defaults_model provider req :
  req_Model (AgentManager.with_defaults provider req)
  = if String.eqb (req_Model req) "" then AgentManager.getDefaultModel provider
    else req_Model req.
Proof. reflexivity. Qed.

(** X25. [Chat] of the dispatcher: an unknown provider gives the error and
    leaves request and world alone.  A known provider is only ever handed
    a request with a token limit other than zero (3000 in place of zero)
    and with the provider's default model in place of an empty one; the
    caller's request is changed to that one, and a validation error keeps
    the provider from being called. *)
Theorem AgentManager_Chat_outcome
    (providers : gmap string (@AgentManager.LLMProvider World))
    provider req w :
  match providers !! provider with
  | None =>
      AgentManager.Chat providers provider req w
      = (inl ("provider " ++ provider ++ " not found")%string, req, w)
  | Some p =>
      let req' := AgentManager.with_defaults provider req in
      req_MaxTokens req' <> 0
      /\ (req_MaxTokens req = 0 -> req_MaxTokens req' = 3000)
      /\ (req_Model req = "" ->
          req_Model req' = AgentManager.getDefaultModel provider)
      /\ (req_MaxTokens req <> 0 /\ req_Model req <> "" -> req' = req)
      /\ match AgentManager.lp_ValidateRequest p req' with
         | Some err =>
             AgentManager.Chat providers provider req w
             = (inl ("validate request failed: " ++ err)%string, req', w)
         | None =>
             AgentManager.Chat providers provider req w
             = ((AgentManager.lp_Chat p req' w).1, req',
                (AgentManager.lp_Chat p req' w).2)
         end
  end.
Proof.
  unfold AgentManager.Chat, AgentManager.GetProvider.
  destruct (providers !! provider) as [p|]; [|reflexivity].
  cbv zeta. split; [|split; [|split; [|split]]].
  - unfold AgentManager.with_defaults. simpl.
    destruct (Z.eqb_spec (req_MaxTokens req) 0); [done | done].
  - intros Hz. unfold AgentManager.with_defaults. simpl. by rewrite Hz.
  - intros Hm. rewrite with_defaults_model. by rewrite Hm.
  - intros [Hm Hn]. unfold AgentManager.with_defaults.
    destruct (Z.eqb_spec (req_MaxTokens req) 0); [done|].
    destruct (String.eqb_spec (req_Model req) ""); [done|].
    by destruct req.
  - destruct (AgentManager.lp_ValidateRequest p _); [reflexivity|].
    by destruct (AgentManager.lp_Chat p _ w).
Qed.

(** X26. Through the dispatcher the model of the provider's configuration is
    never used for OpenAI: the client is always handed a model, so the
    request that goes out is the conversion of the request with the
    defaults filled in, with the model gpt-4o when the caller gave none,
    and with exactly one token limit when [MaxTokens] is not negative. *)
Theorem dispatched_openai_request
    (post : openai.OpenAIChatRequest -> World -> (string + ChatResponse) * World)
    config_Model (others : gmap string (@AgentManager.LLMProvider World))
    req w :
  let providers :=
    <[AgentManager.ProviderOpenAI :=
        AgentManager.OpenAIProviderWrapper post config_Model]> others in
  let req' := AgentManager.with_defaults AgentManager.ProviderOpenAI req in
  let sent := openai.ToOpenAIRequest req' in
  AgentManager.as_manager providers AgentManager.ProviderOpenAI req w
  = post sent w
  /\ openai.or_Model sent
     = (if String.eqb (req_Model req) "" then "gpt-4o" else req_Model req)
  /\ (0 <= req_MaxTokens req ->
      let limit := if req_MaxTokens req =? 0 then 3000 else req_MaxTokens req in
      (openai.or_MaxTokens sent = Some limit
       /\ openai.or_MaxCompletionTokens sent = None)
      \/ (openai.or_MaxTokens sent = None
          /\ openai.or_MaxCompletionTokens sent = Some limit)).
Proof.
  cbv zeta. split; [|split].
  - unfold AgentManager.as_manager, AgentManager.Chat, AgentManager.GetProvider.
    rewrite lookup_insert_eq. simpl.
    unfold openai.Client_Chat_request.
    assert (Hm : String.eqb
                   (openai.or_Model
                      (openai.ToOpenAIRequest
                         (AgentManager.with_defaults
                            AgentManager.ProviderOpenAI req))) "" = false).
    { change (openai.or_Model (openai.ToOpenAIRequest ?r)) with (req_Model r).
      rewrite with_defaults_model.
      destruct (String.eqb_spec (req_Model req) ""); [reflexivity|].
      by apply String.eqb_neq. }
    rewrite Hm. by destruct (post _ w).
  - change (openai.or_Model (openai.ToOpenAIRequest ?r)) with (req_Model r).
    apply with_defaults_model.
  - intros Hnn. unfold openai.ToOpenAIRequest. simpl.
    set (limit := if req_MaxTokens req =? 0 then 3000 else req_MaxTokens req).
    assert (Hpos : (0 <? limit) = true).
    { unfold limit. destruct (Z.eqb_spec (req_MaxTokens req) 0);
        apply Z.ltb_lt; lia. }
    rewrite Hpos. destruct (_ || _ || _); simpl; [by right | by left].
Qed.

(** X27. The same for DeepSeek: the request that goes out carries the caller's
    model, or deepseek-chat when the caller gave none, never the model of
    the provider's configuration. *)
Theorem dispatched_deepseek_request
    json_Marshal_string
    (post : deepseek.DeepSeekChatRequest -> World
            -> (string + ChatResponse) * World)
    config_Model (others : gmap string (@AgentManager.LLMProvider World))
    req w :
  let providers :=
    <[AgentManager.ProviderDeepSeek :=
        AgentManager.DeepSeekProviderWrapper json_Marshal_string post
          config_Model]> others in
  let req' := AgentManager.with_defaults AgentManager.ProviderDeepSeek req in
  let sent := deepseek.ToDeepSeekRequest json_Marshal_string req' in
  AgentManager.as_manager providers AgentManager.ProviderDeepSeek req w
  = post sent w
  /\ deepseek.dr_Model sent
     = (if String.eqb (req_Model req) "" then "deepseek-chat"
        else req_Model req)
  /\ deepseek.dr_MaxTokens sent
     = (if req_MaxTokens req =? 0 then 3000 else req_MaxTokens req).
Proof.
  cbv zeta. split; [|split].
  - unfold AgentManager.as_manager, AgentManager.Chat, AgentManager.GetProvider.
    rewrite lookup_insert_eq. simpl.
    unfold deepseek.Client_Chat_request.
    assert (Hm : String.eqb
                   (deepseek.dr_Model
                      (deepseek.ToDeepSeekRequest json_Marshal_string
                         (AgentManager.with_defaults
                            AgentManager.ProviderDeepSeek req))) "" = false).
    { change (deepseek.dr_Model (deepseek.ToDeepSeekRequest _ ?r))
        with (req_Model r).
      rewrite with_defaults_model.
      destruct (String.eqb_spec (req_Model req) ""); [reflexivity|].
      by apply String.eqb_neq. }
    rewrite Hm. by destruct (post _ w).
  - change (deepseek.dr_Model (deepseek.ToDeepSeekRequest _ ?r))
      with (req_Model r).
    apply with_defaults_model.
  - reflexivity.
Qed.

End DispatchFacts.

(** ** Worked instances *)

Section CoverageExamples.

Import ConversationManager Fixtures.

Lemma truncateHistory_newest_unit_too_large_witness :
  truncateHistory (SetMaxHistoryTokens cm0 520) heavy_last = [].
Proof.
  apply (truncateHistory_newest_unit_too_large (SetMaxHistoryTokens cm0 520)
           heavy_last [mkSafeUnit 0 1 3 "dialog"]
           (mkSafeUnit 2 3 503 "dialog")).
  - reflexivity.
  - by vm_compute.
  - vm_compute. reflexivity.
  - by vm_compute.
Defined.

Lemma Chat_appends_turn_witness :
  exists r st,
    Chat (calculator asks_once) "openai" "add them" [] true 0%nat
    = Some (r, st)
    /\ same_settings (calculator asks_once) (st_cm st)
    /\ (res_err r = None ->
        history (st_cm st)
        = truncateHistory (calculator asks_once)
            (history (calculator asks_once)) ++ res_messages r
        /\ (user_content "add them" [] <> [] ->
            exists rest,
              res_messages r
              = mkMessage RoleUser (user_content "add them" []) "" [] :: rest)).
Proof.
  eexists _, _. split.
  - vm_compute. reflexivity.
  - apply (Chat_appends_turn (calculator asks_once) "openai" "add them" []
             true 0%nat).
    vm_compute. reflexivity.
Defined.

Lemma Chat_channel_mirrors_history_witness :
  exists r st,
    Chat (calculator asks_once) "openai" "add them" [] true 0%nat
    = Some (r, st)
    /\ exists added,
         sent_messages (st_trace st)
         = mkMessage RoleUser (user_content "add them" []) "" [] :: added
         /\ (res_err r = None ->
             user_content "add them" [] <> [] ->
             res_messages r = sent_messages (st_trace st))
         /\ (res_err r <> None -> res_messages r = []).
Proof.
  eexists _, _. split.
  - vm_compute. reflexivity.
  - apply (Chat_channel_mirrors_history (calculator asks_once) "openai"
             "add them" [] 0%nat).
    vm_compute. reflexivity.
Defined.

Lemma Chat_tool_results_paired_witness :
  exists r st,
    Chat (calculator asks_once) "openai" "add them" [] true 0%nat
    = Some (r, st)
    /\ tool_result_ids (res_messages r) = executed_ids (st_trace st).
Proof.
  eexists _, _. split.
  - vm_compute. reflexivity.
  - apply (Chat_tool_results_paired (calculator asks_once) "openai"
             "add them" [] true 0%nat).
    + intros p req w0 resp w0' choice rest Hm Hc.
      destruct w0; simpl in Hm; injection Hm as <- _;
        simpl in Hc; injection Hc as <- _; discriminate.
    + vm_compute. reflexivity.
    + reflexivity.
Defined.


Lemma ConvertInterfaceToType_composite_witness :
  IsValidParameterType (TSlice (TInt Int)) = true
  /\ ConvertInterfaceToType (JNumber (float64.of_int 787)) (TSlice (TInt Int))
     = inl ("不支持的类型转换: " ++ Type_String (TSlice (TInt Int)))%string.
Proof.
  apply (ConvertInterfaceToType_composite (JNumber (float64.of_int 787))
           (TSlice (TInt Int))).
  - reflexivity.
  - discriminate.
Defined.


Lemma HandleToolCall_function_error_witness :
  (HandleToolCall (mkState failing 0%nat []) fails_call true).1 = None
  /\ history (st_cm (HandleToolCall (mkState failing 0%nat []) fails_call
                       true).2)
     = history failing
       ++ [tool_result_message fails_call
             ("函数执行错误: 函数执行错误: ERROR: " ++ "boom")%string].
Proof.
  apply (HandleToolCall_function_error (mkState failing 0%nat []) fails_call
           true Fails ∅ ["code"] [VInt Int 0] [VString ""] "boom").
  - vm_compute. reflexivity.
  - vm_compute. reflexivity.
  - vm_compute. reflexivity.
  - simpl. lia.
  - vm_compute. reflexivity.
  - reflexivity.
Defined.

Lemma ChatStream_keeps_max_tokens_witness :
  let r := openai.Client_ChatStream_request "gpt-5" default_request in
  openai.or_Model r = "gpt-5"
  /\ openai.or_Stream r = true
  /\ openai.or_MaxTokens r = Some (req_MaxTokens default_request)
  /\ openai.or_MaxCompletionTokens r = None.
Proof.
  apply (ChatStream_keeps_max_tokens "gpt-5" default_request).
  - reflexivity.
  - simpl. lia.
Defined.

Lemma ToDeepSeekRequest_prompt_needs_user_witness :
  deepseek.ToDeepSeekRequest quote_json no_user_request
  = deepseek.ToDeepSeekRequest quote_json
      (mkChatRequest (req_Model no_user_request) (req_Messages no_user_request)
         (req_Tools no_user_request) (req_MaxTokens no_user_request)
         (req_Temperature no_user_request) (req_Stream no_user_request) "").
Proof.
  apply (ToDeepSeekRequest_prompt_needs_user quote_json no_user_request).
  simpl. repeat constructor. discriminate.
Defined.

Lemma HandleToolCall_result_converts_witness :
  exists st',
    HandleToolCall (mkState (calculator keeps_asking) 0%nat [])
                   (add_call "call_1") true
    = (None, st')
    /\ exists text,
         text <> ""
         /\ history (st_cm st')
            = history (calculator keeps_asking)
              ++ [tool_result_message (add_call "call_1") text]
         /\ openai.convert_message
              (tool_result_message (add_call "call_1") text)
            = [openai.mkOpenAIMessage "tool" (openai.ContentString text) "" []
                 (openai.truncateToolCallID (tc_ID (add_call "call_1")))]
         /\ deepseek.convert_message quote_json "Be brief" true
              (tool_result_message (add_call "call_1") text)
            = ([deepseek.mkDeepSeekMessage "tool"
                  (deepseek.ContentString
                     (if String.eqb (tc_ID (add_call "call_1")) ""
                      then "" else text))
                  "" [] (tc_ID (add_call "call_1"))],
               true).
Proof.
  eexists. split.
  - vm_compute. reflexivity.
  - apply (HandleToolCall_result_converts quote_json
             (mkState (calculator keeps_asking) 0%nat []) (add_call "call_1")
             true _ "Be brief" true).
    vm_compute. reflexivity.
Defined.

End CoverageExamples.
